(** * excel_progress: the table store, its operation history and cell addressing

    A shallow embedding of [core/cell_operations.py], [core/table_history.py],
    [core/data_manager.py] and of the [filter_data] and [column_calculation]
    tools of [core/excel_agent.py], with the properties the specification
    states about them. A second part covers further operations of the same
    sources: column references, the reference checks of [utils/validators.py],
    reading and clearing the history, the table registry, and the
    [copy_column], [fill_na] and [insert_data] tools.

    Conventions.
    - Python [int] is [Z]; Python [float] is a binary64 primitive float.
    - Python [str] is [string], the string of its UTF-8 bytes. Cell, range
      and column references are modelled for ASCII text: [str.upper] and the
      class [\d] are Unicode-aware in Python, so a reference with a character
      outside ASCII is outside the model. Where the code strips whitespace,
      the text is read as its code points ([Py.code_points]).
    - A frame carries no dtypes: a cell holds any scalar. What pandas decides
      by the dtype of a column (whether a write is accepted and what is then
      stored, how a row is converted to the common dtype of the columns) is
      an answer of the environment ([Extern.Env]), as it depends on the
      dtypes and on the pandas version; a write that is refused is a failure
      path of the operation.
    - An expression handed to [DataFrame.query] can call methods of the
      objects it names, so its evaluation is a function of the store that
      returns the store as well ([ExcelAgent.Query]).
    - The [insert_data] tool is modelled with the validation of its
      arguments ([core/schemas.py]).
    - A [dict] is a [gmap]; a pandas [DataFrame] is an object on a heap,
      since the store, the undo stack and the redo stack can hold references
      to one and the same frame.
    - Wall-clock time stamps ([datetime.now()]) are left out of every record. *)

From Stdlib Require Import ZArith Lia Ascii String Floats.
From stdpp Require Import gmap strings list fin_maps.

Local Open Scope Z_scope.

(** ** Python built-ins used by the sources *)

Module Py.

Definition ord (c : ascii) : Z := Z.of_N (N_of_ascii c).
Definition chr (z : Z) : ascii := ascii_of_N (Z.to_N z).

Definition in_range (lo hi : ascii) (c : ascii) : bool :=
  (ord lo <=? ord c) && (ord c <=? ord hi).

(** [str.upper] on one character. *)
Definition upper_char (c : ascii) : ascii :=
  if in_range "a" "z" c then chr (ord c - 32) else c.

Definition upper (s : list ascii) : list ascii := map upper_char s.

(** The loop behind [str(n)] for [n >= 0]: least significant digit first,
    pushed in front of the text produced so far. *)
Fixpoint str_loop (fuel : nat) (n : Z) (acc : list ascii) : list ascii :=
  match fuel with
  | O => acc
  | S fuel' =>
      let acc' := chr (ord "0" + n mod 10) :: acc in
      if n / 10 =? 0 then acc' else str_loop fuel' (n / 10) acc'
  end.

Definition str_nonneg (n : Z) : list ascii := str_loop (S (Z.to_nat n)) n [].

(** [str(z)], also what [f"{z}"] prints. *)
Definition str (z : Z) : list ascii :=
  if z <? 0 then "-"%char :: str_nonneg (- z) else str_nonneg z.

(** [int(s)] on a string of decimal digits. *)
Definition int (s : list ascii) : Z :=
  fold_left (fun acc c => acc * 10 + (ord c - ord "0")) s 0.

(** [float(z)]: the binary64 float nearest to an integer. *)
Definition float (z : Z) : PrimFloat.float :=
  SF2Prim (SpecFloat.binary_normalize prec emax z 0 false).

(** The code points of a [str], which is held as the string of its UTF-8
    bytes. *)
Fixpoint code_points (s : list ascii) : list Z :=
  match s with
  | [] => []
  | b0 :: s1 =>
      if ord b0 <? 128 then ord b0 :: code_points s1
      else
        match s1 with
        | [] => [-1]
        | b1 :: s2 =>
            if ord b0 <? 224 then
              ((ord b0 - 192) * 64 + (ord b1 - 128)) :: code_points s2
            else
              match s2 with
              | [] => [-1]
              | b2 :: s3 =>
                  if ord b0 <? 240 then
                    ((ord b0 - 224) * 4096 + (ord b1 - 128) * 64 + (ord b2 - 128))
                      :: code_points s3
                  else
                    match s3 with
                    | [] => [-1]
                    | b3 :: s4 =>
                        ((ord b0 - 240) * 262144 + (ord b1 - 128) * 4096
                         + (ord b2 - 128) * 64 + (ord b3 - 128))
                          :: code_points s4
                    end
              end
        end
  end.

(** [enumerate(l)]. *)
Fixpoint enumerate_from {A} (i : Z) (l : list A) : list (Z * A) :=
  match l with
  | [] => []
  | x :: l' => (i, x) :: enumerate_from (i + 1) l'
  end.

Definition enumerate {A} (l : list A) : list (Z * A) := enumerate_from 0 l.

(** [l.split(sep)] for a one-character separator. *)
Fixpoint split (sep : ascii) (l : list ascii) : list (list ascii) :=
  match l with
  | [] => [[]]
  | c :: l' =>
      if Ascii.eqb c sep then [] :: split sep l'
      else match split sep l' with
           | [] => [[c]]
           | p :: ps => (c :: p) :: ps
           end
  end.

(** [l[i]] with Python's negative indices; [None] stands for [IndexError]. *)
Definition index {A} (l : list A) (i : Z) : option A :=
  let n := Z.of_nat (length l) in
  if (0 <=? i) && (i <? n) then l !! Z.to_nat i
  else if (- n <=? i) && (i <? 0) then l !! Z.to_nat (n + i)
  else None.

End Py.

(** ** [core/cell_operations.py] *)

Module CellOperations.
Import Py.

Definition is_AZ (c : ascii) : bool := in_range "A" "Z" c.
Definition is_digit (c : ascii) : bool := in_range "0" "9" c.

Fixpoint span (p : ascii -> bool) (l : list ascii) : list ascii * list ascii :=
  match l with
  | [] => ([], [])
  | c :: l' =>
      if p c then let '(a, b) := span p l' in (c :: a, b) else ([], l)
  end.

(** [re.match(r'^([A-Z]+)(\d+)$', s)]: the two classes are disjoint, so
    the only possible match takes the longest run of letters, then the longest
    run of digits; [$] matches at the end and also just before a final
    newline. *)
Definition re_match_cell (s : list ascii) : option (list ascii * list ascii) :=
  let '(col_str, rest) := span is_AZ s in
  let '(row_str, tail) := span is_digit rest in
  match col_str, row_str, tail with
  | _ :: _, _ :: _, [] => Some (col_str, row_str)
  | _ :: _, _ :: _, [nl] =>
      if Ascii.eqb nl "010" then Some (col_str, row_str) else None
  | _, _, _ => None
  end.

(** [col = 0; for i, c in enumerate(reversed(col_str)): col += ...; col -= 1] *)
Definition column_index (col_str : list ascii) : Z :=
  fold_left (fun col '(i, c) => col + (ord c - ord "A" + 1) * 26 ^ i)
            (enumerate (rev col_str)) 0 - 1.

Definition parse_cell_reference_l (cell_ref : list ascii) : option (Z * Z) :=
  match cell_ref with
  | [] => None
  | _ =>
      match re_match_cell (upper cell_ref) with
      | None => None
      | Some (col_str, row_str) =>
          let col := column_index col_str in
          let row := int row_str - 1 in
          Some (row, col)
      end
  end.

Definition parse_cell_reference (cell_ref : string) : option (Z * Z) :=
  parse_cell_reference_l (list_ascii_of_string cell_ref).

(** The [while temp_col > 0] loop shared by [cell_to_excel] and
    [column_to_excel]. *)
Fixpoint col_loop (fuel : nat) (temp_col : Z) (col_str : list ascii) : list ascii :=
  match fuel with
  | O => col_str
  | S fuel' =>
      if 0 <? temp_col then
        let temp_col := temp_col - 1 in
        col_loop fuel' (temp_col / 26) (chr (ord "A" + temp_col mod 26) :: col_str)
      else col_str
  end.

Definition column_letters (col : Z) : list ascii :=
  col_loop (Z.to_nat (col + 1)) (col + 1) [].

Definition column_to_excel (col : Z) : string :=
  string_of_list_ascii (column_letters col).

Definition cell_to_excel_l (row col : Z) : list ascii :=
  column_letters col ++ str (row + 1).

Definition cell_to_excel (row col : Z) : string :=
  string_of_list_ascii (cell_to_excel_l row col).

Definition parse_range (range_ref : string) : option (Z * Z * Z * Z) :=
  let l := list_ascii_of_string range_ref in
  match l with
  | [] => None
  | _ =>
      match split ":" l with
      | [p0; p1] =>
          match parse_cell_reference_l p0, parse_cell_reference_l p1 with
          | Some (r0, c0), Some (r1, c1) => Some (r0, c0, r1, c1)
          | _, _ => None
          end
      | _ => None
      end
  end.

Definition range_to_excel (start_row start_col end_row end_col : Z) : string :=
  string_of_list_ascii
    (cell_to_excel_l start_row start_col ++ ":"%char :: cell_to_excel_l end_row end_col).

Definition validate_cell_position (row col max_rows max_cols : Z) : bool :=
  (0 <=? row) && (row <? max_rows) && (0 <=? col) && (col <? max_cols).

Definition validate_range (start_row start_col end_row end_col max_rows max_cols : Z) : bool :=
  if negb ((0 <=? start_row) && (start_row <? max_rows)
           && (0 <=? start_col) && (start_col <? max_cols)) then false
  else if negb ((0 <=? end_row) && (end_row <? max_rows)
                && (0 <=? end_col) && (end_col <? max_cols)) then false
  else if (end_row <? start_row) || (end_col <? start_col) then false
  else true.

(** The letters the loop prints for [temp_col = t], and the number a run of
    letters stands for before the final [col -= 1]. *)
Definition letters (t : Z) : list ascii := col_loop (Z.to_nat t) t [].

Definition letters_value (s : list ascii) : Z := column_index s + 1.

(** A reference in the form [cell_to_excel] prints: capital letters, then a
    row number of at least 1 written without leading zeros. *)
Definition canonical_ref (s : list ascii) : Prop :=
  exists letters digits d,
    s = letters ++ d :: digits /\
    letters <> [] /\
    forallb is_AZ letters = true /\
    forallb is_digit (d :: digits) = true /\
    d <> "0"%char.

End CellOperations.

(** ** Cell values and frames *)

Module Frame.

(** A scalar held by a cell or used as a column label: [None], an [int], a
    [float] (NaN included) or a [str]. *)
Inductive value : Type :=
| VNone
| VInt (z : Z)
| VFloat (f : float)
| VStr (s : string).

(** The integer a finite float equals, if it equals one. *)
Definition float_to_int (f : float) : option Z :=
  match Prim2SF f with
  | S754_zero _ => Some 0
  | S754_finite sg m e =>
      let mag :=
        if 0 <=? e then Some (Z.pos m * 2 ^ e)
        else if Z.pos m mod 2 ^ (- e) =? 0 then Some (Z.pos m / 2 ^ (- e))
        else None in
      match mag with
      | Some v => Some (if sg then - v else v)
      | None => None
      end
  | _ => None
  end.

(** Python's [a == b] on scalars: numbers compare by numerical value. *)
Definition py_eq (a b : value) : bool :=
  match a, b with
  | VNone, VNone => true
  | VInt x, VInt y => x =? y
  | VFloat x, VFloat y => PrimFloat.eqb x y
  | VInt x, VFloat y | VFloat y, VInt x =>
      match float_to_int y with Some v => x =? v | None => false end
  | VStr x, VStr y => String.eqb x y
  | _, _ => false
  end.

(** [x in seen] for a set (or an index) of scalars. *)
Definition py_in (x : value) (seen : list value) : bool := existsb (py_eq x) seen.

(** [pd.isna(v)] *)
Definition isna (v : value) : bool :=
  match v with
  | VNone => true
  | VFloat f => PrimFloat.is_nan f
  | _ => false
  end.

(** A frame: its column labels and its rows, addressed by position as
    [df.iloc] does. Every row has one cell per column. *)
Record DataFrame : Type := {
  columns : list value;
  rows : list (list value)
}.

Definition len (df : DataFrame) : Z := Z.of_nat (length (rows df)).
Definition ncols (df : DataFrame) : Z := Z.of_nat (length (columns df)).

Definition rectangular (df : DataFrame) : Prop :=
  Forall (fun r => length r = length (columns df)) (rows df).

(** [df.iloc[row, col] = v], for a position inside the frame. *)
Definition iloc_set (df : DataFrame) (row col : Z) (v : value) : DataFrame :=
  {| columns := columns df;
     rows := alter (fun r => <[Z.to_nat col := v]> r) (Z.to_nat row) (rows df) |}.


Definition loc := nat.

Definition is_text (v : value) : bool :=
  match v with VStr _ => true | _ => false end.

(** Whether some cell of the frame holds text. *)
Definition has_text (df : DataFrame) : bool := existsb (existsb is_text) (rows df).

End Frame.

(** ** What the sources take from outside: files, paths and pandas' parsers *)

Module Extern.
Import Frame.

(** An entry of a numeric column. *)
Inductive numeric : Type :=
| NInt (z : Z)
| NFloat (f : float).

Record Env : Type := {
  (** [pd.read_excel(file_path, sheet_name)]; [None] when it raises. *)
  read_excel : string -> option string -> option DataFrame;
  (** whether [df.to_excel(output_path, index=False)] returns normally. *)
  to_excel : DataFrame -> string -> bool;
  (** [Path(p).stem] and [Path(p).name]. *)
  path_stem : string -> string;
  path_name : string -> string;
  (** the number a string denotes for [pd.to_numeric], if any. *)
  str_to_numeric : string -> option numeric;
  (** [df.iloc[row, col] = value] at a position inside the frame. pandas
      decides by the dtype of the column, which a frame here does not carry,
      and by its version, whether it stores the value as given, stores it
      converted to that dtype, or raises: [None] when it raises, which leaves
      the frame as it was, and otherwise the frame as written. *)
  iloc_setitem : DataFrame -> Z -> Z -> value -> option DataFrame;
  (** a cell of a frame of numbers as an element of the array of the common
      dtype of the columns, of which [df.values] and a row [df.iloc[i]] are
      made: an integer of an int64 column that stands beside a float64 column
      becomes a float. *)
  interleaved : DataFrame -> value -> value;
  (** [df.iloc[r:r+h, c:c+w] = block] for a block of the shape [(h, w)] of
      the range: whether pandas accepts the cells for the dtypes of the
      columns, and the frame as it leaves it. When it raises on the
      column-by-column path, the columns written before the one it refuses
      stay written. *)
  iloc_setblock : DataFrame -> nat -> nat -> list (list value) -> bool * DataFrame;
  (** [df.loc[mask, label] = new] for a label that names one column, given
      with the column the assignment asks for (the new cell in the rows of
      the mask, the old cell elsewhere): [None] when pandas refuses a new
      cell for the dtype of the column, and otherwise the frame as written. *)
  loc_setitem : DataFrame -> value -> list value -> option DataFrame;
  (** whether pandas writes a block into this frame as one array (a frame
      stored as a single block that can hold the new cells) or column by
      column. *)
  single_block_path : DataFrame -> list (list value) -> bool
}.

End Extern.

(** ** [core/table_history.py] *)

Module TableHistory.
Import Frame.

Inductive OperationType : Type :=
| LOAD | SAVE | CALCULATE | FILTER | SORT | GROUP | EXTRACT | INSERT | MERGE
| UPDATE | FILL | COPY_COLUMN | COLUMN_CALCULATION | SET_HEADER | DETECT_HEADER.

Record OperationRecord : Type := {
  operation_type : OperationType;
  table_name : string;
  description : string;
  parameters : list (string * value);
  result_summary : string
}.

(** An entry of a snapshot list, [{"timestamp": ..., "data": snapshot}]:
    a reference to the copied frame. *)
Record Snapshot : Type := { data : loc }.

Record TableHistory : Type := {
  history : list OperationRecord;
  limit : Z;
  _snapshot_cache : gmap string (list Snapshot);
  _redo_stack : gmap string (list Snapshot)
}.

(** [TableHistory(limit)] *)
Definition init (limit : Z) : TableHistory :=
  {| history := []; limit := limit; _snapshot_cache := ∅; _redo_stack := ∅ |}.

Definition default_limit : Z := 50.

(** [l.pop(0)] on a non-empty list, keeping the rest. *)
Definition pop_front {A} (l : list A) : list A := tail l.

Definition add_operation (self : TableHistory) (record : OperationRecord) : TableHistory :=
  let history1 := history self ++ [record] in
  let history2 :=
    if limit self <? Z.of_nat (length history1) then pop_front history1 else history1 in
  {| history := history2;
     limit := limit self;
     _snapshot_cache := _snapshot_cache self;
     _redo_stack := ∅ |}.

(** [copy.deepcopy(table_data)]: a new object holding the same contents. *)
Definition deepcopy (hp : gmap loc DataFrame) (table_data : DataFrame)
  : gmap loc DataFrame * loc :=
  let l := fresh (dom hp) in (<[l := table_data]> hp, l).

Definition save_snapshot (hp : gmap loc DataFrame) (self : TableHistory)
    (table_name : string) (table_data : DataFrame)
  : gmap loc DataFrame * TableHistory :=
  let snapshots := default [] (_snapshot_cache self !! table_name) in
  let '(hp', snapshot) := deepcopy hp table_data in
  let snapshots1 := snapshots ++ [{| data := snapshot |}] in
  let snapshots2 :=
    if 10 <? Z.of_nat (length snapshots1) then pop_front snapshots1 else snapshots1 in
  (hp',
   {| history := history self;
      limit := limit self;
      _snapshot_cache := <[table_name := snapshots2]> (_snapshot_cache self);
      _redo_stack := _redo_stack self |}).

Definition can_undo (self : TableHistory) (table_name : string) : bool :=
  match _snapshot_cache self !! table_name with
  | None => false
  | Some snapshots => 1 <? Z.of_nat (length snapshots)
  end.

Definition can_redo (self : TableHistory) (table_name : string) : bool :=
  match _redo_stack self !! table_name with
  | None => false
  | Some redo_stack => 0 <? Z.of_nat (length redo_stack)
  end.

(** [undo]: the restored frame (a reference into the snapshot list, not a
    copy) and the history afterwards; [None] when there is nothing to undo. *)
Definition undo (self : TableHistory) (table_name : string)
  : option loc * TableHistory :=
  if negb (can_undo self table_name) then (None, self)
  else
    let snapshots := default [] (_snapshot_cache self !! table_name) in
    match last snapshots with
    | None => (None, self)
    | Some current =>
        let snapshots' := removelast snapshots in
        let redo := default [] (_redo_stack self !! table_name) in
        let self' :=
          {| history := history self;
             limit := limit self;
             _snapshot_cache := <[table_name := snapshots']> (_snapshot_cache self);
             _redo_stack := <[table_name := redo ++ [current]]> (_redo_stack self) |} in
        (data <$> last snapshots', self')
    end.

Definition redo (self : TableHistory) (table_name : string)
  : option loc * TableHistory :=
  if negb (can_redo self table_name) then (None, self)
  else
    let redo_stack := default [] (_redo_stack self !! table_name) in
    match last redo_stack with
    | None => (None, self)
    | Some snapshot =>
        let snapshots := default [] (_snapshot_cache self !! table_name) in
        let self' :=
          {| history := history self;
             limit := limit self;
             _snapshot_cache := <[table_name := snapshots ++ [snapshot]]> (_snapshot_cache self);
             _redo_stack := <[table_name := removelast redo_stack]> (_redo_stack self) |} in
        (Some (data snapshot), self')
    end.

Definition get_history (self : TableHistory) (table_name : option string)
  : list OperationRecord :=
  match table_name with
  | None => history self
  | Some n => filter (fun r => TableHistory.table_name r = n) (history self)
  end.

End TableHistory.

(** ** [core/table_metadata.py] *)

Module TableMetadata.
Import Frame.

(** [created_at] and [last_modified] are time stamps; [data_types] holds the
    dtype names pandas reports, which the frame model does not track. *)
Record TableMetadata : Type := {
  name : string;
  file_path : string;
  columns : list value;
  total_rows : Z;
  header_row : Z;
  file_size : Z;
  sheet_name : string
}.

Definition set_header_row (m : TableMetadata) (header_row : Z) : TableMetadata :=
  {| name := name m; file_path := file_path m; columns := columns m;
     total_rows := total_rows m; header_row := header_row;
     file_size := file_size m; sheet_name := sheet_name m |}.

End TableMetadata.

(** ** [core/data_manager.py] *)

Module DataManager.
Import Frame Extern.

Record DataManager : Type := {
  (** the frames alive in the session *)
  heap : gmap loc DataFrame;
  tables : gmap string loc;
  table_metadata : gmap string TableMetadata.TableMetadata;
  active_table : option string;
  history : TableHistory.TableHistory;
  last_saved_filename : option string
}.

(** [DataManager()] *)
Definition init : DataManager :=
  {| heap := ∅; tables := ∅; table_metadata := ∅; active_table := None;
     history := TableHistory.init 50; last_saved_filename := None |}.

Definition with_heap (dm : DataManager) (hp : gmap loc DataFrame) : DataManager :=
  {| heap := hp; tables := tables dm; table_metadata := table_metadata dm;
     active_table := active_table dm; history := history dm;
     last_saved_filename := last_saved_filename dm |}.

Definition with_tables (dm : DataManager) (t : gmap string loc) : DataManager :=
  {| heap := heap dm; tables := t; table_metadata := table_metadata dm;
     active_table := active_table dm; history := history dm;
     last_saved_filename := last_saved_filename dm |}.

Definition with_table_metadata (dm : DataManager)
    (m : gmap string TableMetadata.TableMetadata) : DataManager :=
  {| heap := heap dm; tables := tables dm; table_metadata := m;
     active_table := active_table dm; history := history dm;
     last_saved_filename := last_saved_filename dm |}.

Definition with_active_table (dm : DataManager) (a : option string) : DataManager :=
  {| heap := heap dm; tables := tables dm; table_metadata := table_metadata dm;
     active_table := a; history := history dm;
     last_saved_filename := last_saved_filename dm |}.

Definition with_history (dm : DataManager) (h : TableHistory.TableHistory) : DataManager :=
  {| heap := heap dm; tables := tables dm; table_metadata := table_metadata dm;
     active_table := active_table dm; history := h;
     last_saved_filename := last_saved_filename dm |}.

Definition with_last_saved_filename (dm : DataManager) (f : option string) : DataManager :=
  {| heap := heap dm; tables := tables dm; table_metadata := table_metadata dm;
     active_table := active_table dm; history := history dm;
     last_saved_filename := f |}.

(** [self.tables.get(table_name)]: the frame the name is bound to. In every
    state the session can reach a bound name refers to a live frame, so
    [table_name not in self.tables] is read as this lookup giving [None]. *)
Definition get_table (dm : DataManager) (table_name : string) : option DataFrame :=
  tables dm !! table_name ≫= fun l => heap dm !! l.

(** [a or b] on optional strings: [None] and the empty string are falsy. *)
Definition str_or (a : option string) (b : string) : string :=
  match a with
  | Some s => if String.eqb s EmptyString then b else s
  | None => b
  end.

Definition _update_table_metadata (dm : DataManager) (table_name : string)
    (file_path sheet_name : option string) : DataManager :=
  match get_table dm table_name with
  | None => dm
  | Some df =>
      let existing_metadata := table_metadata dm !! table_name in
      let header_row :=
        match existing_metadata with
        | Some m => TableMetadata.header_row m
        | None => 0
        end in
      let metadata :=
        {| TableMetadata.name := table_name;
           TableMetadata.file_path :=
             str_or file_path
               (match existing_metadata with
                | Some m => TableMetadata.file_path m
                | None => EmptyString
                end);
           TableMetadata.columns := columns df;
           TableMetadata.total_rows := len df;
           TableMetadata.header_row := header_row;
           TableMetadata.file_size :=
             match existing_metadata with
             | Some m => TableMetadata.file_size m
             | None => 0
             end;
           TableMetadata.sheet_name :=
             str_or sheet_name
               (match existing_metadata with
                | Some m => TableMetadata.sheet_name m
                | None => "Sheet1"%string
                end) |} in
      with_table_metadata dm (<[table_name := metadata]> (table_metadata dm))
  end.

(** [DataManager.save_snapshot] *)
Definition save_snapshot (dm : DataManager) (table_name : string) : DataManager :=
  match get_table dm table_name with
  | None => dm
  | Some df =>
      let '(hp, h) := TableHistory.save_snapshot (heap dm) (history dm) table_name df in
      with_history (with_heap dm hp) h
  end.

Definition record (t : TableHistory.OperationType) (table_name description : string)
    (parameters : list (string * value)) : TableHistory.OperationRecord :=
  {| TableHistory.operation_type := t;
     TableHistory.table_name := table_name;
     TableHistory.description := description;
     TableHistory.parameters := parameters;
     TableHistory.result_summary := EmptyString |}.

Definition opt_str (s : option string) : value :=
  match s with Some s => VStr s | None => VNone end.

Definition load_table (env : Env) (dm : DataManager) (file_path : string)
    (table_name sheet_name : option string) : bool * DataManager :=
  let table_name := default (path_stem env file_path) table_name in
  match read_excel env file_path sheet_name with
  | None => (false, dm)
  | Some df =>
      let l := fresh (dom (heap dm)) in
      let dm1 := with_tables (with_heap dm (<[l := df]> (heap dm)))
                             (<[table_name := l]> (tables dm)) in
      let dm2 := _update_table_metadata dm1 table_name (Some file_path)
                   (Some (str_or sheet_name "Sheet1")) in
      let dm3 :=
        match active_table dm2 with
        | None => with_active_table dm2 (Some table_name)
        | Some _ => dm2
        end in
      let '(hp, h) := TableHistory.save_snapshot (heap dm3) (history dm3) table_name df in
      let dm4 := with_history (with_heap dm3 hp) h in
      (true,
       with_history dm4
         (TableHistory.add_operation (history dm4)
            (record TableHistory.LOAD table_name ("加载表格: " +:+ file_path)
               [("file_path"%string, VStr file_path);
                ("sheet_name"%string, opt_str sheet_name)])))
  end.

Definition save_table (env : Env) (dm : DataManager) (table_name output_path : string)
  : bool * DataManager :=
  match get_table dm table_name with
  | None => (false, dm)
  | Some df =>
      if negb (to_excel env df output_path) then (false, dm)
      else
        let dm1 := with_last_saved_filename dm (Some (path_name env output_path)) in
        let dm2 := save_snapshot dm1 table_name in
        (true,
         with_history dm2
           (TableHistory.add_operation (history dm2)
              (record TableHistory.SAVE table_name ("保存表格到: " +:+ output_path)
                 [("output_path"%string, VStr output_path)])))
  end.


(** [df.iloc[row, col] = value] writes into the frame the table name is bound
    to, whoever else holds a reference to it. Unpacking the [None] of a
    reference that does not parse raises, and so does a write that pandas
    refuses; the [except] turns both into [False], before any snapshot is
    taken. *)
Definition set_cell_value (env : Env) (dm : DataManager) (table_name cell_ref : string)
    (v : value) : bool * DataManager :=
  match tables dm !! table_name with
  | None => (false, dm)
  | Some l =>
      match heap dm !! l with
      | None => (false, dm)
      | Some df =>
          match CellOperations.parse_cell_reference cell_ref with
          | None => (false, dm)
          | Some (row, col) =>
              if negb (CellOperations.validate_cell_position row col (len df) (ncols df))
              then (false, dm)
              else
                match iloc_setitem env df row col v with
                | None => (false, dm)
                | Some df' =>
                    let dm1 := with_heap dm (<[l := df']> (heap dm)) in
                    let dm2 := save_snapshot dm1 table_name in
                    (true, _update_table_metadata dm2 table_name None None)
                end
          end
      end
  end.


(** [df.iloc[i].tolist()] and a row of [df.values]: the cells converted to
    the common dtype of the columns. A frame that holds a text cell has a
    column of dtype object (or str), so that the common dtype keeps every
    cell as it is; for a frame without text the environment answers. *)
Definition tolist (env : Env) (df : DataFrame) (r : list value) : list value :=
  if has_text df then r else map (interleaved env df) r.

(** [values.values], with the labels of [values] kept for its width. *)
Definition values_array (env : Env) (values : DataFrame) : DataFrame :=
  {| columns := columns values; rows := map (tolist env values) (rows values) |}.

(** The right-hand side [values.values] is a two-dimensional array of shape
    [(len(values), len(values.columns))]. pandas hands its rows to numpy's
    assignment, which repeats a single row down the range; a single column
    is repeated across the range only on the single-block path, the
    column-by-column path asks for as many columns as the range has. Any other
    shape raises [ValueError]. *)
Definition broadcast_cols (spread : bool) (c vc : nat) (r : list value) : option (list value) :=
  if Nat.eqb vc c then Some r
  else if Nat.eqb vc 1 && spread then
    match r with
    | [x] => Some (replicate c x)
    | _ => None
    end
  else None.

Definition broadcast (spread : bool) (r c : nat) (values : DataFrame)
  : option (list (list value)) :=
  let vr := length (rows values) in
  let vc := length (columns values) in
  match mapM (broadcast_cols spread c vc) (rows values) with
  | None => None
  | Some block =>
      if Nat.eqb vr r then Some block
      else if Nat.eqb vr 1 then
        match block with
        | [x] => Some (replicate r x)
        | _ => None
        end
      else None
  end.

Definition write_row (start_col : nat) (new old : list value) : list value :=
  take start_col old ++ new ++ drop (start_col + length new) old.

(** [df.iloc[start_row:start_row+r, start_col:...] = block] for a block of
    the range's shape, when every cell is stored as it is given. *)
Definition iloc_set_block (df : DataFrame) (start_row start_col : nat)
    (block : list (list value)) : DataFrame :=
  let r := length block in
  {| columns := columns df;
     rows := take start_row (rows df)
             ++ zip_with (write_row start_col) block (take r (drop start_row (rows df)))
             ++ drop (start_row + r) (rows df) |}.

(** [set_range_values] has no check of the shape and no roll-back: a shape
    that cannot be broadcast raises before anything is written; a cell that
    pandas refuses for the dtype of its column raises after the columns before
    it have been written. The [except] turns both into [False]. *)
Definition set_range_values (env : Env) (dm : DataManager) (table_name range_ref : string)
    (values : DataFrame) : bool * DataManager :=
  match tables dm !! table_name with
  | None => (false, dm)
  | Some l =>
      match heap dm !! l with
      | None => (false, dm)
      | Some df =>
          match CellOperations.parse_range range_ref with
          | None => (false, dm)
          | Some (start_row, start_col, end_row, end_col) =>
              if negb (CellOperations.validate_range start_row start_col end_row end_col
                         (len df) (ncols df))
              then (false, dm)
              else
                let array := values_array env values in
                match broadcast (single_block_path env df (rows array))
                        (Z.to_nat (end_row + 1 - start_row))
                        (Z.to_nat (end_col + 1 - start_col)) array with
                | None => (false, dm)
                | Some block =>
                    let '(accepted, df') :=
                      iloc_setblock env df (Z.to_nat start_row) (Z.to_nat start_col) block in
                    let dm1 := with_heap dm (<[l := df']> (heap dm)) in
                    if accepted then (true, _update_table_metadata dm1 table_name None None)
                    else (false, dm1)
                end
          end
      end
  end.

(** The loop of [set_header_row] that makes the new labels: a repeated,
    missing or empty label becomes [column_<i>]. *)
Fixpoint unique_header_loop (cols : list (Z * value)) (seen unique_header : list value)
  : list value :=
  match cols with
  | [] => unique_header
  | (i, col) :: cols' =>
      let col :=
        if py_in col seen || isna col || py_eq col (VStr EmptyString)
        then VStr ("column_" +:+ string_of_list_ascii (Py.str i))
        else col in
      unique_header_loop cols' (col :: seen) (unique_header ++ [col])
  end.

Definition make_unique_header (new_header : list value) : list value :=
  unique_header_loop (Py.enumerate new_header) [] [].

(** The labels as the [Index] holds them that [df.columns = labels] builds
    from the list: labels that are all numbers, a float among them, are held
    as floats, an integer label as the float of the same value; other labels
    are held as they are. *)
Definition index_labels (labels : list value) : list value :=
  if forallb (fun v => match v with VInt _ | VFloat _ => true | _ => false end) labels
     && existsb (fun v => match v with VFloat _ => true | _ => false end) labels
  then map (fun v => match v with VInt z => VFloat (Py.float z) | _ => v end) labels
  else labels.

(** The result dictionary of [set_header_row]; the text of an error is left
    out. *)
Inductive set_header_result : Type :=
| SetHeaderOk (table_name : string) (header_row : Z) (new_columns : list value)
              (message : string)
| SetHeaderError.

Definition str_s (z : Z) : string := string_of_list_ascii (Py.str z).

(** [new_header = df.iloc[header_row].tolist()] takes the row as one series
    of the common dtype of the columns. [df.columns = unique_header] relabels
    the bound frame in place, with the labels as the new [Index] holds them;
    for [header_row > 0] the name is then bound to a new frame holding the
    rows below the header row. The result carries the list [unique_header]
    itself. *)
Definition set_header_row (env : Env) (dm : DataManager) (table_name : string)
    (header_row : Z) : set_header_result * DataManager :=
  match tables dm !! table_name with
  | None => (SetHeaderError, dm)
  | Some l =>
      match heap dm !! l with
      | None => (SetHeaderError, dm)
      | Some df =>
          if len df <=? header_row then (SetHeaderError, dm)
          else
            match Py.index (rows df) header_row with
            | None => (SetHeaderError, dm)
            | Some row =>
                let new_header := tolist env df row in
                let unique_header := make_unique_header new_header in
                let labels := index_labels unique_header in
                let df1 := {| columns := labels; rows := rows df |} in
                let dm1 := with_heap dm (<[l := df1]> (heap dm)) in
                let dm2 :=
                  if 0 <? header_row then
                    let df2 := {| columns := labels;
                                  rows := drop (Z.to_nat (header_row + 1)) (rows df) |} in
                    let l2 := fresh (dom (heap dm1)) in
                    with_tables (with_heap dm1 (<[l2 := df2]> (heap dm1)))
                                (<[table_name := l2]> (tables dm1))
                  else with_tables dm1 (<[table_name := l]> (tables dm1)) in
                let dm3 := _update_table_metadata dm2 table_name None None in
                let dm4 :=
                  match table_metadata dm3 !! table_name with
                  | Some m =>
                      with_table_metadata dm3
                        (<[table_name := TableMetadata.set_header_row m header_row]>
                           (table_metadata dm3))
                  | None => dm3
                  end in
                let dm5 :=
                  with_history dm4
                    (TableHistory.add_operation (history dm4)
                       (record TableHistory.SET_HEADER table_name
                          ("设置表头行为: " +:+ str_s header_row)
                          [("header_row"%string, VInt header_row)])) in
                (SetHeaderOk table_name header_row unique_header
                   ("已将第 " +:+ str_s (header_row + 1) +:+ " 行设置为表头，包含 "
                    +:+ str_s (Z.of_nat (length unique_header)) +:+ " 列"),
                 dm5)
            end
      end
  end.

(** [table_name] or, when it is [None], the active table. *)
Definition resolve (dm : DataManager) (table_name : option string) : option string :=
  match table_name with
  | Some n => Some n
  | None => active_table dm
  end.

Definition can_undo (dm : DataManager) (table_name : option string) : bool :=
  match resolve dm table_name with
  | None => false
  | Some n => TableHistory.can_undo (history dm) n
  end.

Definition can_redo (dm : DataManager) (table_name : option string) : bool :=
  match resolve dm table_name with
  | None => false
  | Some n => TableHistory.can_redo (history dm) n
  end.

(** [self.tables[table_name] = restored_data] binds the name to the very
    frame the snapshot list holds. *)
Definition undo (dm : DataManager) (table_name : option string) : bool * DataManager :=
  match resolve dm table_name with
  | None => (false, dm)
  | Some n =>
      if negb (can_undo dm (Some n)) then (false, dm)
      else
        let '(restored_data, h) := TableHistory.undo (history dm) n in
        let dm1 := with_history dm h in
        match restored_data with
        | Some l =>
            (true,
             _update_table_metadata (with_tables dm1 (<[n := l]> (tables dm1))) n None None)
        | None => (false, dm1)
        end
  end.

Definition redo (dm : DataManager) (table_name : option string) : bool * DataManager :=
  match resolve dm table_name with
  | None => (false, dm)
  | Some n =>
      if negb (can_redo dm (Some n)) then (false, dm)
      else
        let '(restored_data, h) := TableHistory.redo (history dm) n in
        let dm1 := with_history dm h in
        match restored_data with
        | Some l =>
            (true,
             _update_table_metadata (with_tables dm1 (<[n := l]> (tables dm1))) n None None)
        | None => (false, dm1)
        end
  end.

End DataManager.

(** ** The [filter_data] and [column_calculation] tools of [core/excel_agent.py] *)

Module ExcelAgent.
Import Frame Extern.

(** The dictionary a tool returns, before it is printed as JSON; the text of
    an error is left out. *)
Inductive filter_result : Type :=
| FilterOk (condition table_name : string) (rows : Z)
           (sample_data : list (list (value * value)))
| FilterError.

(** [str(v) if pd.isna(v) else v] *)
Definition show_missing (v : value) : value :=
  if isna v then
    match v with
    | VNone => VStr "None"
    | _ => VStr "nan"
    end
  else v.

(** One entry of [sample_data]: the cells of a row under their labels, in
    column order. *)
Definition sample_record (df : DataFrame) (r : list value) : list (value * value) :=
  zip (columns df) (map show_missing r).

(** [df.query(condition)]. Evaluating a condition can run code: pandas
    resolves a name prefixed with [@] among the local variables of
    [filter_data], of which [df] is the stored frame itself, and calls the
    methods the condition names. So the evaluation is given the store and the
    frame object queried, and returns the store as it leaves it beside the
    new frame holding the rows selected ([None] when it raises). *)
Definition Query : Type :=
  DataManager.DataManager -> loc -> string ->
  option DataFrame * DataManager.DataManager.

Definition filter_data (query : Query) (dm : DataManager.DataManager) (condition : string)
    (table_name : option string) : filter_result * DataManager.DataManager :=
  match DataManager.resolve dm table_name with
  | None => (FilterError, dm)
  | Some n =>
      match DataManager.tables dm !! n with
      | None => (FilterError, dm)
      | Some df =>
          match DataManager.heap dm !! df with
          | None => (FilterError, dm)
          | Some _ =>
              let '(filtered, dm1) := query dm df condition in
              match filtered with
              | None => (FilterError, dm1)
              | Some filtered_df =>
                  let sample_data :=
                    map (sample_record filtered_df) (take 5 (rows filtered_df)) in
                  (FilterOk condition n (len filtered_df) sample_data, dm1)
              end
          end
      end
  end.

(** [pd.to_numeric(series, errors='coerce')]: a column whose cells all are
    integers stays an [int64] column; otherwise it is a [float64] column in
    which a cell that is no number is NaN. Integers are taken to fit 64 bits. *)
Inductive numeric_column : Type :=
| IntColumn (l : list Z)
| FloatColumn (l : list float).

Definition cell_numeric (env : Env) (v : value) : option numeric :=
  match v with
  | VInt z => Some (NInt z)
  | VFloat f => Some (NFloat f)
  | VStr s => str_to_numeric env s
  | VNone => None
  end.

Definition float_of_int (z : Z) : float :=
  SF2Prim (SpecFloat.binary_normalize prec emax z 0 false).

Definition as_int (n : option numeric) : option Z :=
  match n with
  | Some (NInt z) => Some z
  | _ => None
  end.

Definition as_float (n : option numeric) : float :=
  match n with
  | Some (NInt z) => float_of_int z
  | Some (NFloat f) => f
  | None => nan
  end.

Definition to_numeric (env : Env) (col : list value) : numeric_column :=
  let cells := map (cell_numeric env) col in
  match mapM as_int cells with
  | Some zs => IntColumn zs
  | None => FloatColumn (map as_float cells)
  end.

Definition floats (c : numeric_column) : list float :=
  match c with
  | IntColumn l => map float_of_int l
  | FloatColumn l => l
  end.

(** [int64] arithmetic wraps around. *)
Definition wrap64 (z : Z) : Z := (z + 2 ^ 63) mod 2 ^ 64 - 2 ^ 63.

Definition elementwise (int_op : Z -> Z -> Z) (float_op : float -> float -> float)
    (c1 c2 : numeric_column) : list value :=
  match c1, c2 with
  | IntColumn a, IntColumn b => map VInt (zip_with (fun x y => wrap64 (int_op x y)) a b)
  | _, _ => map VFloat (zip_with float_op (floats c1) (floats c2))
  end.

(** [col1_data / col2_data] is true division, carried out on floats. *)
Definition arithmetic (operation : string) (c1 c2 : numeric_column) : option (list value) :=
  if String.eqb operation "add" then Some (elementwise Z.add PrimFloat.add c1 c2)
  else if String.eqb operation "subtract" then Some (elementwise Z.sub PrimFloat.sub c1 c2)
  else if String.eqb operation "multiply" then Some (elementwise Z.mul PrimFloat.mul c1 c2)
  else if String.eqb operation "divide" then
    Some (map VFloat (zip_with PrimFloat.div (floats c1) (floats c2)))
  else None.

(** [df[label]] as a series: the label has to name exactly one column
    ([pd.to_numeric] raises on the frame a repeated label selects). *)
Definition get_column (df : DataFrame) (label : value) : option (list value) :=
  match filter (fun j => py_eq label (default VNone (columns df !! j)) = true)
               (seq 0 (length (columns df))) with
  | [j] => Some (map (fun r => default VNone (r !! j)) (rows df))
  | _ => None
  end.

Fixpoint overwrite (label : value) (v : value) (cols r : list value) : list value :=
  match cols, r with
  | c :: cols', x :: r' => (if py_eq label c then v else x) :: overwrite label v cols' r'
  | _, _ => r
  end.

(** [df[label] = data]: fills the column(s) of that label, or appends a new
    last column. *)
Definition set_column (df : DataFrame) (label : value) (data : list value) : DataFrame :=
  if py_in label (columns df) then
    {| columns := columns df;
       rows := zip_with (fun r v => overwrite label v (columns df) r) (rows df) data |}
  else
    {| columns := columns df ++ [label];
       rows := zip_with (fun r v => r ++ [v]) (rows df) data |}.

Inductive calc_result : Type :=
| CalcOk (operation column1 column2 target_column table_name : string) (rows_updated : Z)
| CalcError.

(** The result is written to a copy of the frame, and the table name is
    bound to that copy; the [astype('object')] calls change dtypes only. *)
Definition column_calculation (env : Env) (dm : DataManager.DataManager)
    (operation column1 column2 target_column : string) (table_name : option string)
  : calc_result * DataManager.DataManager :=
  match DataManager.resolve dm table_name with
  | None => (CalcError, dm)
  | Some n =>
      match DataManager.get_table dm n with
      | None => (CalcError, dm)
      | Some df =>
          if negb (py_in (VStr column1) (columns df)) then (CalcError, dm)
          else if negb (py_in (VStr column2) (columns df)) then (CalcError, dm)
          else
            match get_column df (VStr column1), get_column df (VStr column2) with
            | Some col1, Some col2 =>
                let col1_data := to_numeric env col1 in
                let col2_data := to_numeric env col2 in
                match arithmetic operation col1_data col2_data with
                | None => (CalcError, dm)
                | Some result_data =>
                    let df_copy := set_column df (VStr target_column) result_data in
                    let l := fresh (dom (DataManager.heap dm)) in
                    let dm1 :=
                      DataManager.with_tables
                        (DataManager.with_heap dm (<[l := df_copy]> (DataManager.heap dm)))
                        (<[n := l]> (DataManager.tables dm)) in
                    (CalcOk operation column1 column2 target_column n (len df),
                     DataManager._update_table_metadata dm1 n None None)
                end
            | _, _ => (CalcError, dm)
            end
      end
  end.

End ExcelAgent.


(** * Runs of operations and sample sessions *)

Module Session.
Import Frame Extern.

(** Appending records one after the other. *)
Definition add_operations (self : TableHistory.TableHistory)
    (records : list TableHistory.OperationRecord) : TableHistory.TableHistory :=
  fold_left TableHistory.add_operation records self.

(** [k] calls of [undo] in a row on one table: whether all of them succeeded,
    and the state after the last one. *)
Fixpoint undo_times (k : nat) (dm : DataManager.DataManager) (table_name : string)
  : bool * DataManager.DataManager :=
  match k with
  | O => (true, dm)
  | S k' =>
      let '(ok, dm1) := DataManager.undo dm (Some table_name) in
      if ok then undo_times k' dm1 table_name else (false, dm1)
  end.

(** The history after [undo] took [top] off the stack of [n]. *)
Definition history_undone (self : TableHistory.TableHistory) (n : string)
    (below : list TableHistory.Snapshot) (top : TableHistory.Snapshot)
  : TableHistory.TableHistory :=
  {| TableHistory.history := TableHistory.history self;
     TableHistory.limit := TableHistory.limit self;
     TableHistory._snapshot_cache := <[n := below]> (TableHistory._snapshot_cache self);
     TableHistory._redo_stack :=
       <[n := default [] (TableHistory._redo_stack self !! n) ++ [top]]>
         (TableHistory._redo_stack self) |}.

(** The store after a successful [undo] or [redo] put the frame [l] back. *)
Definition restored (dm : DataManager.DataManager) (n : string) (h : TableHistory.TableHistory)
    (l : loc) : DataManager.DataManager :=
  DataManager._update_table_metadata
    (DataManager.with_tables (DataManager.with_history dm h)
       (<[n := l]> (DataManager.tables dm)))
    n None None.

End Session.

(** A small session used to exercise the operations: one workbook whose
    first data row holds the intended headers, one with two columns to
    divide. *)
Module Sample.
Import Frame Extern.

Definition book : DataFrame :=
  {| columns := [VStr "Unnamed: 0"; VStr "Unnamed: 1"];
     rows := [[VStr "h1"; VStr "h2"]; [VInt 1; VInt 2]; [VInt 3; VInt 4]] |}.

Definition ledger : DataFrame :=
  {| columns := [VStr "a"; VStr "b"];
     rows := [[VInt 10; VInt 2]; [VStr "abc"; VInt 2]; [VInt 6; VInt 0]] |}.

Definition rates : DataFrame :=
  {| columns := [VStr "n"; VStr "rate"];
     rows := [[VInt 3; VFloat 4.5]; [VInt 1; VFloat 0.5]] |}.

(** The dtypes of the sample frames are those pandas infers when it reads
    them from a file: a column of integers is an int64 column, a column of
    numbers with a float among them a float64 column, any other column an
    object column. *)
Inductive dtype : Type := Int64 | Float64 | Object.

Definition is_int (v : value) : bool :=
  match v with VInt _ => true | _ => false end.

Definition is_number (v : value) : bool :=
  match v with VInt _ | VFloat _ => true | _ => false end.

Definition column_cells (df : DataFrame) (j : nat) : list value :=
  map (fun r => default VNone (r !! j)) (rows df).

Definition dtype_of (df : DataFrame) (j : nat) : dtype :=
  if forallb is_int (column_cells df j) then Int64
  else if forallb is_number (column_cells df j) then Float64
  else Object.

(** What a column of the dtype stores for a scalar, with the refusal of a
    value that does not fit the dtype that pandas 3 makes: an int64 column
    takes an integer, also written as a float; a float64 column takes a
    number or a missing value; an object column takes anything as it is. *)
Definition stored (d : dtype) (v : value) : option value :=
  match d with
  | Int64 =>
      match v with
      | VInt _ => Some v
      | VFloat f => VInt <$> float_to_int f
      | _ => None
      end
  | Float64 =>
      match v with
      | VInt z => Some (VFloat (ExcelAgent.float_of_int z))
      | VFloat _ => Some v
      | VNone => Some (VFloat nan)
      | VStr _ => None
      end
  | Object => Some v
  end.

(** Writing a block column by column, from the left: the cells of a column
    are written when the column takes all of them, and the first column that
    refuses one stops the write. *)
Fixpoint write_columns (js : list nat) (df : DataFrame) (start_row start_col : nat)
    (block : list (list value)) : bool * DataFrame :=
  match js with
  | [] => (true, df)
  | j :: js' =>
      match mapM (stored (dtype_of df (start_col + j)))
                 (map (fun r => default VNone (r !! j)) block) with
      | None => (false, df)
      | Some cells =>
          write_columns js'
            (DataManager.iloc_set_block df start_row (start_col + j)
               (map (fun x => [x]) cells))
            start_row start_col block
      end
  end.

Definition position_of (df : DataFrame) (label : value) : option nat :=
  match filter (fun j => py_eq label (default VNone (columns df !! j)) = true)
               (seq 0 (length (columns df))) with
  | [j] => Some j
  | _ => None
  end.

(** Files that can be read, a disk that can be written, a parser that knows
    no number words, writes that follow the dtypes above, and block writes
    that always go column by column. *)
Definition env : Env :=
  {| read_excel := fun file_path _ =>
       if String.eqb file_path "book.xlsx" then Some book
       else if String.eqb file_path "ledger.xlsx" then Some ledger
       else if String.eqb file_path "rates.xlsx" then Some rates
       else None;
     to_excel := fun _ _ => true;
     path_stem := fun p => p;
     path_name := fun p => p;
     str_to_numeric := fun _ => None;
     iloc_setitem := fun df row col v =>
       match stored (dtype_of df (Z.to_nat col)) v with
       | Some v' => Some (iloc_set df row col v')
       | None => None
       end;
     interleaved := fun df v =>
       if existsb (existsb (fun c => match c with VFloat _ => true | _ => false end))
                  (rows df)
       then match v with VInt z => VFloat (ExcelAgent.float_of_int z) | _ => v end
       else v;
     iloc_setblock := fun df start_row start_col block =>
       write_columns (seq 0 (length (default [] (head block)))) df start_row start_col block;
     loc_setitem := fun df label filled =>
       match position_of df label with
       | Some j =>
           match mapM (stored (dtype_of df j)) filled with
           | Some cells => Some (ExcelAgent.set_column df label cells)
           | None => None
           end
       | None => None
       end;
     single_block_path := fun _ _ => false |}.

(** A condition of the form [<name> > <digits>], as [b > 1]. *)
Definition parse_greater (condition : string) : option (string * Z) :=
  let '(name, rest) :=
    CellOperations.span (Py.in_range "a" "z") (list_ascii_of_string condition) in
  match name, rest with
  | _ :: _, " "%char :: ">"%char :: " "%char :: d :: digits =>
      if forallb CellOperations.is_digit (d :: digits)
      then Some (string_of_list_ascii name, Py.int (d :: digits))
      else None
  | _, _ => None
  end.

(** The conditions the sample sessions use. A comparison [<name> > <digits>]
    selects the rows whose cell in the column of numbers of that name is
    greater and changes nothing; on an object column, as on an unknown name,
    it raises. The condition [@df.drop(@df.index, inplace=True)] makes pandas
    call [drop] on the frame of the table, which takes every row out of it in
    place, before the evaluation raises on the [None] the call returns. Any
    other condition is taken to raise. *)
Definition query : ExcelAgent.Query := fun dm l condition =>
  match DataManager.heap dm !! l with
  | None => (None, dm)
  | Some df =>
      if String.eqb condition "@df.drop(@df.index, inplace=True)" then
        (None,
         DataManager.with_heap dm
           (<[l := {| columns := columns df; rows := [] |}]> (DataManager.heap dm)))
      else
        match parse_greater condition with
        | Some (name, k) =>
            match position_of df (VStr name) with
            | Some j =>
                match dtype_of df j with
                | Object => (None, dm)
                | _ =>
                    (Some {| columns := columns df;
                             rows := List.filter
                                       (fun r => match r !! j with
                                                 | Some (VInt z) => k <? z
                                                 | Some (VFloat f) =>
                                                     PrimFloat.ltb (ExcelAgent.float_of_int k) f
                                                 | _ => false
                                                 end)
                                       (rows df) |},
                     dm)
                end
            | None => (None, dm)
            end
        | None => (None, dm)
        end
  end.

(** [t] loaded from the workbook: one snapshot. *)
Definition loaded : DataManager.DataManager :=
  (DataManager.load_table env DataManager.init "book.xlsx" (Some "t"%string) None).2.

(** ... then one cell written: two snapshots. *)
Definition edited : DataManager.DataManager :=
  (DataManager.set_cell_value env loaded "t" "A2" (VInt 7)).2.

(** ... then a second table loaded. *)
Definition two_tables : DataManager.DataManager :=
  (DataManager.load_table env edited "ledger.xlsx" (Some "u"%string) None).2.

(** ... or, instead, a range of [t] overwritten, which takes no snapshot. *)
Definition patch : DataFrame :=
  {| columns := [VStr "x"; VStr "y"]; rows := [[VInt 5; VInt 6]] |}.



Definition patched : DataManager.DataManager :=
  (DataManager.set_range_values env edited "t" "A3:B3" patch).2.

(** [edited], then an undo, then another cell written. *)
Definition undone : DataManager.DataManager :=
  (DataManager.undo edited (Some "t"%string)).2.

Definition rewritten : DataManager.DataManager :=
  (DataManager.set_cell_value env undone "t" "B2" (VInt 9)).2.

(** The store holding just the ledger. *)
Definition ledger_loaded : DataManager.DataManager :=
  (DataManager.load_table env DataManager.init "ledger.xlsx" (Some "u"%string) None).2.

(** The store holding just the rates, an integer column beside a float
    column. *)
Definition rates_loaded : DataManager.DataManager :=
  (DataManager.load_table env DataManager.init "rates.xlsx" (Some "r"%string) None).2.

(** [two_tables], then an undo on [t], then a save of [u]. *)
Definition undone_beside : DataManager.DataManager :=
  (DataManager.undo two_tables (Some "t"%string)).2.

Definition saved_beside : DataManager.DataManager :=
  (DataManager.save_table env undone_beside "u" "out.xlsx").2.

Definition log_entry (i : nat) : TableHistory.OperationRecord :=
  DataManager.record TableHistory.FILTER "t" (DataManager.str_s (Z.of_nat i)) [].

Definition log_entries (k : nat) : list TableHistory.OperationRecord :=
  map log_entry (seq 0 k).

End Sample.

(** * Further operations of the same sources *)

(** ** [core/cell_operations.py]: column references *)

Module ColumnReference.
Import Py CellOperations.

(** [re.match(r'^([A-Z]+)$', s)] *)
Definition re_match_letters (s : list ascii) : option (list ascii) :=
  let '(col_str, tail) := span is_AZ s in
  match col_str, tail with
  | _ :: _, [] => Some col_str
  | _ :: _, [nl] => if Ascii.eqb nl "010" then Some col_str else None
  | _, _ => None
  end.

Definition parse_column_reference_l (col_ref : list ascii) : option Z :=
  match col_ref with
  | [] => None
  | _ =>
      match re_match_letters (upper col_ref) with
      | None => None
      | Some col_str => Some (column_index col_str)
      end
  end.

Definition parse_column_reference (col_ref : string) : option Z :=
  parse_column_reference_l (list_ascii_of_string col_ref).

(** [s.upper()] on a string. *)
Definition upper_s (s : string) : string :=
  string_of_list_ascii (upper (list_ascii_of_string s)).

End ColumnReference.

(** ** [utils/validators.py]: the checks of references built on
    [CellOperations] *)

Module DataValidator.
Import Py CellOperations.

Record validation : Type := {
  is_valid : bool;
  errors : list string;
  warnings : list string
}.

Definition str_s (z : Z) : string := string_of_list_ascii (Py.str z).

(** One [if out_of_range: result['is_valid'] = False; errors.append(msg)]. *)
Definition check (bad : bool) (msg : string) (r : validation) : validation :=
  if bad then {| is_valid := false; errors := errors r ++ [msg]; warnings := warnings r |}
  else r.

Definition ok : validation := {| is_valid := true; errors := []; warnings := [] |}.

Definition validate_cell_reference (cell_ref : string) (max_rows max_cols : Z)
  : validation :=
  if String.eqb cell_ref EmptyString then
    {| is_valid := false; errors := ["单元格引用为空"%string]; warnings := [] |}
  else
    match parse_cell_reference cell_ref with
    | None =>
        {| is_valid := false; errors := ["无效的单元格引用: " +:+ cell_ref];
           warnings := [] |}
    | Some (row, col) =>
        let r1 :=
          check ((row <? 0) || (max_rows <=? row))
            ("行索引 " +:+ str_s row +:+ " 超出范围 (0-" +:+ str_s (max_rows - 1) +:+ ")")
            ok in
        check ((col <? 0) || (max_cols <=? col))
          ("列索引 " +:+ str_s col +:+ " 超出范围 (0-" +:+ str_s (max_cols - 1) +:+ ")")
          r1
    end.

Definition validate_range_reference (range_ref : string) (max_rows max_cols : Z)
  : validation :=
  if String.eqb range_ref EmptyString then
    {| is_valid := false; errors := ["范围引用为空"%string]; warnings := [] |}
  else
    match parse_range range_ref with
    | None =>
        {| is_valid := false; errors := ["无效的范围引用: " +:+ range_ref];
           warnings := [] |}
    | Some (start_row, start_col, end_row, end_col) =>
        let r1 :=
          check ((start_row <? 0) || (max_rows <=? start_row))
            ("起始行索引 " +:+ str_s start_row +:+ " 超出范围 (0-"
             +:+ str_s (max_rows - 1) +:+ ")") ok in
        let r2 :=
          check ((start_col <? 0) || (max_cols <=? start_col))
            ("起始列索引 " +:+ str_s start_col +:+ " 超出范围 (0-"
             +:+ str_s (max_cols - 1) +:+ ")") r1 in
        let r3 :=
          check ((end_row <? 0) || (max_rows <=? end_row))
            ("结束行索引 " +:+ str_s end_row +:+ " 超出范围 (0-"
             +:+ str_s (max_rows - 1) +:+ ")") r2 in
        let r4 :=
          check ((end_col <? 0) || (max_cols <=? end_col))
            ("结束列索引 " +:+ str_s end_col +:+ " 超出范围 (0-"
             +:+ str_s (max_cols - 1) +:+ ")") r3 in
        let r5 :=
          check (end_row <? start_row)
            ("起始行 " +:+ str_s start_row +:+ " 大于结束行 " +:+ str_s end_row) r4 in
        check (end_col <? start_col)
          ("起始列 " +:+ str_s start_col +:+ " 大于结束列 " +:+ str_s end_col) r5
    end.

End DataValidator.

(** ** [core/table_history.py]: reading and clearing *)

Module HistoryAccess.
Import Frame TableHistory.

(** [get_snapshot]: the frame the snapshot at [index] refers to ([-1] is the
    newest); [None] for an unknown table, an empty list or an index out of
    range. *)
Definition get_snapshot (self : TableHistory) (table_name : string) (index : Z)
  : option loc :=
  match _snapshot_cache self !! table_name with
  | None => None
  | Some snapshots =>
      match snapshots with
      | [] => None
      | _ => data <$> Py.index snapshots index
      end
  end.

(** [clear_history]. The list [_undo_stack], which the constructor makes and
    only this method touches (it empties it), is never filled or read and has
    no field here. *)
Definition clear_history (self : TableHistory) (table_name : option string)
  : TableHistory :=
  match table_name with
  | None =>
      {| history := []; limit := limit self; _snapshot_cache := ∅; _redo_stack := ∅ |}
  | Some n =>
      {| history :=
           filter (fun record => TableHistory.table_name record <> n) (history self);
         limit := limit self;
         _snapshot_cache := delete n (_snapshot_cache self);
         _redo_stack := delete n (_redo_stack self) |}
  end.

Definition get_operation_count (self : TableHistory) (table_name : option string) : Z :=
  match table_name with
  | None => Z.of_nat (length (history self))
  | Some n =>
      Z.of_nat (length (filter (fun record => TableHistory.table_name record = n)
                               (history self)))
  end.

(** The snapshots a table has on its undo list and on its redo list. *)
Definition held (self : TableHistory) (n : string) : nat :=
  length (default [] (_snapshot_cache self !! n))
  + length (default [] (_redo_stack self !! n)).

End HistoryAccess.

(** ** [core/data_manager.py]: the active table and removal *)

Module Store.
Import Frame Extern DataManager.

Definition get_active_table (dm : DataManager) : option DataFrame :=
  match active_table dm with
  | Some a => if String.eqb a EmptyString then None else get_table dm a
  | None => None
  end.

Definition set_active_table (dm : DataManager) (table_name : string)
  : bool * DataManager :=
  if negb (String.eqb table_name EmptyString)
     && bool_decide (is_Some (tables dm !! table_name))
  then (true, with_active_table dm (Some table_name))
  else (false, dm).

(** [remove_table]. When the active table is removed, the first key of the
    remaining dictionary becomes active. A Python dictionary lists its keys
    in insertion order, which a [gmap] does not record: [keys] stands for
    [list(d.keys())]. The snapshots and the log of the table stay in the
    history. *)
Definition remove_table (keys : gmap string loc -> list string) (dm : DataManager)
    (table_name : string) : bool * DataManager :=
  match tables dm !! table_name with
  | None => (false, dm)
  | Some _ =>
      let dm1 := with_tables dm (delete table_name (tables dm)) in
      let dm2 := with_table_metadata dm1 (delete table_name (table_metadata dm1)) in
      let dm3 :=
        if bool_decide (active_table dm2 = Some table_name) then
          with_active_table dm2 (head (keys (tables dm2)))
        else dm2 in
      (true, dm3)
  end.

(** A faithful [keys] lists exactly the keys of the dictionary. *)
Definition lists_keys (keys : gmap string loc -> list string) : Prop :=
  forall (t : gmap string loc) k, k ∈ keys t <-> is_Some (t !! k).

(** The active table, if any, is loaded. *)
Definition active_loaded (dm : DataManager) : Prop :=
  forall a, active_table dm = Some a -> is_Some (tables dm !! a).

(** The metadata of a table agree with the frame it is bound to. *)
Definition metadata_in_sync (dm : DataManager) (n : string) : Prop :=
  forall df, get_table dm n = Some df ->
    exists m, table_metadata dm !! n = Some m /\
              TableMetadata.name m = n /\
              TableMetadata.columns m = columns df /\
              TableMetadata.total_rows m = len df.

End Store.


(** ** [core/excel_agent.py]: the tools [copy_column], [fill_na] and
    [insert_data]

    Where a tool reads or fills a column through its label, the model covers
    the frames in which that label names exactly one column; on a label that
    names several columns the functions below give [None], which stands for
    "not modelled", not for an outcome of the tool. *)

Module Tools.
Import Frame Extern DataManager ExcelAgent.

(** [int(mask.sum())] for the mask [p] over a column. *)
Definition count (p : value -> bool) (col : list value) : Z :=
  Z.of_nat (length (List.filter p col)).

(** Binding the table name to the frame [df_copy] made by [df.copy()] and
    refreshing the metadata. *)
Definition rebind (dm : DataManager) (n : string) (df_copy : DataFrame) : DataManager :=
  let l := fresh (dom (heap dm)) in
  _update_table_metadata
    (with_tables (with_heap dm (<[l := df_copy]> (heap dm))) (<[n := l]> (tables dm)))
    n None None.

Inductive copy_result : Type :=
| CopyOk (target_column source_column table_name : string) (rows_updated : Z)
| CopyError.

Definition copy_column (dm : DataManager) (target_column source_column : string)
    (table_name : option string) : option (copy_result * DataManager) :=
  match resolve dm table_name with
  | None => Some (CopyError, dm)
  | Some n =>
      match get_table dm n with
      | None => Some (CopyError, dm)
      | Some df =>
          if negb (py_in (VStr source_column) (columns df)) then Some (CopyError, dm)
          else if negb (py_in (VStr target_column) (columns df)) then Some (CopyError, dm)
          else
            match get_column df (VStr source_column), get_column df (VStr target_column) with
            | Some data, Some _ =>
                let df_copy := set_column df (VStr target_column) data in
                Some (CopyOk target_column source_column n (len df), rebind dm n df_copy)
            | _, _ => None
            end
      end
  end.

(** Python's [str.isspace] on a character, given by its code point. *)
Definition is_space (c : Z) : bool :=
  ((9 <=? c) && (c <=? 13)) || ((28 <=? c) && (c <=? 32))
  || (c =? 133) || (c =? 160) || (c =? 5760)
  || ((8192 <=? c) && (c <=? 8202))
  || (c =? 8232) || (c =? 8233) || (c =? 8239) || (c =? 8287) || (c =? 12288).

Fixpoint lstrip (s : list Z) : list Z :=
  match s with
  | c :: s' => if is_space c then lstrip s' else s
  | [] => []
  end.

(** [s.strip()], on the code points of [s]. *)
Definition strip (s : list Z) : list Z := rev (lstrip (rev (lstrip s))).

(** [pd.isna(v) | (str(v).strip() == "")]: the text of a number, of [None]
    or of NaN is never empty. *)
Definition blank (v : value) : bool :=
  isna v ||
  match v with
  | VStr s =>
      match strip (Py.code_points (list_ascii_of_string s)) with
      | [] => true
      | _ => false
      end
  | _ => false
  end.

(** The column [df.loc[mask, target] = new] asks for: the rows the mask
    selects receive the cell of the same row of [new]. *)
Definition fill (mask : value -> bool) (old new : list value) : list value :=
  zip_with (fun a b => if mask a then b else a) old new.

Inductive fill_result : Type :=
| FillOk (target_column : string) (filler : string) (table_name : string)
         (null_count_before filled_count : Z)
| FillError.

Definition truthy (s : option string) : option string :=
  match s with
  | Some x => if String.eqb x EmptyString then None else Some x
  | None => None
  end.

(** The assignments of [fill_na] go into a copy of the frame, so that one
    pandas refuses leaves the table as it was; the [except] makes an error
    result of it. *)
Definition fill_na (env : Env) (dm : DataManager) (target_column : string)
    (source_column value : option string) (table_name : option string)
  : option (fill_result * DataManager) :=
  match resolve dm table_name with
  | None => Some (FillError, dm)
  | Some n =>
      match get_table dm n with
      | None => Some (FillError, dm)
      | Some df =>
          if negb (py_in (VStr target_column) (columns df)) then Some (FillError, dm)
          else
            match truthy source_column with
            | Some source =>
                if negb (py_in (VStr source) (columns df)) then Some (FillError, dm)
                else
                  match get_column df (VStr target_column) with
                  | None => None
                  | Some target =>
                      let null_count_before := count isna target in
                      if 0 <? null_count_before then
                        match get_column df (VStr source) with
                        | None => None
                        | Some src =>
                            match loc_setitem env df (VStr target_column)
                                    (fill isna target src) with
                            | None => Some (FillError, dm)
                            | Some df_copy =>
                                match get_column df_copy (VStr target_column) with
                                | None => None
                                | Some filled =>
                                    Some (FillOk target_column source n null_count_before
                                            (null_count_before - count isna filled),
                                          rebind dm n df_copy)
                                end
                            end
                        end
                      else
                        Some (FillOk target_column source n null_count_before 0,
                              rebind dm n df)
                  end
            | None =>
                match value with
                | Some v =>
                    match get_column df (VStr target_column) with
                    | None => None
                    | Some target =>
                        let null_count_before := count blank target in
                        match loc_setitem env df (VStr target_column)
                                (fill blank target (replicate (length target) (VStr v))) with
                        | None => Some (FillError, dm)
                        | Some df_copy =>
                            match get_column df_copy (VStr target_column) with
                            | None => None
                            | Some filled =>
                                Some (FillOk target_column v n null_count_before
                                        (null_count_before - count blank filled),
                                      rebind dm n df_copy)
                            end
                        end
                    end
                | None => Some (FillError, dm)
                end
            end
      end
  end.

(** A Python index into [n] items: the position it stands for, or [None]
    for [IndexError]. *)
Definition position (n i : Z) : option nat :=
  if (0 <=? i) && (i <? n) then Some (Z.to_nat i)
  else if (- n <=? i) && (i <? 0) then Some (Z.to_nat (n + i))
  else None.

Inductive insert_result : Type :=
| InsertOk (message : string)
| InsertError
| InsertInvalid.

(** The function under the [insert_data] tool. It writes into the frame the
    table is bound to, in place. A cell is addressed with
    [df.iloc[row, col] = value] straight from the parsed reference, with no
    check of bounds; a column with [df[target_column] = value], which
    replaces the column whatever its dtype was. An argument is a string or is
    left out. *)
Definition insert_data_func (env : Env) (dm : DataManager) (target_table : string)
    (target_column target_cell value : option string)
  : insert_result * DataManager :=
  match tables dm !! target_table with
  | None => (InsertError, dm)
  | Some l =>
      match heap dm !! l with
      | None => (InsertError, dm)
      | Some df =>
          let write df' :=
            _update_table_metadata (with_heap dm (<[l := df']> (heap dm)))
              target_table None None in
          let by_column :=
            match truthy target_column with
            | Some column =>
                (InsertOk ("已插入到 " +:+ target_table +:+ " 的 " +:+ column +:+ " 列"),
                 write (set_column df (VStr column)
                          (replicate (length (rows df)) (opt_str value))))
            | None => (InsertError, dm)
            end in
          match truthy target_cell with
          | Some cell =>
              match CellOperations.parse_cell_reference cell with
              | None => (InsertError, dm)
              | Some (row, col) =>
                  match position (len df) row, position (ncols df) col with
                  | Some r, Some c =>
                      match iloc_setitem env df (Z.of_nat r) (Z.of_nat c) (opt_str value) with
                      | Some df' =>
                          (InsertOk ("已插入到 " +:+ target_table +:+ " 的 " +:+ cell),
                           write df')
                      | None => (InsertError, dm)
                      end
                  | _, _ => (InsertError, dm)
                  end
              end
          | None => by_column
          end
      end
  end.

(** [info.data.get(name)] *)
Definition data_get (data : list (string * option string)) (name : string)
  : option string :=
  match List.find (fun p => String.eqb (fst p) name) data with
  | Some p => snd p
  | None => None
  end.

(** [InsertInput.validate_target], the validator of the fields
    [target_column] and [target_cell]: whether it returns its value rather
    than raises. [info.data] holds the fields validated before the field at
    hand, which itself is not among them. *)
Definition validate_target (data : list (string * option string)) : bool :=
  negb (negb (bool_decide (is_Some (truthy (data_get data "target_column"))))
        && negb (bool_decide (is_Some (truthy (data_get data "target_cell"))))).

(** The validation of [InsertInput] that the tool runs on its arguments: the
    fields are validated in the order of the class; the validator of a field
    runs when the call names the field, and a field it rejects does not
    enter [info.data]; a field the call leaves out enters with its default,
    [None]. *)
Definition validate_input (target_table : string) (target_column target_cell : option string)
  : bool :=
  let data0 := [("target_table"%string, Some target_table)] in
  let '(ok1, data1) :=
    match target_column with
    | None => (true, data0 ++ [("target_column"%string, None)])
    | Some c =>
        if validate_target data0 then (true, data0 ++ [("target_column"%string, Some c)])
        else (false, data0)
    end in
  let ok2 :=
    match target_cell with
    | None => true
    | Some _ => validate_target data1
    end in
  ok1 && ok2.

(** The [insert_data] tool as the agent calls it, through
    [@tool(args_schema=InsertInput)]: the arguments are validated first, and
    [InsertInvalid] stands for the [ValidationError] the call raises. *)
Definition insert_data (env : Env) (dm : DataManager) (target_table : string)
    (target_column target_cell value : option string)
  : insert_result * DataManager :=
  if validate_input target_table target_column target_cell
  then insert_data_func env dm target_table target_column target_cell value
  else (InsertInvalid, dm).

End Tools.


(** A table with gaps, to exercise the tools that fill and copy columns. *)
Module ToolSample.
Import Frame Extern.

Definition gaps : DataFrame :=
  {| columns := [VStr "name"; VStr "alias"; VStr "note"];
     rows := [[VNone; VStr "ann"; VStr "x"];
              [VStr "bob"; VNone; VStr " "];
              [VNone; VNone; VNone]] |}.

Definition env : Env :=
  {| read_excel := fun file_path _ =>
       if String.eqb file_path "gaps.xlsx" then Some gaps else None;
     to_excel := to_excel Sample.env;
     path_stem := path_stem Sample.env;
     path_name := path_name Sample.env;
     str_to_numeric := str_to_numeric Sample.env;
     iloc_setitem := iloc_setitem Sample.env;
     interleaved := interleaved Sample.env;
     iloc_setblock := iloc_setblock Sample.env;
     loc_setitem := loc_setitem Sample.env;
     single_block_path := single_block_path Sample.env |}.


End ToolSample.


(** * Properties *)

(** ** Cell addressing *)

Section CellAddressing.
Import Py CellOperations.

Lemma ord_chr z : 0 <= z < 256 -> ord (chr z) = z.
Proof.
  intros Hz. unfold ord, chr.
  rewrite N_ascii_embedding; lia.
Qed.

Lemma chr_ord c : chr (ord c) = c.
Proof.
  unfold ord, chr. rewrite N2Z.id. apply ascii_N_embedding.
Qed.

Lemma in_range_spec lo hi c :
  in_range lo hi c = true <-> ord lo <= ord c <= ord hi.
Proof. unfold in_range. rewrite andb_true_iff, !Z.leb_le. tauto. Qed.

Lemma is_AZ_spec c : is_AZ c = true <-> 65 <= ord c <= 90.
Proof. unfold is_AZ. rewrite in_range_spec. reflexivity. Qed.

Lemma is_digit_spec c : is_digit c = true <-> 48 <= ord c <= 57.
Proof. unfold is_digit. rewrite in_range_spec. reflexivity. Qed.

Lemma upper_char_fixed c : ord c <= 96 -> upper_char c = c.
Proof.
  intros Hc. unfold upper_char.
  destruct (in_range "a" "z" c) eqn:E; [|reflexivity].
  apply in_range_spec in E. change (ord "a") with 97 in E. lia.
Qed.

Lemma upper_fixed s : Forall (fun c => ord c <= 96) s -> upper s = s.
Proof.
  induction 1 as [|c s Hc _ IH]; [reflexivity|].
  unfold upper in *. simpl. rewrite upper_char_fixed by assumption. now rewrite IH.
Qed.

(** *** The letter loop *)

Lemma col_loop_acc fuel t acc : col_loop fuel t acc = col_loop fuel t [] ++ acc.
Proof.
  revert t acc. induction fuel as [|fuel IH]; intros t acc; simpl; [reflexivity|].
  destruct (0 <? t); [|reflexivity].
  rewrite (IH _ (_ :: acc)), (IH _ [_]). now rewrite <- app_assoc.
Qed.

(** More fuel than the loop has rounds changes nothing: the loop has run to
    its end. *)
Lemma col_loop_fuel f1 f2 t acc :
  (Z.to_nat t <= f1)%nat -> (Z.to_nat t <= f2)%nat ->
  col_loop f1 t acc = col_loop f2 t acc.
Proof.
  revert f2 t acc. induction f1 as [|f1 IH]; intros f2 t acc H1 H2.
  - destruct f2; simpl; [reflexivity|].
    destruct (0 <? t) eqn:E; [apply Z.ltb_lt in E; lia | reflexivity].
  - destruct f2; simpl.
    + destruct (0 <? t) eqn:E; [apply Z.ltb_lt in E; lia | reflexivity].
    + destruct (0 <? t) eqn:E; [|reflexivity].
      apply Z.ltb_lt in E.
      assert ((t - 1) / 26 < t) by (apply Z.div_lt_upper_bound; lia).
      assert (0 <= (t - 1) / 26) by (apply Z.div_pos; lia).
      apply IH; lia.
Qed.

Lemma letters_nonpos t : t <= 0 -> letters t = [].
Proof.
  intros Ht. unfold letters. replace (Z.to_nat t) with O by lia. reflexivity.
Qed.

Lemma letters_step t :
  0 < t -> letters t = letters ((t - 1) / 26) ++ [chr (ord "A" + (t - 1) mod 26)].
Proof.
  intros Ht. unfold letters.
  destruct (Z.to_nat t) as [|f] eqn:Ef; [lia|].
  simpl. destruct (0 <? t) eqn:E; [|apply Z.ltb_ge in E; lia].
  rewrite col_loop_acc. f_equal.
  assert ((t - 1) / 26 < t) by (apply Z.div_lt_upper_bound; lia).
  assert (0 <= (t - 1) / 26) by (apply Z.div_pos; lia).
  apply col_loop_fuel; lia.
Qed.

(** *** The value of a run of letters *)

Lemma fold_enumerate_shift (l : list ascii) i a :
  0 <= i ->
  fold_left (fun col '(i, c) => col + (ord c - ord "A" + 1) * 26 ^ i)
            (enumerate_from i l) a
  = a + 26 ^ i *
        fold_left (fun col '(i, c) => col + (ord c - ord "A" + 1) * 26 ^ i)
                  (enumerate_from 0 l) 0.
Proof.
  revert i a. induction l as [|c l IH]; intros i a Hi;
    cbn [enumerate_from fold_left]; [lia|].
  rewrite (IH (i + 1)) by lia. rewrite (IH (0 + 1)) by lia.
  rewrite Z.pow_add_r by lia. change (26 ^ 0) with 1.
  change (26 ^ (0 + 1)) with 26. change (26 ^ 1) with 26. ring.
Qed.

Lemma letters_value_nil : letters_value [] = 0.
Proof. reflexivity. Qed.

Lemma letters_value_snoc s c :
  letters_value (s ++ [c]) = 26 * letters_value s + (ord c - 64).
Proof.
  unfold letters_value, column_index, enumerate.
  rewrite rev_app_distr. simpl rev. simpl app.
  cbn [enumerate_from fold_left].
  rewrite (fold_enumerate_shift _ (0 + 1)) by lia.
  change (ord "A") with 65. change (26 ^ 0) with 1. change (26 ^ (0 + 1)) with 26.
  ring.
Qed.

Lemma letters_value_nonneg s : forallb is_AZ s = true -> 0 <= letters_value s.
Proof.
  induction s as [|c s IH] using rev_ind; intros H.
  - rewrite letters_value_nil. lia.
  - rewrite forallb_app in H. apply andb_true_iff in H as [H1 H2].
    simpl in H2. rewrite andb_true_r in H2. apply is_AZ_spec in H2.
    rewrite letters_value_snoc. specialize (IH H1). lia.
Qed.

(** Letters printed for [t] are capitals and are worth [t]. *)
Lemma letters_sound t :
  0 <= t -> forallb is_AZ (letters t) = true /\ letters_value (letters t) = t.
Proof.
  revert t.
  apply (Zlt_0_ind (fun t => forallb is_AZ (letters t) = true
                             /\ letters_value (letters t) = t)).
  intros t IH Ht.
  destruct (Z.eq_dec t 0) as [->|Hne].
  - split; reflexivity.
  - assert (0 < t) by lia.
    assert ((t - 1) / 26 < t) by (apply Z.div_lt_upper_bound; lia).
    assert (0 <= (t - 1) / 26) by (apply Z.div_pos; lia).
    destruct (IH ((t - 1) / 26)) as [IH1 IH2]; [lia|].
    pose proof (Z.mod_pos_bound (t - 1) 26 ltac:(lia)) as Hm.
    rewrite letters_step by assumption. change (ord "A") with 65. split.
    + rewrite forallb_app, IH1. simpl. rewrite andb_true_r.
      apply is_AZ_spec. rewrite ord_chr; lia.
    + rewrite letters_value_snoc, IH2, ord_chr by lia.
      pose proof (Z.div_mod (t - 1) 26 ltac:(lia)). lia.
Qed.

Lemma letters_nonempty t : 0 < t -> letters t <> [].
Proof.
  intros Ht. rewrite letters_step by assumption.
  intros H. now apply app_eq_nil in H as [_ H].
Qed.

(** Capitals are printed back from their value. *)
Lemma letters_complete s : forallb is_AZ s = true -> letters (letters_value s) = s.
Proof.
  induction s as [|c s IH] using rev_ind; intros H.
  - reflexivity.
  - rewrite forallb_app in H. apply andb_true_iff in H as [H1 H2].
    simpl in H2. rewrite andb_true_r in H2. apply is_AZ_spec in H2.
    pose proof (letters_value_nonneg s H1) as Hs.
    rewrite letters_value_snoc.
    rewrite letters_step by lia. change (ord "A") with 65.
    replace (26 * letters_value s + (ord c - 64) - 1)
      with ((ord c - 65) + letters_value s * 26) by ring.
    rewrite Z.div_add, Z.mod_add by lia.
    rewrite Z.div_small, Z.mod_small by lia. rewrite Z.add_0_l.
    rewrite (IH H1). f_equal. f_equal.
    replace (65 + (ord c - 65)) with (ord c) by ring. apply chr_ord.
Qed.

End CellAddressing.

(** ** Row numbers in decimal *)

Section Decimal.
Import Py CellOperations.

Lemma str_loop_acc fuel n acc : str_loop fuel n acc = str_loop fuel n [] ++ acc.
Proof.
  revert n acc. induction fuel as [|fuel IH]; intros n acc; simpl; [reflexivity|].
  destruct (n / 10 =? 0); [reflexivity|].
  rewrite (IH _ (_ :: acc)), (IH _ [_]). now rewrite <- app_assoc.
Qed.

Lemma str_loop_fuel f1 f2 n acc :
  0 <= n -> (Z.to_nat n < f1)%nat -> (Z.to_nat n < f2)%nat ->
  str_loop f1 n acc = str_loop f2 n acc.
Proof.
  revert f2 n acc. induction f1 as [|f1 IH]; intros f2 n acc Hn H1 H2; [lia|].
  destruct f2; [lia|]. simpl.
  destruct (n / 10 =? 0) eqn:E; [reflexivity|].
  apply Z.eqb_neq in E.
  assert (0 < n) by (destruct (Z.eq_dec n 0) as [->|]; [now compute in E | lia]).
  assert (n / 10 < n) by (apply Z.div_lt; lia).
  assert (0 <= n / 10) by (apply Z.div_pos; lia).
  apply IH; lia.
Qed.

Lemma str_nonneg_step n :
  0 <= n ->
  str_nonneg n =
    (if n / 10 =? 0 then [] else str_nonneg (n / 10)) ++ [chr (ord "0" + n mod 10)].
Proof.
  intros Hn. unfold str_nonneg at 1. cbn [str_loop].
  destruct (n / 10 =? 0) eqn:E; [reflexivity|].
  apply Z.eqb_neq in E.
  assert (0 < n) by (destruct (Z.eq_dec n 0) as [->|]; [now compute in E | lia]).
  assert (n / 10 < n) by (apply Z.div_lt; lia).
  assert (0 <= n / 10) by (apply Z.div_pos; lia).
  rewrite str_loop_acc. f_equal. unfold str_nonneg.
  apply str_loop_fuel; lia.
Qed.

Lemma int_snoc s c : int (s ++ [c]) = int s * 10 + (ord c - 48).
Proof. unfold int. now rewrite fold_left_app. Qed.

Lemma int_single d : int [d] = ord d - 48.
Proof. unfold int. cbn [fold_left]. change (ord "0") with 48. ring. Qed.

Lemma ord_zero_char d : ord d = 48 -> d = "0"%char.
Proof. intros H. rewrite <- (chr_ord d), H. reflexivity. Qed.

(** The digits printed for [n] are read back as [n], and start with a
    non-zero digit when [n] is positive. *)
Lemma str_nonneg_sound n :
  0 <= n ->
  forallb is_digit (str_nonneg n) = true /\
  int (str_nonneg n) = n /\
  (0 < n -> exists d ds, str_nonneg n = d :: ds /\ d <> "0"%char).
Proof.
  revert n.
  apply (Zlt_0_ind (fun n => forallb is_digit (str_nonneg n) = true /\
                             int (str_nonneg n) = n /\
                             (0 < n -> exists d ds, str_nonneg n = d :: ds /\ d <> "0"%char))).
  intros n IH Hn.
  pose proof (Z.mod_pos_bound n 10 ltac:(lia)) as Hm.
  pose proof (Z.div_mod n 10 ltac:(lia)) as Hdm.
  assert (Hdig : is_digit (chr (ord "0" + n mod 10)) = true).
  { apply is_digit_spec. change (ord "0") with 48. rewrite ord_chr; lia. }
  rewrite str_nonneg_step by assumption.
  destruct (n / 10 =? 0) eqn:E.
  - apply Z.eqb_eq in E. simpl app. split; [|split].
    + simpl. now rewrite Hdig.
    + unfold int. simpl fold_left. change (ord "0") with 48. rewrite ord_chr; lia.
    + intros Hpos. eexists _, []. split; [reflexivity|].
      intros Hz. apply (f_equal ord) in Hz. change (ord "0") with 48 in Hz.
      rewrite ord_chr in Hz; lia.
  - apply Z.eqb_neq in E.
    assert (0 < n) by (destruct (Z.eq_dec n 0) as [->|]; [now compute in E | lia]).
    assert (n / 10 < n) by (apply Z.div_lt; lia).
    assert (0 <= n / 10) by (apply Z.div_pos; lia).
    destruct (IH (n / 10)) as (IH1 & IH2 & IH3); [lia|].
    split; [|split].
    + rewrite forallb_app, IH1. simpl. now rewrite Hdig.
    + rewrite int_snoc, IH2. change (ord "0") with 48. rewrite ord_chr; lia.
    + intros _. destruct IH3 as (d & ds & Hd & Hnz); [lia|].
      rewrite Hd. exists d, (ds ++ [chr (ord "0" + n mod 10)]). now split.
Qed.

Lemma int_leading_nonzero d ds :
  forallb is_digit (d :: ds) = true -> d <> "0"%char -> 1 <= int (d :: ds).
Proof.
  intros H Hd. induction ds as [|c ds IH] using rev_ind.
  - simpl in H. rewrite andb_true_r in H. apply is_digit_spec in H.
    rewrite int_single.
    assert (ord d <> 48) by (intros E; now apply Hd, ord_zero_char). lia.
  - rewrite app_comm_cons in *. rewrite forallb_app in H.
    apply andb_true_iff in H as [H1 H2].
    simpl in H2. rewrite andb_true_r in H2. apply is_digit_spec in H2.
    rewrite int_snoc. specialize (IH H1). lia.
Qed.

(** Digits without a leading zero are printed back from their value. *)
Lemma str_nonneg_complete d ds :
  forallb is_digit (d :: ds) = true -> d <> "0"%char ->
  str_nonneg (int (d :: ds)) = d :: ds.
Proof.
  intros H Hd. induction ds as [|c ds IH] using rev_ind.
  - pose proof (int_leading_nonzero d [] H Hd) as Hpos.
    simpl in H. rewrite andb_true_r in H. apply is_digit_spec in H.
    rewrite int_single in *.
    rewrite str_nonneg_step by lia.
    rewrite Z.div_small, Z.mod_small by lia. rewrite Z.eqb_refl. cbn [app].
    change (ord "0") with 48. replace (48 + (ord d - 48)) with (ord d) by ring.
    now rewrite chr_ord.
  - rewrite app_comm_cons in *. rewrite forallb_app in H.
    apply andb_true_iff in H as [H1 H2].
    pose proof (int_leading_nonzero d ds H1 Hd) as Hpos.
    simpl in H2. rewrite andb_true_r in H2. apply is_digit_spec in H2.
    rewrite int_snoc.
    rewrite str_nonneg_step by lia.
    replace (int (d :: ds) * 10 + (ord c - 48))
      with ((ord c - 48) + int (d :: ds) * 10) by ring.
    rewrite Z.div_add, Z.mod_add by lia.
    rewrite Z.div_small, Z.mod_small by lia. rewrite Z.add_0_l.
    destruct (int (d :: ds) =? 0) eqn:E; [apply Z.eqb_eq in E; lia|].
    rewrite (IH H1). f_equal. f_equal.
    change (ord "0") with 48. replace (48 + (ord c - 48)) with (ord c) by ring.
    apply chr_ord.
Qed.

(** *** The pattern of a reference *)

Lemma span_run p l rest :
  forallb p l = true ->
  match rest with [] => True | c :: _ => p c = false end ->
  span p (l ++ rest) = (l, rest).
Proof.
  intros Hl Hrest. induction l as [|c l IH]; simpl.
  - destruct rest as [|c rest]; [reflexivity|]. simpl. now rewrite Hrest.
  - simpl in Hl. apply andb_true_iff in Hl as [Hc Hl].
    rewrite Hc, (IH Hl). reflexivity.
Qed.

Lemma digit_not_AZ c : is_digit c = true -> is_AZ c = false.
Proof.
  intros H. apply is_digit_spec in H.
  destruct (is_AZ c) eqn:E; [|reflexivity]. apply is_AZ_spec in E. lia.
Qed.

Lemma re_match_cell_letters_digits l d ds :
  l <> [] -> forallb is_AZ l = true -> forallb is_digit (d :: ds) = true ->
  re_match_cell (l ++ d :: ds) = Some (l, d :: ds).
Proof.
  intros Hne Hl Hd. unfold re_match_cell.
  rewrite (span_run is_AZ l (d :: ds) Hl).
  2:{ simpl in Hd. apply andb_true_iff in Hd as [Hd _]. now apply digit_not_AZ. }
  pose proof (span_run is_digit (d :: ds) [] Hd I) as Hs.
  rewrite app_nil_r in Hs. rewrite Hs.
  destruct l; [congruence | reflexivity].
Qed.

Lemma parse_letters_digits l d ds :
  l <> [] -> forallb is_AZ l = true -> forallb is_digit (d :: ds) = true ->
  parse_cell_reference_l (l ++ d :: ds)
  = Some (int (d :: ds) - 1, letters_value l - 1).
Proof.
  intros Hne Hl Hd. unfold parse_cell_reference_l.
  destruct (l ++ d :: ds) eqn:E; [now destruct l|]. rewrite <- E. clear E.
  rewrite upper_fixed.
  - rewrite re_match_cell_letters_digits by assumption.
    unfold letters_value. do 2 f_equal. ring.
  - apply Forall_app. split.
    + apply Forall_forall. intros c Hc.
      rewrite forallb_forall in Hl. apply list_elem_of_In, Hl, is_AZ_spec in Hc. lia.
    + apply Forall_forall. intros c Hc.
      rewrite forallb_forall in Hd. apply list_elem_of_In, Hd, is_digit_spec in Hc. lia.
Qed.

End Decimal.

(** ** Round trips between references and positions *)

Section CellRoundTrip.
Import Py CellOperations.

Lemma letters_value_pos l :
  l <> [] -> forallb is_AZ l = true -> 1 <= letters_value l.
Proof.
  intros Hne Hl. destruct l as [|c l] using rev_ind; [congruence|].
  rewrite forallb_app in Hl. apply andb_true_iff in Hl as [H1 H2].
  simpl in H2. rewrite andb_true_r in H2. apply is_AZ_spec in H2.
  rewrite letters_value_snoc. pose proof (letters_value_nonneg l H1). lia.
Qed.

Lemma str_of_nonneg z : 0 <= z -> str z = str_nonneg z.
Proof.
  intros Hz. unfold str. destruct (z <? 0) eqn:E; [apply Z.ltb_lt in E; lia | reflexivity].
Qed.

Lemma parse_cell_to_excel row col :
  0 <= row -> 0 <= col ->
  parse_cell_reference (cell_to_excel row col) = Some (row, col).
Proof.
  intros Hr Hc. unfold parse_cell_reference, cell_to_excel.
  rewrite list_ascii_of_string_of_list_ascii.
  unfold cell_to_excel_l. change (column_letters col) with (letters (col + 1)).
  rewrite str_of_nonneg by lia.
  destruct (str_nonneg_sound (row + 1)) as (Hd & Hi & Hh); [lia|].
  destruct Hh as (d & ds & E & _); [lia|]. rewrite E in *.
  destruct (letters_sound (col + 1)) as [Hl Hv]; [lia|].
  rewrite parse_letters_digits; [|apply letters_nonempty; lia|assumption..].
  rewrite Hi, Hv. do 2 f_equal; ring.
Qed.

Lemma cell_to_excel_parse s :
  canonical_ref (list_ascii_of_string s) ->
  exists row col,
    parse_cell_reference s = Some (row, col) /\ 0 <= row /\ 0 <= col /\
    cell_to_excel row col = s.
Proof.
  intros (l & ds & d & E & Hne & Hl & Hd & Hnz).
  pose proof (letters_value_pos l Hne Hl) as Hv.
  pose proof (int_leading_nonzero d ds Hd Hnz) as Hi.
  exists (int (d :: ds) - 1), (letters_value l - 1).
  split; [|split; [lia|split; [lia|]]].
  - unfold parse_cell_reference. rewrite E. now apply parse_letters_digits.
  - unfold cell_to_excel, cell_to_excel_l.
    change (column_letters (letters_value l - 1)) with (letters (letters_value l - 1 + 1)).
    replace (letters_value l - 1 + 1) with (letters_value l) by ring.
    replace (int (d :: ds) - 1 + 1) with (int (d :: ds)) by ring.
    rewrite str_of_nonneg by lia.
    rewrite letters_complete by assumption.
    rewrite str_nonneg_complete by assumption.
    rewrite <- E. apply string_of_list_ascii_of_string.
Qed.

(** C6, as the code has it. Printing a position with row and column at least
    0 and parsing the result gives the position back; parsing a reference in
    the printed form (capital letters, then a row number from 1 on without
    leading zeros) and printing the result gives the reference back; and (0,0)
    is "A1", (0,26) is "AA1", (4,27) is "AB5", both ways. *)
Theorem cell_reference_round_trip :
  (forall row col, 0 <= row -> 0 <= col ->
     parse_cell_reference (cell_to_excel row col) = Some (row, col)) /\
  (forall s, canonical_ref (list_ascii_of_string s) ->
     exists row col,
       parse_cell_reference s = Some (row, col) /\ 0 <= row /\ 0 <= col /\
       cell_to_excel row col = s) /\
  (cell_to_excel 0 0 = "A1"%string /\ parse_cell_reference "A1" = Some (0, 0)) /\
  (cell_to_excel 0 26 = "AA1"%string /\ parse_cell_reference "AA1" = Some (0, 26)) /\
  (cell_to_excel 4 27 = "AB5"%string /\ parse_cell_reference "AB5" = Some (4, 27)).
Proof.
  split; [exact parse_cell_to_excel|].
  split; [exact cell_to_excel_parse|].
  repeat split; reflexivity.
Qed.

Lemma cell_reference_round_trip_witness :
  parse_cell_reference (cell_to_excel 1234 701) = Some (1234, 701) /\
  exists row col,
    parse_cell_reference "ZZ1235" = Some (row, col) /\ 0 <= row /\ 0 <= col /\
    cell_to_excel row col = "ZZ1235"%string.
Proof.
  destruct cell_reference_round_trip as (H1 & H2 & _).
  split.
  - apply H1; lia.
  - apply H2. exists ["Z"; "Z"]%char, ["2"; "3"; "5"]%char, "1"%char.
    repeat split; [discriminate | discriminate].
Defined.

(** The parser also accepts references that [cell_to_excel] never prints: a
    row number with leading zeros, small letters, a final newline. They are
    parsed to a position whose printed form is another string, so a
    reference that parses need not come back from the round trip. *)
Lemma cell_reference_round_trip_counterexample :
  ~ (forall s row col,
       parse_cell_reference s = Some (row, col) -> cell_to_excel row col = s).
Proof.
  intros H. specialize (H "A01"%string 0 0 eq_refl). discriminate H.
Qed.

Example parse_small_letters :
  parse_cell_reference "a1" = Some (0, 0) /\ cell_to_excel 0 0 = "A1"%string.
Proof. split; reflexivity. Qed.

End CellRoundTrip.

(** ** The operation log *)

Section OperationLog.
Import TableHistory Session.

Lemma add_operation_limit self record : limit (add_operation self record) = limit self.
Proof. reflexivity. Qed.

Lemma add_operation_history self record :
  history (add_operation self record)
  = if limit self <? Z.of_nat (length (history self ++ [record]))
    then tail (history self ++ [record]) else history self ++ [record].
Proof. reflexivity. Qed.

(** A log within its limit stays within its limit. *)
Lemma add_operation_within_limit self record :
  0 <= limit self -> Z.of_nat (length (history self)) <= limit self ->
  Z.of_nat (length (history (add_operation self record))) <= limit self.
Proof.
  intros H0 Hlen. rewrite add_operation_history, length_app. cbn [length].
  destruct (limit self <? Z.of_nat (length (history self) + 1)) eqn:E.
  - destruct (history self) as [|x h]; cbn [app tail length] in *; [lia|].
    rewrite length_app. cbn [length]. lia.
  - apply Z.ltb_ge in E. rewrite length_app. cbn [length]. lia.
Qed.

(** From a log within its limit, appending keeps the newest [limit] records of
    everything ever appended, in order. *)
Lemma add_operations_history records : forall self,
  0 <= limit self -> Z.of_nat (length (history self)) <= limit self ->
  limit (add_operations self records) = limit self /\
  history (add_operations self records)
  = drop (length (history self ++ records) - Z.to_nat (limit self))
         (history self ++ records).
Proof.
  induction records as [|r records IH]; intros self H0 Hlen.
  - simpl. split; [reflexivity|]. rewrite app_nil_r.
    replace (length (history self) - Z.to_nat (limit self))%nat with O by lia.
    reflexivity.
  - unfold add_operations in *. cbn [fold_left].
    destruct (IH (add_operation self r)) as [IHl IHh].
    + rewrite add_operation_limit. exact H0.
    + rewrite add_operation_limit, add_operation_history.
      rewrite length_app. cbn [length].
      destruct (limit self <? Z.of_nat (length (history self) + 1)) eqn:E.
      * apply Z.ltb_lt in E.
        destruct (history self) as [|x h]; cbn [app tail length] in *; [lia|].
        rewrite length_app. cbn [length]. lia.
      * apply Z.ltb_ge in E. rewrite length_app. cbn [length]. lia.
    + rewrite IHl, IHh, add_operation_limit, add_operation_history.
      split; [reflexivity|].
      rewrite !length_app. cbn [length].
      destruct (limit self <? Z.of_nat (length (history self) + 1)) eqn:E.
      * apply Z.ltb_lt in E.
        assert (Hfull : length (history self) = Z.to_nat (limit self)) by lia.
        destruct (history self) as [|x h] eqn:Eh.
        -- cbn [app tail length] in *. replace (limit self) with 0 by lia.
           change (Z.to_nat 0) with O. rewrite !Nat.sub_0_r. reflexivity.
        -- cbn [app tail length] in *. rewrite length_app. cbn [length].
           rewrite <- app_assoc. cbn [app].
           replace (S (length h) + S (length records) - Z.to_nat (limit self))%nat
             with (S (length h + 1 + length records - Z.to_nat (limit self)))%nat by lia.
           reflexivity.
      * apply Z.ltb_ge in E. rewrite length_app. cbn [length].
        rewrite <- app_assoc. cbn [app].
        replace (length (history self) + 1 + length records)%nat
          with (length (history self) + S (length records))%nat by lia.
        reflexivity.
Qed.

(** C8. Once more records have been appended than the limit allows, to a log
    that was within its limit, the log holds exactly [limit] records: the
    newest ones, oldest first, the older ones having been dropped from the
    front. The store creates its log with the default limit, 50, so there it
    is the newest 50. *)
Theorem history_keeps_most_recent (self : TableHistory)
    (records : list OperationRecord) :
  0 <= limit self ->
  Z.of_nat (length (history self)) <= limit self ->
  limit self < Z.of_nat (length (history self ++ records)) ->
  Z.of_nat (length (history (add_operations self records))) = limit self /\
  history (add_operations self records)
  = drop (length (history self ++ records) - Z.to_nat (limit self))
         (history self ++ records).
Proof.
  intros H0 Hlen Hmore.
  destruct (add_operations_history records self H0 Hlen) as [_ Hh].
  split; [|exact Hh].
  rewrite Hh, length_drop. lia.
Qed.

(** Sixty records appended to the log of a new store. *)
Lemma history_keeps_most_recent_witness :
  Z.of_nat (length (history (add_operations (init default_limit) (Sample.log_entries 60))))
  = 50 /\
  history (add_operations (init default_limit) (Sample.log_entries 60))
  = drop (60 - 50) (Sample.log_entries 60).
Proof.
  apply (history_keeps_most_recent (init default_limit) (Sample.log_entries 60));
    vm_compute; first [reflexivity | discriminate].
Defined.

Example store_log_limit :
  limit (DataManager.history DataManager.init) = default_limit /\ default_limit = 50.
Proof. split; reflexivity. Qed.

End OperationLog.

(** ** What each operation of the store touches *)

Section StoreFrames.
Import Frame Extern DataManager.

Lemma history_save_snapshot_redo hp self n df :
  TableHistory._redo_stack (TableHistory.save_snapshot hp self n df).2
  = TableHistory._redo_stack self.
Proof. reflexivity. Qed.

Lemma history_save_snapshot_log hp self n df :
  TableHistory.history (TableHistory.save_snapshot hp self n df).2
  = TableHistory.history self.
Proof. reflexivity. Qed.

Lemma update_metadata_heap dm n fp sn : heap (_update_table_metadata dm n fp sn) = heap dm.
Proof. unfold _update_table_metadata. now destruct (get_table dm n). Qed.

Lemma update_metadata_tables dm n fp sn :
  tables (_update_table_metadata dm n fp sn) = tables dm.
Proof. unfold _update_table_metadata. now destruct (get_table dm n). Qed.

Lemma update_metadata_history dm n fp sn :
  history (_update_table_metadata dm n fp sn) = history dm.
Proof. unfold _update_table_metadata. now destruct (get_table dm n). Qed.

Lemma update_metadata_active dm n fp sn :
  active_table (_update_table_metadata dm n fp sn) = active_table dm.
Proof. unfold _update_table_metadata. now destruct (get_table dm n). Qed.

Lemma update_metadata_get_table dm n fp sn m :
  get_table (_update_table_metadata dm n fp sn) m = get_table dm m.
Proof.
  unfold get_table. now rewrite update_metadata_heap, update_metadata_tables.
Qed.

Lemma save_snapshot_tables dm n : tables (save_snapshot dm n) = tables dm.
Proof. unfold save_snapshot. now destruct (get_table dm n). Qed.

Lemma save_snapshot_redo dm n :
  TableHistory._redo_stack (history (save_snapshot dm n))
  = TableHistory._redo_stack (history dm).
Proof. unfold save_snapshot. now destruct (get_table dm n). Qed.

Lemma save_snapshot_metadata dm n :
  table_metadata (save_snapshot dm n) = table_metadata dm.
Proof. unfold save_snapshot. now destruct (get_table dm n). Qed.

(** [set_cell_value] never touches a redo stack, whether it succeeds or not. *)
Lemma set_cell_value_redo env dm n cell_ref v :
  TableHistory._redo_stack (history (set_cell_value env dm n cell_ref v).2)
  = TableHistory._redo_stack (history dm).
Proof.
  unfold set_cell_value.
  destruct (tables dm !! n) as [l|]; [|reflexivity].
  destruct (heap dm !! l) as [df|]; [|reflexivity].
  destruct (CellOperations.parse_cell_reference cell_ref) as [[row col]|]; [|reflexivity].
  destruct (CellOperations.validate_cell_position _ _ _ _); [|reflexivity].
  cbn [negb]. destruct (iloc_setitem env df row col v); [|reflexivity].
  cbn [snd]. now rewrite update_metadata_history, save_snapshot_redo.
Qed.

Lemma add_operation_redo_empty self record :
  TableHistory._redo_stack (TableHistory.add_operation self record) = ∅.
Proof. reflexivity. Qed.

Lemma can_redo_empty dm t :
  TableHistory._redo_stack (history dm) = ∅ -> can_redo dm t = false.
Proof.
  intros H. unfold can_redo, TableHistory.can_redo.
  destruct (resolve dm t); [|reflexivity]. now rewrite H, lookup_empty.
Qed.

Lemma redo_refused dm t : can_redo dm t = false -> redo dm t = (false, dm).
Proof.
  intros H. unfold redo. unfold can_redo in *.
  destruct (resolve dm t) as [n|]; [|reflexivity].
  cbn [resolve]. now rewrite H.
Qed.

Lemma save_table_redo env dm n path dm' :
  save_table env dm n path = (true, dm') ->
  TableHistory._redo_stack (history dm') = ∅.
Proof.
  unfold save_table.
  destruct (get_table dm n); [|discriminate].
  destruct (to_excel env _ path); [|discriminate].
  cbn [negb]. now intros [= <-].
Qed.

Lemma load_table_redo env dm path n sheet dm' :
  load_table env dm path n sheet = (true, dm') ->
  TableHistory._redo_stack (history dm') = ∅.
Proof.
  unfold load_table.
  destruct (read_excel env path sheet); [|discriminate].
  destruct (TableHistory.save_snapshot _ _ _ _). now intros [= <-].
Qed.

Lemma set_header_row_redo env dm n header_row tn hr cols msg dm' :
  set_header_row env dm n header_row = (SetHeaderOk tn hr cols msg, dm') ->
  TableHistory._redo_stack (history dm') = ∅.
Proof.
  unfold set_header_row.
  destruct (tables dm !! n) as [l|]; [|discriminate].
  destruct (heap dm !! l) as [df|]; [|discriminate].
  destruct (len df <=? header_row); [discriminate|].
  destruct (Py.index (rows df) header_row); [|discriminate].
  now intros [= _ _ _ _ <-].
Qed.

(** What a successful [undo] does to the history. *)
Lemma history_undo_some self n l self' :
  TableHistory.undo self n = (Some l, self') ->
  exists snaps prev top,
    TableHistory._snapshot_cache self !! n = Some (snaps ++ [prev; top]) /\
    l = TableHistory.data prev /\
    self' =
      {| TableHistory.history := TableHistory.history self;
         TableHistory.limit := TableHistory.limit self;
         TableHistory._snapshot_cache :=
           <[n := snaps ++ [prev]]> (TableHistory._snapshot_cache self);
         TableHistory._redo_stack :=
           <[n := default [] (TableHistory._redo_stack self !! n) ++ [top]]>
             (TableHistory._redo_stack self) |}.
Proof.
  unfold TableHistory.undo, TableHistory.can_undo.
  destruct (TableHistory._snapshot_cache self !! n) as [snapshots|] eqn:E;
    [|discriminate].
  destruct (1 <? Z.of_nat (length snapshots)) eqn:El; [|discriminate].
  cbn [negb from_option id].
  destruct snapshots as [|top snapshots _] using rev_ind; [discriminate|].
  rewrite last_snoc, removelast_last.
  destruct snapshots as [|prev snapshots _] using rev_ind; [discriminate|].
  rewrite last_snoc. cbn [fmap option_fmap option_map].
  intros [= <- <-]. exists snapshots, prev, top.
  rewrite <- app_assoc. auto.
Qed.

Lemma history_undo_run self n snaps prev top :
  TableHistory._snapshot_cache self !! n = Some (snaps ++ [prev; top]) ->
  TableHistory.undo self n =
    (Some (TableHistory.data prev),
     {| TableHistory.history := TableHistory.history self;
        TableHistory.limit := TableHistory.limit self;
        TableHistory._snapshot_cache :=
          <[n := snaps ++ [prev]]> (TableHistory._snapshot_cache self);
        TableHistory._redo_stack :=
          <[n := default [] (TableHistory._redo_stack self !! n) ++ [top]]>
            (TableHistory._redo_stack self) |}).
Proof.
  intros E. unfold TableHistory.undo, TableHistory.can_undo. rewrite E.
  replace (1 <? Z.of_nat (length (snaps ++ [prev; top]))) with true
    by (symmetry; apply Z.ltb_lt; rewrite length_app; cbn [length]; lia).
  cbn [negb from_option id].
  replace (snaps ++ [prev; top]) with ((snaps ++ [prev]) ++ [top])
    by now rewrite <- app_assoc.
  now rewrite last_snoc, removelast_last, last_snoc.
Qed.

End StoreFrames.

(** ** Undo and redo *)

Section UndoRedo.
Import Frame Extern DataManager Session.

Lemma two_or_more {A} (l : list A) :
  (1 < length l)%nat -> exists snaps prev top, l = snaps ++ [prev; top].
Proof.
  intros H.
  destruct l as [|top l _] using rev_ind; [simpl in H; lia|].
  destruct l as [|prev l _] using rev_ind; [simpl in H; lia|].
  exists l, prev, top. now rewrite <- app_assoc.
Qed.

Lemma undo_run dm n snaps prev top :
  TableHistory._snapshot_cache (history dm) !! n = Some (snaps ++ [prev; top]) ->
  undo dm (Some n)
  = (true, restored dm n (history_undone (history dm) n (snaps ++ [prev]) top)
                    (TableHistory.data prev)).
Proof.
  intros E. unfold undo, can_undo. cbn [resolve].
  pose proof (history_undo_run (history dm) n snaps prev top E) as Hu.
  unfold TableHistory.can_undo. rewrite E.
  replace (1 <? Z.of_nat (length (snaps ++ [prev; top]))) with true
    by (symmetry; apply Z.ltb_lt; rewrite length_app; cbn [length]; lia).
  cbn [negb]. rewrite Hu. reflexivity.
Qed.

Lemma undo_inv dm n dm1 :
  undo dm (Some n) = (true, dm1) ->
  exists snaps prev top,
    TableHistory._snapshot_cache (history dm) !! n = Some (snaps ++ [prev; top]) /\
    dm1 = restored dm n (history_undone (history dm) n (snaps ++ [prev]) top)
                   (TableHistory.data prev).
Proof.
  intros H.
  assert (Hc : can_undo dm (Some n) = true).
  { unfold undo in H. cbn [resolve] in H.
    destruct (can_undo dm (Some n)); [reflexivity | discriminate]. }
  unfold can_undo, TableHistory.can_undo in Hc. cbn [resolve] in Hc.
  destruct (TableHistory._snapshot_cache (history dm) !! n) as [snapshots|] eqn:E;
    [|discriminate].
  apply Z.ltb_lt in Hc.
  destruct (two_or_more snapshots) as (snaps & prev & top & ->); [lia|].
  exists snaps, prev, top. split; [reflexivity|].
  rewrite (undo_run dm n snaps prev top E) in H. now injection H as <-.
Qed.

Lemma restored_heap dm n h l : heap (restored dm n h l) = heap dm.
Proof. unfold restored. now rewrite update_metadata_heap. Qed.

Lemma restored_history dm n h l : history (restored dm n h l) = h.
Proof. unfold restored. now rewrite update_metadata_history. Qed.

Lemma restored_get_table dm n h l : get_table (restored dm n h l) n = heap dm !! l.
Proof.
  unfold restored. rewrite update_metadata_get_table.
  unfold get_table. cbn [tables heap with_tables with_history].
  now rewrite lookup_insert_eq.
Qed.

Lemma can_undo_single dm n s :
  TableHistory._snapshot_cache (history dm) !! n = Some [s] ->
  can_undo dm (Some n) = false /\ undo dm (Some n) = (false, dm).
Proof.
  intros E.
  assert (H : can_undo dm (Some n) = false).
  { unfold can_undo, TableHistory.can_undo. cbn [resolve]. now rewrite E. }
  split; [exact H|]. unfold undo. cbn [resolve]. now rewrite H.
Qed.

Lemma redo_run dm n below top :
  TableHistory._redo_stack (history dm) !! n = Some (below ++ [top]) ->
  redo dm (Some n)
  = (true,
     restored dm n
       {| TableHistory.history := TableHistory.history (history dm);
          TableHistory.limit := TableHistory.limit (history dm);
          TableHistory._snapshot_cache :=
            <[n := default [] (TableHistory._snapshot_cache (history dm) !! n) ++ [top]]>
              (TableHistory._snapshot_cache (history dm));
          TableHistory._redo_stack :=
            <[n := below]> (TableHistory._redo_stack (history dm)) |}
       (TableHistory.data top)).
Proof.
  intros E. unfold redo, can_redo. cbn [resolve].
  unfold TableHistory.redo, TableHistory.can_redo. rewrite E.
  replace (0 <? Z.of_nat (length (below ++ [top]))) with true
    by (symmetry; apply Z.ltb_lt; rewrite length_app; cbn [length]; lia).
  cbn [negb from_option id]. now rewrite last_snoc, removelast_last.
Qed.

(** Undoing down to the oldest snapshot. *)
Lemma undo_times_to_oldest rest : forall dm n oldest,
  TableHistory._snapshot_cache (history dm) !! n = Some (oldest :: rest) ->
  exists dm',
    undo_times (length rest) dm n = (true, dm') /\
    heap dm' = heap dm /\
    TableHistory._snapshot_cache (history dm') !! n = Some [oldest] /\
    (rest <> [] -> get_table dm' n = heap dm !! TableHistory.data oldest).
Proof.
  induction rest as [|top rest IH] using rev_ind; intros dm n oldest E.
  - exists dm. cbn [length undo_times]. repeat split; [assumption | congruence].
  - destruct (two_or_more (oldest :: rest ++ [top])) as (snaps & prev & top' & Hd).
    { cbn [length]. rewrite length_app. cbn [length]. lia. }
    assert (Hs : oldest :: rest = snaps ++ [prev] /\ top = top').
    { rewrite app_comm_cons in Hd.
      replace (snaps ++ [prev; top']) with ((snaps ++ [prev]) ++ [top']) in Hd
        by now rewrite <- app_assoc.
      apply app_inj_tail in Hd. exact Hd. }
    destruct Hs as [Hs <-].
    rewrite Hd in E.
    pose proof (undo_run dm n snaps prev top E) as Hu.
    set (dm1 := restored dm n (history_undone (history dm) n (snaps ++ [prev]) top)
                         (TableHistory.data prev)) in *.
    assert (E1 : TableHistory._snapshot_cache (history dm1) !! n = Some (oldest :: rest)).
    { unfold dm1. rewrite restored_history. cbn [TableHistory._snapshot_cache history_undone].
      now rewrite lookup_insert_eq, Hs. }
    destruct (IH dm1 n oldest E1) as (dm' & Ht & Hh & Hc & Hg).
    exists dm'. rewrite length_app. cbn [length].
    replace (length rest + 1)%nat with (S (length rest)) by lia.
    cbn [undo_times]. rewrite Hu.
    assert (Hh1 : heap dm1 = heap dm) by apply restored_heap.
    repeat split.
    + exact Ht.
    + now rewrite Hh.
    + exact Hc.
    + intros _. destruct rest as [|r rest'].
      * cbn [length undo_times] in Ht. injection Ht as <-.
        unfold dm1. rewrite restored_get_table.
        destruct snaps as [|x snaps']; cbn [app] in Hs.
        -- now injection Hs as <-.
        -- injection Hs as _ Hs. now destruct snaps'.
      * rewrite Hg by discriminate. now rewrite Hh1.
Qed.

End UndoRedo.

(** ** Redo after other operations *)

Section RedoInvalidation.
Import Frame Extern DataManager Session Sample.

Lemma undo_enables_redo dm n dm1 :
  undo dm (Some n) = (true, dm1) -> can_redo dm1 (Some n) = true.
Proof.
  intros H. apply undo_inv in H as (snaps & prev & top & _ & ->).
  unfold can_redo, TableHistory.can_redo. cbn [resolve].
  rewrite restored_history. cbn [TableHistory._redo_stack history_undone].
  rewrite lookup_insert_eq. apply Z.ltb_lt. rewrite length_app. cbn [length]. lia.
Qed.

(** C10. [add_operation] empties the whole redo dictionary, not the entry of
    the table the record names. So once an undo on a table [a] has made redo
    possible there, a load, a save or a header change that succeeds on any
    table [b] makes redo on [a] impossible again. *)
Theorem recorded_operation_clears_every_redo_stack :
  (forall self record t,
     TableHistory._redo_stack (TableHistory.add_operation self record) = ∅ /\
     TableHistory.can_redo (TableHistory.add_operation self record) t = false) /\
  (forall env dm a dm1,
     undo dm (Some a) = (true, dm1) ->
     can_redo dm1 (Some a) = true /\
     (forall b output_path dm2,
        save_table env dm1 b output_path = (true, dm2) ->
        can_redo dm2 (Some a) = false /\ redo dm2 (Some a) = (false, dm2)) /\
     (forall file_path b sheet_name dm2,
        load_table env dm1 file_path b sheet_name = (true, dm2) ->
        can_redo dm2 (Some a) = false /\ redo dm2 (Some a) = (false, dm2)) /\
     (forall b header_row tn hr cols msg dm2,
        set_header_row env dm1 b header_row = (SetHeaderOk tn hr cols msg, dm2) ->
        can_redo dm2 (Some a) = false /\ redo dm2 (Some a) = (false, dm2))).
Proof.
  split.
  - intros self record t. split; [reflexivity|].
    unfold TableHistory.can_redo. now rewrite add_operation_redo_empty, lookup_empty.
  - intros env dm a dm1 Hu. split; [now apply undo_enables_redo with dm|].
    repeat split.
    + eapply can_redo_empty, save_table_redo; eassumption.
    + eapply redo_refused, can_redo_empty, save_table_redo; eassumption.
    + eapply can_redo_empty, load_table_redo; eassumption.
    + eapply redo_refused, can_redo_empty, load_table_redo; eassumption.
    + eapply can_redo_empty, set_header_row_redo; eassumption.
    + eapply redo_refused, can_redo_empty, set_header_row_redo; eassumption.
Qed.

(** In the sample session: undo on [t], then a save of the other table [u]. *)
Lemma recorded_operation_clears_every_redo_stack_witness :
  can_redo undone_beside (Some "t"%string) = true /\
  can_redo saved_beside (Some "t"%string) = false /\
  redo saved_beside (Some "t"%string) = (false, saved_beside).
Proof.
  destruct recorded_operation_clears_every_redo_stack as [_ H].
  destruct (H env two_tables "t"%string undone_beside) as (H1 & H2 & _).
  { vm_compute. reflexivity. }
  split; [exact H1|].
  apply (H2 "u"%string "out.xlsx"%string saved_beside).
  vm_compute. reflexivity.
Defined.

(** C2, on the code. Writing a cell takes a snapshot but appends no record,
    and only [add_operation] empties the redo dictionary: after load, write,
    undo and a second write, redo is still offered, and taking it puts the
    frame of the first write back, without the second one. *)
Theorem set_cell_value_after_undo_keeps_redo :
  (forall env dm n cell_ref v,
     TableHistory._redo_stack (history (set_cell_value env dm n cell_ref v).2)
     = TableHistory._redo_stack (history dm)) /\
  undo edited (Some "t"%string) = (true, undone) /\
  set_cell_value env undone "t" "B2" (VInt 9) = (true, rewritten) /\
  get_table rewritten "t"
  = Some {| columns := [VStr "Unnamed: 0"; VStr "Unnamed: 1"];
            rows := [[VStr "h1"; VStr "h2"]; [VInt 1; VInt 9]; [VInt 3; VInt 4]] |} /\
  can_redo rewritten (Some "t"%string) = true /\
  (redo rewritten (Some "t"%string)).1 = true /\
  get_table (redo rewritten (Some "t"%string)).2 "t"
  = Some {| columns := [VStr "Unnamed: 0"; VStr "Unnamed: 1"];
            rows := [[VStr "h1"; VStr "h2"]; [VInt 7; VInt 2]; [VInt 3; VInt 4]] |}.
Proof.
  split; [exact set_cell_value_redo|].
  repeat split; vm_compute; reflexivity.
Qed.

(** The table bound by [undo] is the frame of the snapshot itself, so the
    write after the undo also rewrites that snapshot. *)
Example write_after_undo_reaches_snapshot :
  tables undone !! "t"%string = Some 1%nat /\
  TableHistory._snapshot_cache (history undone) !! "t"%string
  = Some [{| TableHistory.data := 1%nat |}] /\
  heap undone !! 1%nat = Some book /\
  heap rewritten !! 1%nat = Some (iloc_set book 1 1 (VInt 9)).
Proof. repeat split; vm_compute; reflexivity. Qed.

End RedoInvalidation.

(** ** Undo followed by redo *)

Section UndoThenRedo.
Import Frame Extern DataManager Session Sample.

(** C3, as the code has it. With at least two snapshots on the stack of a
    table, [undo] and then [redo] both succeed, leave the stack as it was and
    bind the table to the snapshot that was on top: what the table held before
    the undo comes back whenever the table had not been changed since that
    snapshot was taken. And one undo per snapshot above the oldest succeeds
    and ends on the oldest snapshot, where [can_undo] is false and a further
    undo is refused. *)
Theorem undo_redo_inverse (dm : DataManager) (n : string)
    (oldest : TableHistory.Snapshot) (middle : list TableHistory.Snapshot)
    (top : TableHistory.Snapshot) :
  TableHistory._snapshot_cache (history dm) !! n = Some (oldest :: middle ++ [top]) ->
  (exists dm1 dm2,
     undo dm (Some n) = (true, dm1) /\
     redo dm1 (Some n) = (true, dm2) /\
     TableHistory._snapshot_cache (history dm2) !! n = Some (oldest :: middle ++ [top]) /\
     can_redo dm2 (Some n) = can_redo dm (Some n) /\
     get_table dm2 n = heap dm !! TableHistory.data top /\
     (get_table dm n = heap dm !! TableHistory.data top ->
      get_table dm2 n = get_table dm n)) /\
  (exists dm',
     undo_times (S (length middle)) dm n = (true, dm') /\
     TableHistory._snapshot_cache (history dm') !! n = Some [oldest] /\
     get_table dm' n = heap dm !! TableHistory.data oldest /\
     can_undo dm' (Some n) = false /\
     undo dm' (Some n) = (false, dm')).
Proof.
  intros E. split.
  - destruct (two_or_more (oldest :: middle ++ [top])) as (snaps & prev & top' & Hd).
    { cbn [length]. rewrite length_app. cbn [length]. lia. }
    assert (Hs : oldest :: middle = snaps ++ [prev] /\ top = top').
    { rewrite app_comm_cons in Hd.
      replace (snaps ++ [prev; top']) with ((snaps ++ [prev]) ++ [top']) in Hd
        by now rewrite <- app_assoc.
      apply app_inj_tail in Hd. exact Hd. }
    destruct Hs as [Hs <-]. rewrite Hd in E.
    pose proof (undo_run dm n snaps prev top E) as Hu.
    set (dm1 := restored dm n (history_undone (history dm) n (snaps ++ [prev]) top)
                         (TableHistory.data prev)) in *.
    assert (Er : TableHistory._redo_stack (history dm1) !! n
                 = Some (default [] (TableHistory._redo_stack (history dm) !! n) ++ [top])).
    { unfold dm1. rewrite restored_history. cbn [TableHistory._redo_stack history_undone].
      now rewrite lookup_insert_eq. }
    pose proof (redo_run dm1 n _ top Er) as Hr.
    eexists dm1, _. split; [exact Hu|]. split; [exact Hr|].
    assert (Ec : TableHistory._snapshot_cache (history dm1) !! n = Some (snaps ++ [prev])).
    { unfold dm1. rewrite restored_history. cbn [TableHistory._snapshot_cache history_undone].
      now rewrite lookup_insert_eq. }
    assert (Hg : forall h,
               get_table (restored dm1 n h (TableHistory.data top)) n
               = heap dm !! TableHistory.data top).
    { intros h. rewrite restored_get_table. unfold dm1. now rewrite restored_heap. }
    repeat split.
    + rewrite restored_history. cbn [TableHistory._snapshot_cache].
      rewrite lookup_insert_eq, Ec. cbn [from_option id].
      now rewrite Hd, <- app_assoc.
    + unfold can_redo, TableHistory.can_redo. cbn [resolve].
      rewrite restored_history. cbn [TableHistory._redo_stack].
      rewrite lookup_insert_eq.
      now destruct (TableHistory._redo_stack (history dm) !! n).
    + apply Hg.
    + intros Hsame. now rewrite Hg.
  - destruct (undo_times_to_oldest (middle ++ [top]) dm n oldest E)
      as (dm' & Ht & Hh & Hc & Hg).
    exists dm'. rewrite length_app in Ht. cbn [length] in Ht.
    replace (length middle + 1)%nat with (S (length middle)) in Ht by lia.
    split; [exact Ht|]. split; [exact Hc|].
    split; [apply Hg; now destruct middle|].
    now apply can_undo_single with oldest.
Qed.

(** In the sample session a cell was written after the load, which took the
    second snapshot, and nothing has changed since. *)
Lemma undo_redo_inverse_witness :
  (exists dm1 dm2,
     undo edited (Some "t"%string) = (true, dm1) /\
     redo dm1 (Some "t"%string) = (true, dm2) /\
     TableHistory._snapshot_cache (history dm2) !! "t"%string
     = Some [{| TableHistory.data := 1%nat |}; {| TableHistory.data := 2%nat |}] /\
     get_table dm2 "t" = get_table edited "t") /\
  (exists dm',
     undo_times 1 edited "t" = (true, dm') /\
     get_table dm' "t" = Some book /\
     can_undo dm' (Some "t"%string) = false /\
     undo dm' (Some "t"%string) = (false, dm')).
Proof.
  destruct (undo_redo_inverse edited "t"%string
              {| TableHistory.data := 1%nat |} [] {| TableHistory.data := 2%nat |})
    as [(dm1 & dm2 & Hu & Hr & Hc & _ & _ & Hsame) (dm' & Ht & _ & Hg & Hn & Hf)].
  { vm_compute. reflexivity. }
  split.
  - exists dm1, dm2. split; [exact Hu|]. split; [exact Hr|]. split; [exact Hc|].
    apply Hsame. vm_compute. reflexivity.
  - exists dm'. split; [exact Ht|]. split; [|split; assumption].
    rewrite Hg. vm_compute. reflexivity.
Defined.

(** A range written after the last snapshot is not on the stack: undo and
    then redo bring the snapshot back, not what the table held before the
    undo. *)
Lemma undo_redo_inverse_counterexample :
  ~ (forall dm n snaps dm1 dm2,
       TableHistory._snapshot_cache (history dm) !! n = Some snaps ->
       (2 <= length snaps)%nat ->
       undo dm (Some n) = (true, dm1) ->
       redo dm1 (Some n) = (true, dm2) ->
       get_table dm2 n = get_table dm n).
Proof.
  intros H.
  specialize (H patched "t"%string
                [{| TableHistory.data := 1%nat |}; {| TableHistory.data := 2%nat |}]
                (undo patched (Some "t"%string)).2
                (redo (undo patched (Some "t"%string)).2 (Some "t"%string)).2).
  assert (Hf : get_table (redo (undo patched (Some "t"%string)).2 (Some "t"%string)).2 "t"
               = get_table patched "t").
  { apply H; [vm_compute; reflexivity | cbn [length]; lia
             | vm_compute; reflexivity | vm_compute; reflexivity]. }
  vm_compute in Hf. discriminate Hf.
Qed.

End UndoThenRedo.

(** ** Writing a cell *)

Section SetCell.
Import Frame Extern DataManager Session Sample.

Lemma fresh_not_live (hp : gmap loc DataFrame) : hp !! fresh (dom hp) = None.
Proof. apply not_elem_of_dom, is_fresh. Qed.





End SetCell.

(** ** Promoting a row to header *)

Section HeaderRow.
Import Frame Extern DataManager Session Sample.

(** C4, as the code has it. On a table whose rows are
    [["h1","h2"],[1,2],[3,4]], [set_header_row] with row index 0 succeeds and
    makes the column names ["h1","h2"]; rows are dropped only for an index
    above 0, so all three rows, the promoted one included, stay data rows. *)
Theorem set_header_row_zero_keeps_rows (env : Env) (dm : DataManager) (n : string)
    (l : loc) (cols : list value) :
  tables dm !! n = Some l ->
  heap dm !! l
  = Some {| columns := cols;
            rows := [[VStr "h1"; VStr "h2"]; [VInt 1; VInt 2]; [VInt 3; VInt 4]] |} ->
  exists msg dm',
    set_header_row env dm n 0 = (SetHeaderOk n 0 [VStr "h1"; VStr "h2"] msg, dm') /\
    get_table dm' n
    = Some {| columns := [VStr "h1"; VStr "h2"];
              rows := [[VStr "h1"; VStr "h2"]; [VInt 1; VInt 2]; [VInt 3; VInt 4]] |} /\
    exists m,
      table_metadata dm' !! n = Some m /\
      TableMetadata.columns m = [VStr "h1"; VStr "h2"] /\
      TableMetadata.total_rows m = 3 /\
      TableMetadata.header_row m = 0.
Proof.
  intros Ht Hh. unfold set_header_row. rewrite Ht, Hh.
  cbn [rows len length].
  change (Z.of_nat 3 <=? 0) with false. cbn iota.
  change (Py.index [[VStr "h1"; VStr "h2"]; [VInt 1; VInt 2]; [VInt 3; VInt 4]] 0)
    with (Some [VStr "h1"; VStr "h2"]).
  cbn iota.
  change (tolist env
            {| columns := cols;
               rows := [[VStr "h1"; VStr "h2"]; [VInt 1; VInt 2]; [VInt 3; VInt 4]] |}
            [VStr "h1"; VStr "h2"]) with [VStr "h1"; VStr "h2"].
  change (make_unique_header [VStr "h1"; VStr "h2"]) with [VStr "h1"; VStr "h2"].
  change (index_labels [VStr "h1"; VStr "h2"]) with [VStr "h1"; VStr "h2"].
  change (0 <? 0) with false. cbn iota.
  set (df1 := {| columns := [VStr "h1"; VStr "h2"];
                 rows := [[VStr "h1"; VStr "h2"]; [VInt 1; VInt 2]; [VInt 3; VInt 4]] |}).
  set (dm2 := with_tables (with_heap dm (<[l := df1]> (heap dm)))
                (<[n := l]> (tables (with_heap dm (<[l := df1]> (heap dm)))))).
  assert (Hg : get_table dm2 n = Some df1).
  { unfold get_table, dm2. cbn [tables heap with_tables with_heap].
    rewrite lookup_insert_eq. cbn. apply lookup_insert_eq. }
  assert (Hm : exists m0,
             table_metadata (_update_table_metadata dm2 n None None) !! n = Some m0 /\
             TableMetadata.columns m0 = [VStr "h1"; VStr "h2"] /\
             TableMetadata.total_rows m0 = 3).
  { unfold _update_table_metadata. rewrite Hg.
    cbn [table_metadata with_table_metadata]. rewrite lookup_insert_eq.
    eexists. split; [reflexivity|]. split; reflexivity. }
  destruct Hm as (m0 & Hm0 & Hc0 & Hr0). rewrite Hm0.
  eexists _, _. split; [reflexivity|].
  split.
  - unfold get_table in *. cbn [tables heap with_history with_table_metadata].
    rewrite update_metadata_tables, update_metadata_heap. exact Hg.
  - cbn [table_metadata with_history with_table_metadata].
    rewrite lookup_insert_eq. eexists. split; [reflexivity|].
    cbn. auto.
Qed.

Lemma set_header_row_zero_keeps_rows_witness :
  exists msg dm',
    set_header_row env loaded "t" 0 = (SetHeaderOk "t" 0 [VStr "h1"; VStr "h2"] msg, dm') /\
    get_table dm' "t"
    = Some {| columns := [VStr "h1"; VStr "h2"];
              rows := [[VStr "h1"; VStr "h2"]; [VInt 1; VInt 2]; [VInt 3; VInt 4]] |} /\
    exists m,
      table_metadata dm' !! "t"%string = Some m /\
      TableMetadata.columns m = [VStr "h1"; VStr "h2"] /\
      TableMetadata.total_rows m = 3 /\
      TableMetadata.header_row m = 0.
Proof.
  apply (set_header_row_zero_keeps_rows env loaded "t" 0%nat
           [VStr "Unnamed: 0"; VStr "Unnamed: 1"]);
    vm_compute; reflexivity.
Defined.

(** The promoted row is still the first data row afterwards. *)
Lemma set_header_row_zero_keeps_rows_counterexample :
  ~ (forall env dm n l cols,
       tables dm !! n = Some l ->
       heap dm !! l
       = Some {| columns := cols;
                 rows := [[VStr "h1"; VStr "h2"]; [VInt 1; VInt 2]; [VInt 3; VInt 4]] |} ->
       rows <$> get_table (set_header_row env dm n 0).2 n
       = Some [[VInt 1; VInt 2]; [VInt 3; VInt 4]]).
Proof.
  intros H.
  specialize (H env loaded "t"%string 0%nat [VStr "Unnamed: 0"; VStr "Unnamed: 1"]
                eq_refl eq_refl).
  vm_compute in H. discriminate H.
Qed.

(** For an index above 0 the rows up to the header row do go. *)
Example set_header_row_one_drops_rows :
  get_table (set_header_row env edited "t" 1).2 "t"
  = Some {| columns := [VInt 7; VInt 2]; rows := [[VInt 3; VInt 4]] |}.
Proof. vm_compute. reflexivity. Qed.

End HeaderRow.

(** ** Arithmetic on two columns *)

Section ColumnCalculation.
Import Frame Extern DataManager ExcelAgent Sample.

Lemma get_column_in df label col :
  get_column df label = Some col -> py_in label (columns df) = true.
Proof.
  unfold get_column.
  destruct (filter _ _) as [|j [|? ?]] eqn:E; try discriminate. intros _.
  assert (Hj : j ∈ filter (fun j => py_eq label (default VNone (columns df !! j)) = true)
                     (seq 0 (length (columns df)))).
  { rewrite E. apply list_elem_of_here. }
  apply list_elem_of_filter in Hj as [Hp Hj].
  apply elem_of_seq in Hj.
  destruct (lookup_lt_is_Some_2 (columns df) j) as [c Hc]; [lia|].
  rewrite Hc in Hp. cbn in Hp.
  unfold py_in. apply existsb_exists. exists c. split; [|exact Hp].
  apply list_elem_of_In. eapply list_elem_of_lookup_2. exact Hc.
Qed.

(** C5, as the code has it. With column1 = [10, "abc", 6] and
    column2 = [2, 2, 0], [column_calculation] with [divide] succeeds and
    writes [5.0, NaN, inf] to the target column: the operand that is no
    number gives a missing value, the division of 6 by zero gives infinity,
    which is not a missing value, and nothing is raised. *)
Theorem column_calculation_divide (env : Env) (dm : DataManager)
    (table_name : option string) (n column1 column2 target_column : string)
    (df : DataFrame) :
  str_to_numeric env "abc" = None ->
  resolve dm table_name = Some n ->
  get_table dm n = Some df ->
  get_column df (VStr column1) = Some [VInt 10; VStr "abc"; VInt 6] ->
  get_column df (VStr column2) = Some [VInt 2; VInt 2; VInt 0] ->
  exists dm',
    column_calculation env dm "divide" column1 column2 target_column table_name
    = (CalcOk "divide" column1 column2 target_column n (len df), dm') /\
    get_table dm' n
    = Some (set_column df (VStr target_column)
              [VFloat 5; VFloat nan; VFloat infinity]) /\
    map isna [VFloat 5; VFloat nan; VFloat infinity] = [false; true; false].
Proof.
  intros Habc Hr Hg H1 H2. unfold column_calculation.
  rewrite Hr, Hg, (get_column_in _ _ _ H1), (get_column_in _ _ _ H2), H1, H2.
  cbn [negb].
  assert (Ha : arithmetic "divide"
                 (to_numeric env [VInt 10; VStr "abc"; VInt 6])
                 (to_numeric env [VInt 2; VInt 2; VInt 0])
               = Some [VFloat 5; VFloat nan; VFloat infinity]).
  { unfold to_numeric. cbn [map cell_numeric]. rewrite Habc.
    vm_compute. reflexivity. }
  rewrite Ha. eexists. split; [reflexivity|]. split; [|reflexivity].
  rewrite update_metadata_get_table. unfold get_table.
  cbn [tables heap with_tables with_heap].
  rewrite lookup_insert_eq. cbn. apply lookup_insert_eq.
Qed.

Lemma column_calculation_divide_witness :
  exists dm',
    column_calculation env ledger_loaded "divide" "a" "b" "c" None
    = (CalcOk "divide" "a" "b" "c" "u" (len ledger), dm') /\
    get_table dm' "u"
    = Some (set_column ledger (VStr "c") [VFloat 5; VFloat nan; VFloat infinity]) /\
    map isna [VFloat 5; VFloat nan; VFloat infinity] = [false; true; false].
Proof.
  apply (column_calculation_divide env ledger_loaded None "u" "a" "b" "c" ledger);
    vm_compute; reflexivity.
Defined.

(** The third cell of the target column holds infinity, not a missing
    value. *)
Lemma column_calculation_divide_counterexample :
  ~ (forall dm n,
       get_table dm n
       = Some {| columns := [VStr "a"; VStr "b"];
                 rows := [[VInt 10; VInt 2]; [VStr "abc"; VInt 2]; [VInt 6; VInt 0]] |} ->
       exists dm' df' col,
         (column_calculation env dm "divide" "a" "b" "c" (Some n)).2 = dm' /\
         get_table dm' n = Some df' /\
         get_column df' (VStr "c") = Some col /\
         map isna col = [false; true; true]).
Proof.
  intros H. destruct (H ledger_loaded "u"%string eq_refl) as (dm' & df' & col & <- & Hg & Hc & Hn).
  vm_compute in Hg. injection Hg as <-.
  vm_compute in Hc. injection Hc as <-.
  vm_compute in Hn. discriminate Hn.
Qed.

Example column_calculation_divide_sample :
  get_table (column_calculation env ledger_loaded "divide" "a" "b" "c" None).2 "u"
  = Some {| columns := [VStr "a"; VStr "b"; VStr "c"];
            rows := [[VInt 10; VInt 2; VFloat 5];
                     [VStr "abc"; VInt 2; VFloat nan];
                     [VInt 6; VInt 0; VFloat infinity]] |}.
Proof. vm_compute. reflexivity. Qed.

End ColumnCalculation.

(** ** Writing a range *)

Section SetRange.
Import Frame Extern DataManager Sample.









Example set_range_values_repeats_row :
  (set_range_values env loaded "t" "A2:B3" patch).1 = true /\
  get_table (set_range_values env loaded "t" "A2:B3" patch).2 "t"
  = Some {| columns := [VStr "Unnamed: 0"; VStr "Unnamed: 1"];
            rows := [[VStr "h1"; VStr "h2"]; [VInt 5; VInt 6]; [VInt 5; VInt 6]] |}.
Proof. split; vm_compute; reflexivity. Qed.

End SetRange.

(** ** Filtering *)

Section Filter.
Import Frame Extern DataManager ExcelAgent Sample.





(** A condition can call a method of the frame: this one empties the table,
    and the evaluation then fails. *)
Lemma filter_data_reads_only_counterexample :
  ~ (forall (query : Query) dm condition table_name n df,
       resolve dm table_name = Some n ->
       get_table dm n = Some df ->
       get_table (filter_data query dm condition table_name).2 n = Some df).
Proof.
  intros H.
  specialize (H query ledger_loaded "@df.drop(@df.index, inplace=True)"%string None
                "u"%string ledger eq_refl eq_refl).
  vm_compute in H. discriminate H.
Qed.

Example filter_data_sample :
  filter_data query ledger_loaded "b > 1" None
  = (FilterOk "b > 1" "u" 2
       [[(VStr "a", VInt 10); (VStr "b", VInt 2)];
        [(VStr "a", VStr "abc"); (VStr "b", VInt 2)]],
     ledger_loaded) /\
  filter_data query ledger_loaded "a > 1" None = (FilterError, ledger_loaded) /\
  (filter_data query ledger_loaded "@df.drop(@df.index, inplace=True)" None).1
  = FilterError /\
  get_table (filter_data query ledger_loaded "@df.drop(@df.index, inplace=True)" None).2 "u"
  = Some {| columns := [VStr "a"; VStr "b"]; rows := [] |}.
Proof. repeat split; vm_compute; reflexivity. Qed.

End Filter.

(** * Further properties *)

(** ** Column references and the edges of cell references *)

Section ReferenceEdges.
Import Py CellOperations ColumnReference.

Lemma upper_char_idem c : upper_char (upper_char c) = upper_char c.
Proof.
  unfold upper_char at 2 3. destruct (in_range "a" "z" c) eqn:E.
  - apply in_range_spec in E. change (ord "a") with 97 in E. change (ord "z") with 122 in E.
    apply upper_char_fixed. rewrite ord_chr; lia.
  - unfold upper_char. now rewrite E.
Qed.

Lemma upper_idem s : upper (upper s) = upper s.
Proof.
  unfold upper. rewrite map_map. apply map_ext. intros c. apply upper_char_idem.
Qed.

Lemma upper_nil s : upper s = [] <-> s = [].
Proof. unfold upper. destruct s; simpl; split; congruence. Qed.

Lemma parse_cell_upper l :
  parse_cell_reference_l (upper l) = parse_cell_reference_l l.
Proof.
  unfold parse_cell_reference_l. rewrite upper_idem.
  destruct l; reflexivity.
Qed.

Lemma parse_column_upper l :
  parse_column_reference_l (upper l) = parse_column_reference_l l.
Proof.
  unfold parse_column_reference_l. rewrite upper_idem.
  destruct l; reflexivity.
Qed.

Lemma colon_upper c : Ascii.eqb (upper_char c) ":" = Ascii.eqb c ":".
Proof.
  unfold upper_char. destruct (in_range "a" "z" c) eqn:E; [|reflexivity].
  apply in_range_spec in E. change (ord "a") with 97 in E. change (ord "z") with 122 in E.
  transitivity false; [|symmetry]; apply Ascii.eqb_neq; intros H;
    apply (f_equal ord) in H; change (ord ":") with 58 in H.
  - rewrite ord_chr in H; lia.
  - lia.
Qed.

Lemma split_upper l : split ":" (upper l) = map upper (split ":" l).
Proof.
  induction l as [|c l IH]; [reflexivity|].
  cbn [upper map split]. fold (upper l). rewrite colon_upper.
  destruct (Ascii.eqb c ":"); [now rewrite IH|].
  rewrite IH. now destruct (split ":" l).
Qed.

Lemma parse_range_upper s : parse_range (upper_s s) = parse_range s.
Proof.
  unfold parse_range, upper_s. rewrite list_ascii_of_string_of_list_ascii.
  rewrite split_upper.
  destruct (list_ascii_of_string s) as [|c l] eqn:E; [reflexivity|].
  cbn [upper map]. fold (upper l). change (upper_char c :: upper l) with (upper (c :: l)).
  destruct (split ":" (c :: l)) as [|p0 [|p1 [|p2 ps]]]; try reflexivity.
  cbn [map]. now rewrite !parse_cell_upper.
Qed.

(** X2. References are read without regard to case: a reference and its
    upper-case form parse to the same position, for cells, columns and
    ranges alike. *)
Theorem references_ignore_case (s : string) :
  parse_cell_reference (upper_s s) = parse_cell_reference s /\
  parse_column_reference (upper_s s) = parse_column_reference s /\
  parse_range (upper_s s) = parse_range s.
Proof.
  unfold parse_cell_reference, parse_column_reference, upper_s.
  rewrite list_ascii_of_string_of_list_ascii.
  split; [apply parse_cell_upper | split; [apply parse_column_upper|]].
  apply parse_range_upper.
Qed.

Lemma re_match_letters_capitals l :
  l <> [] -> forallb is_AZ l = true -> re_match_letters l = Some l.
Proof.
  intros Hne Hl. unfold re_match_letters.
  pose proof (span_run is_AZ l [] Hl I) as Hs. rewrite app_nil_r in Hs.
  rewrite Hs. destruct l; [congruence | reflexivity].
Qed.

Lemma capitals_below_small l :
  forallb is_AZ l = true -> Forall (fun c => ord c <= 96) l.
Proof.
  intros Hl. apply Forall_forall. intros c Hc.
  rewrite forallb_forall in Hl. apply list_elem_of_In, Hl, is_AZ_spec in Hc. lia.
Qed.

Lemma parse_column_capitals l :
  l <> [] -> forallb is_AZ l = true ->
  parse_column_reference_l l = Some (letters_value l - 1).
Proof.
  intros Hne Hl. unfold parse_column_reference_l.
  destruct l as [|c l'] eqn:E; [congruence|]. rewrite <- E in *.
  rewrite upper_fixed by now apply capitals_below_small.
  rewrite re_match_letters_capitals by assumption.
  unfold letters_value. f_equal. ring.
Qed.

(** X1. Column letters and column indices are inverse to each other:
    the letters printed for an index from 0 on parse back to it, a non-empty
    run of capitals is printed back from the index it parses to, and a
    negative index prints as the empty string, which does not parse. *)
Theorem column_reference_round_trip :
  (forall col, 0 <= col -> parse_column_reference (column_to_excel col) = Some col) /\
  (forall s, s <> EmptyString -> forallb is_AZ (list_ascii_of_string s) = true ->
     exists col,
       parse_column_reference s = Some col /\ 0 <= col /\ column_to_excel col = s) /\
  (forall col, col < 0 ->
     column_to_excel col = EmptyString /\
     parse_column_reference (column_to_excel col) = None).
Proof.
  split; [|split].
  - intros col Hc. unfold parse_column_reference, column_to_excel.
    rewrite list_ascii_of_string_of_list_ascii.
    change (column_letters col) with (letters (col + 1)).
    destruct (letters_sound (col + 1)) as [Hl Hv]; [lia|].
    rewrite parse_column_capitals; [|apply letters_nonempty; lia|assumption].
    rewrite Hv. f_equal. ring.
  - intros s Hne Hl.
    assert (Hne' : list_ascii_of_string s <> []).
    { intros E. apply Hne. rewrite <- (string_of_list_ascii_of_string s), E. reflexivity. }
    pose proof (letters_value_pos _ Hne' Hl) as Hv.
    exists (letters_value (list_ascii_of_string s) - 1).
    split; [now apply parse_column_capitals|]. split; [lia|].
    unfold column_to_excel.
    change (column_letters (letters_value (list_ascii_of_string s) - 1))
      with (letters (letters_value (list_ascii_of_string s) - 1 + 1)).
    replace (letters_value (list_ascii_of_string s) - 1 + 1)
      with (letters_value (list_ascii_of_string s)) by ring.
    rewrite letters_complete by assumption. apply string_of_list_ascii_of_string.
  - intros col Hc. unfold column_to_excel.
    change (column_letters col) with (letters (col + 1)).
    rewrite letters_nonpos by lia. split; reflexivity.
Qed.

Lemma column_reference_round_trip_witness :
  parse_column_reference (column_to_excel 701) = Some 701 /\
  (exists col,
     parse_column_reference "ZZ" = Some col /\ 0 <= col /\
     column_to_excel col = "ZZ"%string) /\
  column_to_excel (-3) = EmptyString.
Proof.
  destruct column_reference_round_trip as (H1 & H2 & H3).
  split; [apply H1; lia|]. split.
  - apply H2; [discriminate | reflexivity].
  - apply H3. lia.
Defined.

Lemma str_nonneg_cons n :
  0 <= n ->
  exists d ds, str_nonneg n = d :: ds /\ forallb is_digit (d :: ds) = true.
Proof.
  intros Hn. destruct (str_nonneg_sound n Hn) as (Hd & _ & _).
  destruct (str_nonneg n) as [|d ds] eqn:E.
  - rewrite str_nonneg_step in E by assumption. now destruct (if n / 10 =? 0 then _ else _).
  - now exists d, ds.
Qed.

(** The first character of a printed number is a digit or the minus sign. *)
Lemma str_head z :
  exists c rest,
    str z = c :: rest /\ is_AZ c = false /\ ord c <= 96 /\
    Forall (fun c => ord c <= 96 /\ is_AZ c = false) (c :: rest) /\
    (z < 0 -> c = "-"%char).
Proof.
  assert (Hdig : forall l, forallb is_digit l = true ->
                   Forall (fun c => ord c <= 96 /\ is_AZ c = false) l).
  { intros l Hl. apply Forall_forall. intros c Hc.
    rewrite forallb_forall in Hl. apply list_elem_of_In, Hl in Hc.
    split; [apply is_digit_spec in Hc; lia | now apply digit_not_AZ]. }
  unfold str. destruct (z <? 0) eqn:E.
  - apply Z.ltb_lt in E.
    destruct (str_nonneg_cons (- z)) as (d & ds & Hs & Hd); [lia|].
    exists "-"%char, (str_nonneg (- z)). rewrite Hs.
    repeat split; try (vm_compute; congruence).
    constructor; [split; vm_compute; congruence|]. now apply Hdig.
  - apply Z.ltb_ge in E.
    destruct (str_nonneg_cons z E) as (d & ds & Hs & Hd).
    exists d, ds. pose proof (Hdig _ Hd) as HF.
    inversion HF as [|? ? [Ho Ha] HF']; subst.
    repeat split; try assumption. lia.
Qed.

Lemma parse_no_letters c rest :
  is_AZ c = false -> ord c <= 96 -> parse_cell_reference_l (c :: rest) = None.
Proof.
  intros Ha Ho. unfold parse_cell_reference_l, re_match_cell.
  cbn [upper map]. fold (upper rest). rewrite upper_char_fixed by assumption.
  cbn [span]. rewrite Ha. now destruct (span is_digit (c :: upper rest)).
Qed.

Lemma parse_letters_minus l rest :
  l <> [] -> forallb is_AZ l = true ->
  Forall (fun c => ord c <= 96 /\ is_AZ c = false) rest ->
  parse_cell_reference_l (l ++ "-"%char :: rest) = None.
Proof.
  intros Hne Hl Hrest. unfold parse_cell_reference_l.
  destruct (l ++ "-"%char :: rest) eqn:E; [now destruct l|]. rewrite <- E. clear E.
  rewrite upper_fixed.
  - unfold re_match_cell. rewrite (span_run is_AZ l _ Hl) by reflexivity.
    cbn [span]. change (is_digit "-") with false. cbn iota.
    destruct l; [congruence | reflexivity].
  - apply Forall_app. split; [now apply capitals_below_small|].
    constructor; [vm_compute; congruence|].
    eapply Forall_impl; [exact Hrest|]. now intros c [Hc _].
Qed.

(** Printing and then parsing, from row -1 on. *)
Lemma parse_printed_cell (row col : Z) :
  -1 <= row -> 0 <= col ->
  parse_cell_reference (cell_to_excel row col) = Some (row, col).
Proof.
  intros Er Ec. unfold parse_cell_reference, cell_to_excel.
  rewrite list_ascii_of_string_of_list_ascii.
  unfold cell_to_excel_l. change (column_letters col) with (letters (col + 1)).
  destruct (letters_sound (col + 1)) as [Hl Hv]; [lia|].
  assert (Hne : letters (col + 1) <> []) by (apply letters_nonempty; lia).
  rewrite str_of_nonneg by lia.
  destruct (str_nonneg_sound (row + 1)) as (_ & Hi & _); [lia|].
  destruct (str_nonneg_cons (row + 1)) as (d & ds & E & Hd); [lia|].
  rewrite E in *. rewrite parse_letters_digits by assumption.
  rewrite Hi, Hv. do 2 f_equal; ring.
Qed.

(** X3. What printing and then parsing gives for every pair of integers:
    the position itself when the row is at least -1 and the column at least
    0 (row -1 prints as row number 0), and no position otherwise. *)
Theorem parse_cell_to_excel_total (row col : Z) :
  parse_cell_reference (cell_to_excel row col)
  = if (-1 <=? row) && (0 <=? col) then Some (row, col) else None.
Proof.
  destruct (0 <=? col) eqn:Ec.
  - apply Z.leb_le in Ec.
    destruct (-1 <=? row) eqn:Er; cbn [andb].
    + apply Z.leb_le in Er. now apply parse_printed_cell.
    + apply Z.leb_gt in Er.
      unfold parse_cell_reference, cell_to_excel.
      rewrite list_ascii_of_string_of_list_ascii.
      unfold cell_to_excel_l. change (column_letters col) with (letters (col + 1)).
      destruct (letters_sound (col + 1)) as [Hl Hv]; [lia|].
      assert (Hne : letters (col + 1) <> []) by (apply letters_nonempty; lia).
      destruct (str_head (row + 1)) as (c & rest & Hs & _ & _ & HF & Hm).
      rewrite Hs, Hm by lia. inversion HF; subst.
      now apply parse_letters_minus.
  - apply Z.leb_gt in Ec. rewrite andb_false_r.
    unfold parse_cell_reference, cell_to_excel.
    rewrite list_ascii_of_string_of_list_ascii.
    unfold cell_to_excel_l. change (column_letters col) with (letters (col + 1)).
    rewrite letters_nonpos by lia. cbn [app].
    destruct (str_head (row + 1)) as (c & rest & Hs & Ha & Ho & _ & _).
    rewrite Hs. now apply parse_no_letters.
Qed.

End ReferenceEdges.

(** ** Ranges *)

Section Ranges.
Import Py CellOperations ColumnReference.

Lemma split_no_colon a :
  Forall (fun c => c <> ":"%char) a -> split ":" a = [a].
Proof.
  induction 1 as [|c a Hc _ IH]; [reflexivity|].
  cbn [split]. apply Ascii.eqb_neq in Hc. now rewrite Hc, IH.
Qed.

Lemma split_one_colon a b :
  Forall (fun c => c <> ":"%char) a -> Forall (fun c => c <> ":"%char) b ->
  split ":" (a ++ ":"%char :: b) = [a; b].
Proof.
  intros Ha Hb. induction Ha as [|c a Hc _ IH].
  - cbn [app split]. rewrite Ascii.eqb_refl. now rewrite split_no_colon.
  - cbn [app split]. apply Ascii.eqb_neq in Hc. now rewrite Hc, IH.
Qed.

Lemma forallb_no_colon p l :
  forallb p l = true -> p ":"%char = false -> Forall (fun c => c <> ":"%char) l.
Proof.
  intros Hl Hp. apply Forall_forall. intros c Hc ->.
  rewrite forallb_forall in Hl. apply list_elem_of_In, Hl in Hc. congruence.
Qed.

Lemma str_no_colon z : Forall (fun c => c <> ":"%char) (str z).
Proof.
  unfold str. destruct (z <? 0) eqn:E.
  - apply Z.ltb_lt in E. constructor; [discriminate|].
    destruct (str_nonneg_sound (- z)) as (Hd & _ & _); [lia|].
    now apply forallb_no_colon with is_digit.
  - apply Z.ltb_ge in E.
    destruct (str_nonneg_sound z E) as (Hd & _ & _).
    now apply forallb_no_colon with is_digit.
Qed.

Lemma cell_to_excel_no_colon row col :
  Forall (fun c => c <> ":"%char) (cell_to_excel_l row col).
Proof.
  unfold cell_to_excel_l. apply Forall_app. split; [|apply str_no_colon].
  change (column_letters col) with (letters (col + 1)).
  destruct (Z_le_gt_dec 0 (col + 1)) as [H|H].
  - destruct (letters_sound (col + 1) H) as [Hl _].
    now apply forallb_no_colon with is_AZ.
  - rewrite letters_nonpos by lia. constructor.
Qed.

(** X4. A printed range parses back to its four indices, whenever both
    corners have a row of at least -1 and a column of at least 0, also when
    the first corner lies after the second: [parse_range] does not compare
    the corners. *)
Theorem parse_range_to_excel (start_row start_col end_row end_col : Z) :
  -1 <= start_row -> 0 <= start_col -> -1 <= end_row -> 0 <= end_col ->
  parse_range (range_to_excel start_row start_col end_row end_col)
  = Some (start_row, start_col, end_row, end_col).
Proof.
  intros H1 H2 H3 H4. unfold parse_range, range_to_excel.
  rewrite list_ascii_of_string_of_list_ascii.
  rewrite split_one_colon by apply cell_to_excel_no_colon.
  pose proof (parse_printed_cell start_row start_col H1 H2) as Ps.
  pose proof (parse_printed_cell end_row end_col H3 H4) as Pe.
  unfold parse_cell_reference, cell_to_excel in Ps, Pe.
  rewrite list_ascii_of_string_of_list_ascii in Ps, Pe.
  rewrite Ps, Pe.
  now destruct (cell_to_excel_l start_row start_col ++ ":"%char :: cell_to_excel_l end_row end_col)
    eqn:E; [destruct (cell_to_excel_l start_row start_col)|].
Qed.

Lemma parse_range_to_excel_witness :
  parse_range (range_to_excel 4 1 9 27) = Some (4, 1, 9, 27) /\
  range_to_excel 4 1 9 27 = "B5:AB10"%string /\
  parse_range (range_to_excel 9 27 4 1) = Some (9, 27, 4, 1).
Proof.
  split; [apply parse_range_to_excel; lia|].
  split; [reflexivity|]. apply parse_range_to_excel; lia.
Defined.

Lemma validate_cell_position_spec row col max_rows max_cols :
  validate_cell_position row col max_rows max_cols = true <->
  0 <= row < max_rows /\ 0 <= col < max_cols.
Proof.
  unfold validate_cell_position.
  rewrite !andb_true_iff, !Z.leb_le, !Z.ltb_lt. lia.
Qed.

Lemma validate_range_spec sr sc er ec max_rows max_cols :
  validate_range sr sc er ec max_rows max_cols = true <->
  0 <= sr < max_rows /\ 0 <= sc < max_cols /\
  0 <= er < max_rows /\ 0 <= ec < max_cols /\ sr <= er /\ sc <= ec.
Proof.
  unfold validate_range.
  destruct ((0 <=? sr) && (sr <? max_rows) && (0 <=? sc) && (sc <? max_cols)) eqn:A;
  destruct ((0 <=? er) && (er <? max_rows) && (0 <=? ec) && (ec <? max_cols)) eqn:B;
  destruct ((er <? sr) || (ec <? sc)) eqn:C; cbn [negb];
  rewrite ?andb_true_iff, ?andb_false_iff, ?orb_true_iff, ?orb_false_iff,
    ?Z.leb_le, ?Z.ltb_lt, ?Z.leb_gt, ?Z.ltb_ge in A, B, C;
  (split; [intros H; try discriminate H; lia | intros H; try reflexivity; lia]).
Qed.

(** X5. [validate_range] accepts exactly the ranges whose two corners are
    valid cell positions and are in order, and then every cell of the
    rectangle is a valid cell position. *)
Theorem validate_range_cells (start_row start_col end_row end_col max_rows max_cols : Z) :
  (validate_range start_row start_col end_row end_col max_rows max_cols = true <->
   validate_cell_position start_row start_col max_rows max_cols = true /\
   validate_cell_position end_row end_col max_rows max_cols = true /\
   start_row <= end_row /\ start_col <= end_col) /\
  (validate_range start_row start_col end_row end_col max_rows max_cols = true ->
   forall row col,
     start_row <= row <= end_row -> start_col <= col <= end_col ->
     validate_cell_position row col max_rows max_cols = true).
Proof.
  split.
  - rewrite validate_range_spec, !validate_cell_position_spec. lia.
  - intros H row col Hr Hc. apply validate_range_spec in H.
    apply validate_cell_position_spec. lia.
Qed.

Lemma validate_range_cells_witness :
  validate_cell_position 2 1 5 3 = true.
Proof.
  destruct (validate_range_cells 1 0 3 2 5 3) as [_ H].
  apply H; [reflexivity | lia | lia].
Defined.

Lemma check_valid bad msg r :
  DataValidator.is_valid (DataValidator.check bad msg r)
  = DataValidator.is_valid r && negb bad.
Proof.
  unfold DataValidator.check. destruct bad; cbn.
  - now rewrite andb_false_r.
  - now rewrite andb_true_r.
Qed.

Lemma check_consistent bad msg r :
  (DataValidator.is_valid r = true <-> DataValidator.errors r = []) ->
  (DataValidator.is_valid (DataValidator.check bad msg r) = true <->
   DataValidator.errors (DataValidator.check bad msg r) = []).
Proof.
  intros H. unfold DataValidator.check. destruct bad; [|exact H]. cbn.
  split; [discriminate|]. intros E. now destruct (DataValidator.errors r).
Qed.

(** X6. The reference checks of [DataValidator] agree with the checks the
    store makes itself: a cell reference is valid exactly when it parses to
    a position [validate_cell_position] accepts, a range reference exactly
    when it parses to a range [validate_range] accepts, and a result is
    valid exactly when it lists no error. *)
Theorem validators_agree (ref : string) (max_rows max_cols : Z) :
  (DataValidator.is_valid (DataValidator.validate_cell_reference ref max_rows max_cols)
   = match parse_cell_reference ref with
     | Some (row, col) => validate_cell_position row col max_rows max_cols
     | None => false
     end) /\
  (DataValidator.is_valid (DataValidator.validate_range_reference ref max_rows max_cols)
   = match parse_range ref with
     | Some (start_row, start_col, end_row, end_col) =>
         validate_range start_row start_col end_row end_col max_rows max_cols
     | None => false
     end) /\
  (DataValidator.is_valid (DataValidator.validate_cell_reference ref max_rows max_cols)
   = true <->
   DataValidator.errors (DataValidator.validate_cell_reference ref max_rows max_cols) = []) /\
  (DataValidator.is_valid (DataValidator.validate_range_reference ref max_rows max_cols)
   = true <->
   DataValidator.errors (DataValidator.validate_range_reference ref max_rows max_cols) = []).
Proof.
  assert (Hempty_c : ref = EmptyString -> parse_cell_reference ref = None)
    by (intros ->; reflexivity).
  assert (Hempty_r : ref = EmptyString -> parse_range ref = None)
    by (intros ->; reflexivity).
  assert (Hok : DataValidator.is_valid DataValidator.ok = true <->
                DataValidator.errors DataValidator.ok = []) by (split; reflexivity).
  unfold DataValidator.validate_cell_reference, DataValidator.validate_range_reference.
  destruct (String.eqb_spec ref EmptyString) as [He|_].
  - rewrite Hempty_c, Hempty_r by assumption. cbn. repeat split; discriminate.
  - split; [|split; [|split]].
    + destruct (parse_cell_reference ref) as [[row col]|]; [|reflexivity].
      rewrite !check_valid. apply Bool.eq_iff_eq_true.
      rewrite validate_cell_position_spec.
      cbn [DataValidator.is_valid DataValidator.ok].
      rewrite !andb_true_iff, !negb_true_iff, !orb_false_iff, !Z.ltb_ge, !Z.leb_gt.
      intuition lia.
    + destruct (parse_range ref) as [[[[sr sc] er] ec]|]; [|reflexivity].
      rewrite !check_valid. apply Bool.eq_iff_eq_true.
      rewrite validate_range_spec.
      cbn [DataValidator.is_valid DataValidator.ok].
      rewrite !andb_true_iff, !negb_true_iff, !orb_false_iff, !Z.ltb_ge, !Z.leb_gt.
      intuition lia.
    + destruct (parse_cell_reference ref) as [[row col]|].
      * now do 2 apply check_consistent.
      * cbn. split; discriminate.
    + destruct (parse_range ref) as [[[[sr sc] er] ec]|].
      * now do 6 apply check_consistent.
      * cbn. split; discriminate.
Qed.

End Ranges.

(** ** Snapshots in the history *)

Section Snapshots.
Import Frame TableHistory HistoryAccess.

Lemma index_last {A} (l : list A) : Py.index l (-1) = last l.
Proof.
  unfold Py.index.
  destruct l as [|x l _] using rev_ind; [reflexivity|].
  rewrite last_snoc, length_app. cbn [length].
  replace ((0 <=? -1) && (-1 <? Z.of_nat (length l + 1))) with false by reflexivity.
  replace ((- Z.of_nat (length l + 1) <=? -1) && (-1 <? 0)) with true
    by (symmetry; apply andb_true_iff; split; [apply Z.leb_le; lia | reflexivity]).
  replace (Z.to_nat (Z.of_nat (length l + 1) + -1)) with (length l) by lia.
  now rewrite lookup_app_r, Nat.sub_diag.
Qed.

Lemma index_out_of_range {A} (l : list A) i :
  i < - Z.of_nat (length l) \/ Z.of_nat (length l) <= i -> Py.index l i = None.
Proof.
  intros H. unfold Py.index.
  replace ((0 <=? i) && (i <? Z.of_nat (length l))) with false
    by (symmetry; apply andb_false_iff; rewrite Z.leb_gt, Z.ltb_ge; lia).
  replace ((- Z.of_nat (length l) <=? i) && (i <? 0)) with false
    by (symmetry; apply andb_false_iff; rewrite Z.leb_gt, Z.ltb_ge; lia).
  reflexivity.
Qed.

(** X7. [save_snapshot] stores a fresh copy and keeps at most ten: the copy
    is a new object holding the data, every object that existed is left as it
    was, the list of the table is the old list with the copy at the end,
    without its first entry if that makes eleven, the lists of other tables,
    the redo dictionary and the log are untouched, and a list of at most ten
    stays a list of at most ten. *)
Theorem save_snapshot_copy_and_cap (hp : gmap loc DataFrame) (self : TableHistory)
    (n : string) (df : DataFrame) :
  let old := default [] (_snapshot_cache self !! n) in
  let copy := fresh (dom hp) in
  let hp' := (save_snapshot hp self n df).1 in
  let self' := (save_snapshot hp self n df).2 in
  hp !! copy = None /\
  hp' !! copy = Some df /\
  (forall l, l <> copy -> hp' !! l = hp !! l) /\
  _snapshot_cache self' !! n
  = Some (if 10 <? Z.of_nat (length old) + 1
          then tail old ++ [{| data := copy |}]
          else old ++ [{| data := copy |}]) /\
  get_snapshot self' n (-1) = Some copy /\
  (forall m, m <> n -> _snapshot_cache self' !! m = _snapshot_cache self !! m) /\
  _redo_stack self' = _redo_stack self /\
  history self' = history self /\
  ((length old <= 10)%nat ->
   (length (default [] (_snapshot_cache self' !! n)) <= 10)%nat).
Proof.
  intros old copy hp' self'.
  assert (Hc : _snapshot_cache self' !! n
               = Some (if 10 <? Z.of_nat (length old) + 1
                       then tail old ++ [{| data := copy |}]
                       else old ++ [{| data := copy |}])).
  { unfold self', save_snapshot, deepcopy. cbn [snd _snapshot_cache].
    rewrite lookup_insert_eq. fold old. fold copy.
    rewrite length_app. cbn [length]. rewrite Nat2Z.inj_add. change (Z.of_nat 1) with 1.
    destruct (10 <? Z.of_nat (length old) + 1) eqn:E; [|reflexivity].
    unfold pop_front. destruct old; [discriminate E | reflexivity]. }
  split; [apply not_elem_of_dom, is_fresh|].
  split; [apply lookup_insert_eq|].
  split; [intros l Hl; unfold hp', save_snapshot, deepcopy; cbn [fst];
          now apply lookup_insert_ne|].
  split; [exact Hc|].
  split.
  { unfold get_snapshot. rewrite Hc.
    destruct (10 <? Z.of_nat (length old) + 1).
    - destruct (tail old ++ [{| data := copy |}]) eqn:E; [now destruct (tail old)|].
      rewrite <- E, index_last, last_snoc. reflexivity.
    - destruct (old ++ [{| data := copy |}]) eqn:E; [now destruct old|].
      rewrite <- E, index_last, last_snoc. reflexivity. }
  split; [intros m Hm; unfold self', save_snapshot, deepcopy; cbn [snd _snapshot_cache];
          now apply lookup_insert_ne|].
  split; [reflexivity|]. split; [reflexivity|].
  intros Hlen. rewrite Hc. cbn [from_option id].
  destruct (10 <? Z.of_nat (length old) + 1) eqn:E.
  - rewrite length_app. cbn [length]. destruct old; cbn [tail length] in *; lia.
  - apply Z.ltb_ge in E. rewrite length_app. cbn [length]. lia.
Qed.

Lemma save_snapshot_copy_and_cap_witness :
  (length (default []
     (_snapshot_cache
        (save_snapshot (DataManager.heap Sample.edited)
           (DataManager.history Sample.edited) "t" Sample.book).2 !! "t"%string)) <= 10)%nat.
Proof.
  apply (save_snapshot_copy_and_cap (DataManager.heap Sample.edited)
           (DataManager.history Sample.edited) "t" Sample.book).
  vm_compute. lia.
Defined.

(** X8. [get_snapshot] answers [None] instead of raising: for a table
    without snapshots and for an index outside [-len, len); inside that
    interval it answers the snapshot Python's indexing selects, [-1] being the
    newest. *)
Theorem get_snapshot_edges (self : TableHistory) (n : string) (index : Z) :
  (_snapshot_cache self !! n = None -> get_snapshot self n index = None) /\
  (forall snapshots,
     _snapshot_cache self !! n = Some snapshots ->
     (index < - Z.of_nat (length snapshots) \/ Z.of_nat (length snapshots) <= index ->
      get_snapshot self n index = None) /\
     (0 <= index < Z.of_nat (length snapshots) ->
      get_snapshot self n index = data <$> snapshots !! Z.to_nat index /\
      get_snapshot self n (index - Z.of_nat (length snapshots))
      = data <$> snapshots !! Z.to_nat index) /\
     get_snapshot self n (-1) = data <$> last snapshots).
Proof.
  split.
  - intros E. unfold get_snapshot. now rewrite E.
  - intros snapshots E. unfold get_snapshot. rewrite E. repeat split.
    + intros H. rewrite index_out_of_range by assumption. now destruct snapshots.
    + destruct snapshots; [cbn [length] in *; lia|].
      unfold Py.index.
      replace ((0 <=? index) && (index <? Z.of_nat (length (s :: snapshots)))) with true
        by (symmetry; apply andb_true_iff; rewrite Z.leb_le, Z.ltb_lt; lia).
      reflexivity.
    + destruct snapshots; [cbn [length] in *; lia|].
      unfold Py.index.
      set (len := Z.of_nat (length (s :: snapshots))) in *.
      replace ((0 <=? index - len) && (index - len <? len)) with false
        by (symmetry; apply andb_false_iff; rewrite Z.leb_gt, Z.ltb_ge; lia).
      replace ((- len <=? index - len) && (index - len <? 0)) with true
        by (symmetry; apply andb_true_iff; rewrite Z.leb_le, Z.ltb_lt; lia).
      replace (len + (index - len)) with index by ring. reflexivity.
    + rewrite index_last. now destruct snapshots.
Qed.

Lemma get_snapshot_edges_witness :
  get_snapshot (DataManager.history Sample.edited) "nowhere" 0 = None /\
  get_snapshot (DataManager.history Sample.edited) "t" 2 = None /\
  get_snapshot (DataManager.history Sample.edited) "t" (-3) = None /\
  get_snapshot (DataManager.history Sample.edited) "t" 0 = Some 1%nat /\
  get_snapshot (DataManager.history Sample.edited) "t" (-1) = Some 2%nat.
Proof.
  destruct (get_snapshot_edges (DataManager.history Sample.edited) "nowhere" 0) as [H0 _].
  destruct (get_snapshot_edges (DataManager.history Sample.edited) "t" 2) as [_ H2].
  destruct (get_snapshot_edges (DataManager.history Sample.edited) "t" (-3)) as [_ H3].
  destruct (get_snapshot_edges (DataManager.history Sample.edited) "t" 0) as [_ H4].
  split; [apply H0; vm_compute; reflexivity|].
  destruct (H2 [{| data := 1%nat |}; {| data := 2%nat |}] eq_refl) as (H2' & _ & _).
  destruct (H3 [{| data := 1%nat |}; {| data := 2%nat |}] eq_refl) as (H3' & _ & _).
  destruct (H4 [{| data := 1%nat |}; {| data := 2%nat |}] eq_refl) as (_ & H4' & H5').
  split; [apply H2'; cbn; lia|].
  split; [apply H3'; cbn; lia|].
  split; [apply H4'; cbn; lia | exact H5'].
Defined.

End Snapshots.

(** ** Undo, redo and clearing at the level of the history *)

Section HistoryMoves.
Import Frame TableHistory HistoryAccess.

Lemma history_redo_run self n below top :
  _redo_stack self !! n = Some (below ++ [top]) ->
  redo self n
  = (Some (data top),
     {| history := history self;
        limit := limit self;
        _snapshot_cache :=
          <[n := default [] (_snapshot_cache self !! n) ++ [top]]> (_snapshot_cache self);
        _redo_stack := <[n := below]> (_redo_stack self) |}).
Proof.
  intros E. unfold redo, can_redo. rewrite E.
  replace (0 <? Z.of_nat (length (below ++ [top]))) with true
    by (symmetry; apply Z.ltb_lt; rewrite length_app; cbn [length]; lia).
  cbn [negb from_option id]. now rewrite last_snoc, removelast_last.
Qed.

Lemma history_redo_inv self n l self' :
  redo self n = (Some l, self') ->
  exists below top, _redo_stack self !! n = Some (below ++ [top]).
Proof.
  unfold redo, can_redo.
  destruct (_redo_stack self !! n) as [stack|] eqn:E; [|discriminate].
  destruct (0 <? Z.of_nat (length stack)) eqn:El; [|discriminate].
  destruct stack as [|top below _] using rev_ind; [discriminate|].
  intros _. now exists below, top.
Qed.

Lemma history_undo_none self n self' : undo self n = (None, self') -> self' = self.
Proof.
  intros H. destruct (can_undo self n) eqn:E.
  - unfold can_undo in E.
    destruct (_snapshot_cache self !! n) as [snapshots|] eqn:Ec; [|discriminate].
    apply Z.ltb_lt in E.
    destruct (two_or_more snapshots) as (snaps & prev & top & ->); [lia|].
    now rewrite (history_undo_run self n snaps prev top Ec) in H.
  - unfold undo in H. rewrite E in H. now injection H as <-.
Qed.

Lemma history_redo_none self n self' : redo self n = (None, self') -> self' = self.
Proof.
  intros H. destruct (can_redo self n) eqn:E.
  - unfold can_redo in E.
    destruct (_redo_stack self !! n) as [stack|] eqn:Ec; [|discriminate].
    destruct stack as [|top below _] using rev_ind; [discriminate|].
    now rewrite (history_redo_run self n below top Ec) in H.
  - unfold redo in H. rewrite E in H. now injection H as <-.
Qed.

(** X9. [undo] and [redo] only move a snapshot between the two lists of the
    table: when they succeed the undo list changes by one entry, the number
    of snapshots held for the table stays the same, the lists of other
    tables, the log and the limit are untouched; when they fail the history
    is unchanged. [redo] does not trim the undo list to ten. *)
Theorem undo_redo_move_one (self : TableHistory) (n : string) :
  (forall l self',
     undo self n = (Some l, self') ->
     held self' n = held self n /\
     S (length (default [] (_snapshot_cache self' !! n)))
     = length (default [] (_snapshot_cache self !! n)) /\
     history self' = history self /\ limit self' = limit self /\
     forall m, m <> n ->
       _snapshot_cache self' !! m = _snapshot_cache self !! m /\
       _redo_stack self' !! m = _redo_stack self !! m) /\
  (forall l self',
     redo self n = (Some l, self') ->
     held self' n = held self n /\
     length (default [] (_snapshot_cache self' !! n))
     = S (length (default [] (_snapshot_cache self !! n))) /\
     history self' = history self /\ limit self' = limit self /\
     forall m, m <> n ->
       _snapshot_cache self' !! m = _snapshot_cache self !! m /\
       _redo_stack self' !! m = _redo_stack self !! m) /\
  (forall self', undo self n = (None, self') -> self' = self) /\
  (forall self', redo self n = (None, self') -> self' = self).
Proof.
  split; [|split; [|split]].
  - intros l self' H.
    apply history_undo_some in H as (snaps & prev & top & E & _ & ->).
    unfold held. cbn [_snapshot_cache _redo_stack history limit].
    rewrite !lookup_insert_eq, E. cbn [from_option id].
    rewrite !length_app. cbn [length].
    repeat split; try lia; now rewrite lookup_insert_ne.
  - intros l self' H.
    destruct (history_redo_inv _ _ _ _ H) as (below & top & E).
    rewrite (history_redo_run self n below top E) in H. injection H as _ <-.
    unfold held. cbn [_snapshot_cache _redo_stack history limit].
    rewrite !lookup_insert_eq, E. cbn [from_option id].
    rewrite !length_app. cbn [length].
    repeat split; try lia; now rewrite lookup_insert_ne.
  - apply history_undo_none.
  - apply history_redo_none.
Qed.

Lemma undo_redo_move_one_witness :
  held (undo (DataManager.history Sample.edited) "t").2 "t"%string
  = held (DataManager.history Sample.edited) "t"%string /\
  held (redo (undo (DataManager.history Sample.edited) "t").2 "t").2 "t"%string
  = held (undo (DataManager.history Sample.edited) "t").2 "t"%string.
Proof.
  split.
  - destruct (undo_redo_move_one (DataManager.history Sample.edited) "t") as (H & _).
    apply (H 1%nat). vm_compute. reflexivity.
  - destruct (undo_redo_move_one (undo (DataManager.history Sample.edited) "t").2 "t")
      as (_ & H & _).
    apply (H 2%nat). vm_compute. reflexivity.
Defined.

(** X10. A [redo] followed by an [undo] on the same table puts the history
    back exactly as it was, provided the table had a snapshot on its undo list
    before the redo; the undo hands back the frame that was newest then. *)
Theorem redo_then_undo_is_identity (self : TableHistory) (n : string) (l : loc)
    (self1 : TableHistory) (snapshots : list Snapshot) (newest : Snapshot) :
  redo self n = (Some l, self1) ->
  _snapshot_cache self !! n = Some (snapshots ++ [newest]) ->
  undo self1 n = (Some (data newest), self).
Proof.
  intros Hr Ec.
  destruct (history_redo_inv _ _ _ _ Hr) as (below & top & Er).
  rewrite (history_redo_run self n below top Er) in Hr. injection Hr as _ <-.
  rewrite Ec. cbn [from_option id].
  erewrite history_undo_run.
  2:{ cbn [_snapshot_cache]. rewrite lookup_insert_eq.
      rewrite <- app_assoc. reflexivity. }
  cbn [_snapshot_cache _redo_stack history limit].
  rewrite lookup_insert_eq. cbn [from_option id].
  rewrite !insert_insert_eq.
  rewrite (insert_id _ _ _ Ec), (insert_id _ _ _ Er).
  now destruct self.
Qed.

Lemma redo_then_undo_is_identity_witness :
  undo (redo (DataManager.history Sample.undone) "t").2 "t"
  = (Some 1%nat, DataManager.history Sample.undone).
Proof.
  apply (redo_then_undo_is_identity (DataManager.history Sample.undone) "t" 2%nat
           (redo (DataManager.history Sample.undone) "t").2 [] {| data := 1%nat |});
    vm_compute; reflexivity.
Defined.

End HistoryMoves.

Section ClearHistory.
Import Frame TableHistory HistoryAccess.

Lemma filter_other_table (n m : string) (l : list OperationRecord) :
  m <> n ->
  filter (fun r => table_name r = m) (filter (fun r => table_name r <> n) l)
  = filter (fun r => table_name r = m) l.
Proof.
  intros Hm. induction l as [|r l IH]; [reflexivity|].
  rewrite (filter_cons (fun r => table_name r <> n)).
  destruct (decide (table_name r <> n)) as [Hr|Hr].
  - rewrite !filter_cons. destruct (decide (table_name r = m)); now rewrite IH.
  - rewrite IH, filter_cons.
    destruct (decide (table_name r = m)) as [E|]; [|reflexivity].
    exfalso. apply Hr. congruence.
Qed.

Lemma filter_same_table (n : string) (l : list OperationRecord) :
  filter (fun r => table_name r = n) (filter (fun r => table_name r <> n) l) = [].
Proof.
  induction l as [|r l IH]; [reflexivity|].
  rewrite (filter_cons (fun r => table_name r <> n)).
  destruct (decide (table_name r <> n)) as [Hr|Hr]; [|exact IH].
  rewrite filter_cons. destruct (decide (table_name r = n)); [contradiction | exact IH].
Qed.

Lemma filter_split_length (n : string) (l : list OperationRecord) :
  (length (filter (fun r => table_name r <> n) l)
   + length (filter (fun r => table_name r = n) l) = length l)%nat.
Proof.
  induction l as [|r l IH]; [reflexivity|].
  rewrite !filter_cons.
  destruct (decide (table_name r <> n)) as [Hr|Hr];
    destruct (decide (table_name r = n)) as [E|E]; cbn [length]; try lia.
  - contradiction.
  - exfalso. apply Hr. exact E.
Qed.

(** X11. [clear_history] for one table removes what the history holds for
    that table and nothing else: no record of it is left, it can neither be
    undone nor redone and has no snapshot, while the records, snapshots and
    redo entries of every other table are as before and the log has shrunk by
    the records removed. Without a table name everything but the limit is
    reset. *)
Theorem clear_history_scope (self : TableHistory) (n : string) :
  get_operation_count (clear_history self (Some n)) (Some n) = 0 /\
  can_undo (clear_history self (Some n)) n = false /\
  can_redo (clear_history self (Some n)) n = false /\
  (forall index, get_snapshot (clear_history self (Some n)) n index = None) /\
  (forall m, m <> n ->
     get_operation_count (clear_history self (Some n)) (Some m)
     = get_operation_count self (Some m) /\
     can_undo (clear_history self (Some n)) m = can_undo self m /\
     can_redo (clear_history self (Some n)) m = can_redo self m /\
     (forall index, get_snapshot (clear_history self (Some n)) m index
                    = get_snapshot self m index)) /\
  get_operation_count (clear_history self (Some n)) None
  = get_operation_count self None - get_operation_count self (Some n) /\
  limit (clear_history self (Some n)) = limit self /\
  clear_history self None = init (limit self).
Proof.
  unfold get_operation_count, can_undo, can_redo, get_snapshot, clear_history.
  cbn [history _snapshot_cache _redo_stack limit].
  rewrite !lookup_delete_eq, filter_same_table.
  split; [reflexivity|]. split; [reflexivity|]. split; [reflexivity|].
  split; [reflexivity|]. split.
  - intros m Hm. rewrite !lookup_delete_ne by congruence.
    now rewrite filter_other_table.
  - split; [|split; reflexivity].
    pose proof (filter_split_length n (history self)). lia.
Qed.

End ClearHistory.

Lemma clear_history_scope_witness :
  TableHistory.can_undo
    (HistoryAccess.clear_history (DataManager.history Sample.two_tables) (Some "t"%string)) "u"
  = TableHistory.can_undo (DataManager.history Sample.two_tables) "u" /\
  HistoryAccess.get_operation_count
    (HistoryAccess.clear_history (DataManager.history Sample.two_tables) (Some "t"%string))
    (Some "u"%string)
  = HistoryAccess.get_operation_count (DataManager.history Sample.two_tables) (Some "u"%string).
Proof.
  destruct (clear_history_scope (DataManager.history Sample.two_tables) "t")
    as (_ & _ & _ & _ & H & _).
  destruct (H "u"%string) as (H1 & H2 & _); [discriminate|]. now split.
Defined.

(** ** Reading and writing cells of a stored table *)

Section CellAccess.
Import Frame Extern DataManager Store.









End CellAccess.

(** ** Reading and writing ranges of a stored table *)

Section RangeAccess.
Import Frame Extern DataManager Store.












End RangeAccess.

(** ** What the store keeps true *)

Section StoreInvariants.
Import Frame Extern DataManager Store.

Lemma update_metadata_in_sync dm n fp sn :
  metadata_in_sync (_update_table_metadata dm n fp sn) n.
Proof.
  intros df Hg. rewrite update_metadata_get_table in Hg.
  unfold _update_table_metadata. rewrite Hg.
  cbn [table_metadata with_table_metadata]. rewrite lookup_insert_eq.
  eexists. split; [reflexivity|]. repeat split.
Qed.

Lemma in_sync_same_tables dm dm' n :
  (forall df, get_table dm' n = Some df -> get_table dm n = Some df) ->
  table_metadata dm' !! n = table_metadata dm !! n ->
  metadata_in_sync dm n -> metadata_in_sync dm' n.
Proof.
  intros Hg Hm H df Hdf. rewrite Hm. apply H, Hg, Hdf.
Qed.

Lemma fresh_insert_get_table dm k df0 dfk :
  get_table dm k = Some dfk ->
  get_table (with_heap dm (<[fresh (dom (heap dm)) := df0]> (heap dm))) k = Some dfk.
Proof.
  unfold get_table. cbn [tables heap with_heap].
  destruct (tables dm !! k) as [l|]; [|discriminate]. cbn. intros Hk.
  rewrite lookup_insert_ne; [exact Hk|].
  intros E. pose proof (fresh_not_live (heap dm)) as Hf. rewrite E in Hf. congruence.
Qed.

(** X14. After every operation of the store that changes or rebinds a table
    and succeeds, the metadata of that table give the column names and the
    row count of the frame the table is now bound to. *)
Theorem metadata_follow_table :
  (forall env dm n cell_ref v dm',
     set_cell_value env dm n cell_ref v = (true, dm') -> metadata_in_sync dm' n) /\
  (forall env dm n range_ref values dm',
     set_range_values env dm n range_ref values = (true, dm') ->
     metadata_in_sync dm' n) /\
  (forall dm n dm', undo dm (Some n) = (true, dm') -> metadata_in_sync dm' n) /\
  (forall dm n dm', redo dm (Some n) = (true, dm') -> metadata_in_sync dm' n) /\
  (forall env dm n header_row tn hr cols msg dm',
     set_header_row env dm n header_row = (SetHeaderOk tn hr cols msg, dm') ->
     metadata_in_sync dm' n /\
     exists m, table_metadata dm' !! n = Some m /\ TableMetadata.header_row m = header_row) /\
  (forall env dm file_path n sheet_name dm',
     load_table env dm file_path (Some n) sheet_name = (true, dm') ->
     metadata_in_sync dm' n).
Proof.
  split; [|split; [|split; [|split; [|split]]]].
  - intros env dm n cell_ref v dm'. unfold set_cell_value.
    destruct (tables dm !! n) as [l|]; [|discriminate].
    destruct (heap dm !! l) as [df|]; [|discriminate].
    destruct (CellOperations.parse_cell_reference cell_ref) as [[row col]|]; [|discriminate].
    destruct (negb _); [discriminate|].
    destruct (iloc_setitem env df row col v); [|discriminate].
    intros [= <-]. apply update_metadata_in_sync.
  - intros env dm n range_ref values dm'. unfold set_range_values.
    destruct (tables dm !! n) as [l|]; [|discriminate].
    destruct (heap dm !! l) as [df|]; [|discriminate].
    destruct (CellOperations.parse_range range_ref) as [[[[sr sc] er] ec]|]; [|discriminate].
    destruct (negb _); [discriminate|]. cbn zeta.
    destruct (broadcast _ _ _ _) as [block|]; [|discriminate].
    destruct (iloc_setblock env df _ _ block) as [[|] df']; [|discriminate].
    intros [= <-]. apply update_metadata_in_sync.
  - intros dm n dm' H. apply undo_inv in H as (snaps & prev & top & _ & ->).
    apply update_metadata_in_sync.
  - intros dm n dm'. unfold redo. cbn [resolve].
    destruct (negb _); [discriminate|].
    destruct (TableHistory.redo (history dm) n) as [[l|] h]; [|discriminate].
    intros [= <-]. apply update_metadata_in_sync.
  - intros env dm n header_row tn hr cols msg dm'. unfold set_header_row.
    destruct (tables dm !! n) as [l|]; [|discriminate].
    destruct (heap dm !! l) as [df|]; [|discriminate].
    destruct (len df <=? header_row); [discriminate|].
    destruct (Py.index (rows df) header_row) as [row|]; [|discriminate].
    cbn zeta.
    set (dm2 := if 0 <? header_row then _ else _).
    pose proof (update_metadata_in_sync dm2 n None None) as Hs.
    set (dm3 := _update_table_metadata dm2 n None None) in *.
    intros [= _ _ _ _ <-].
    assert (Hg3 : is_Some (get_table dm3 n)).
    { unfold dm3. rewrite update_metadata_get_table. unfold dm2, get_table.
      destruct (0 <? header_row); cbn [tables heap with_tables with_heap];
        rewrite lookup_insert_eq; cbn; rewrite lookup_insert_eq; eauto. }
    destruct Hg3 as [df3 Hg3].
    destruct (Hs df3 Hg3) as (m & Hm & Hn & Hc & Hr). rewrite Hm.
    split.
    + intros df' Hdf'.
      assert (df' = df3) as -> by (unfold get_table in *; cbn in Hdf'; congruence).
      cbn [table_metadata with_history with_table_metadata].
      rewrite lookup_insert_eq. eexists. split; [reflexivity|]. now cbn.
    + cbn [table_metadata with_history with_table_metadata].
      rewrite lookup_insert_eq. eexists. split; reflexivity.
  - intros env dm file_path n sheet_name dm'. unfold load_table. cbn [from_option id].
    destruct (read_excel env file_path sheet_name) as [df|]; [|discriminate].
    set (dm1 := with_tables _ _).
    pose proof (update_metadata_in_sync dm1 n (Some file_path)
                  (Some (str_or sheet_name "Sheet1"))) as Hs.
    set (dm2 := _update_table_metadata dm1 n _ _) in *.
    set (dm3 := match active_table dm2 with None => _ | Some _ => dm2 end).
    assert (H3 : heap dm3 = heap dm2 /\ tables dm3 = tables dm2 /\
                 table_metadata dm3 = table_metadata dm2).
    { unfold dm3. now destruct (active_table dm2). }
    destruct H3 as (Hh3 & Ht3 & Hm3).
    unfold TableHistory.save_snapshot, TableHistory.deepcopy.
    intros [= <-]. intros df' Hdf'.
    cbn [table_metadata with_history with_heap] in *. rewrite Hm3.
    apply Hs.
    assert (Hg2 : get_table dm2 n = Some df).
    { unfold dm2. rewrite update_metadata_get_table. unfold dm1, get_table.
      cbn [tables heap with_tables with_heap]. rewrite lookup_insert_eq. cbn.
      apply lookup_insert_eq. }
    assert (Hg3 : get_table dm3 n = Some df).
    { unfold get_table in *. now rewrite Hh3, Ht3. }
    pose proof (fresh_insert_get_table dm3 n df df Hg3) as Hf.
    unfold get_table in Hf, Hdf'. cbn [tables heap with_history with_heap] in Hf, Hdf'.
    rewrite Hf in Hdf'. now rewrite <- Hdf'.
Qed.

Lemma metadata_follow_table_witness :
  metadata_in_sync Sample.edited "t" /\
  metadata_in_sync Sample.patched "t" /\
  metadata_in_sync Sample.undone "t" /\
  metadata_in_sync Sample.loaded "t".
Proof.
  destruct metadata_follow_table as (H1 & H2 & H3 & _ & _ & H6).
  split; [|split; [|split]].
  - apply (H1 Sample.env Sample.loaded "t"%string "A2"%string (VInt 7)).
    vm_compute. reflexivity.
  - apply (H2 Sample.env Sample.edited "t"%string "A3:B3"%string Sample.patch).
    vm_compute. reflexivity.
  - apply (H3 Sample.edited). vm_compute. reflexivity.
  - apply (H6 Sample.env DataManager.init "book.xlsx"%string "t"%string None).
    vm_compute. reflexivity.
Defined.


End StoreInvariants.


(** ** Loading, removing and the active table *)

Section LoadRemove.
Import Frame Extern DataManager Store.

(** X16. The first load of a table leaves exactly one snapshot, a copy of
    the frame read that is a different object from the table's own frame, so
    [can_undo] is false for the table right after it (an undo needs two
    snapshots); no table can be redone; the table is readable, and it becomes
    the active table only if there was none. *)
Theorem first_load_has_nothing_to_undo (env : Env) (dm : DataManager)
    (file_path n : string) (sheet_name : option string) (df : DataFrame) :
  read_excel env file_path sheet_name = Some df ->
  TableHistory._snapshot_cache (history dm) !! n = None ->
  exists dm' s,
    load_table env dm file_path (Some n) sheet_name = (true, dm') /\
    get_table dm' n = Some df /\
    TableHistory._snapshot_cache (history dm') !! n = Some [s] /\
    heap dm' !! TableHistory.data s = Some df /\
    tables dm' !! n <> Some (TableHistory.data s) /\
    can_undo dm' (Some n) = false /\
    undo dm' (Some n) = (false, dm') /\
    (forall t, can_redo dm' t = false) /\
    active_table dm' = Some (default n (active_table dm)).
Proof.
  intros Hread Hcache.
  set (l := fresh (dom (heap dm))).
  set (hp1 := <[l := df]> (heap dm)).
  set (c := fresh (dom hp1)).
  assert (Hlc : l <> c).
  { intros E. pose proof (fresh_not_live hp1) as Hf. fold c in Hf. rewrite <- E in Hf.
    unfold hp1 in Hf. rewrite lookup_insert_eq in Hf. discriminate. }
  destruct (load_table env dm file_path (Some n) sheet_name) as [ok dm'] eqn:E.
  pose proof E as E0.
  unfold load_table in E. cbn [from_option id] in E. rewrite Hread in E.
  set (dm1 := with_tables _ _) in E.
  set (dm2 := _update_table_metadata dm1 n _ _) in E.
  set (dm3 := match active_table dm2 with None => _ | Some _ => dm2 end) in E.
  assert (H3 : heap dm3 = hp1 /\ tables dm3 = <[n := l]> (tables dm) /\
               history dm3 = history dm /\
               active_table dm3 = Some (default n (active_table dm))).
  { unfold dm3.
    assert (H2 : heap dm2 = hp1 /\ tables dm2 = <[n := l]> (tables dm) /\
                 history dm2 = history dm /\ active_table dm2 = active_table dm).
    { unfold dm2. rewrite update_metadata_heap, update_metadata_tables,
        update_metadata_history, update_metadata_active. now unfold dm1. }
    destruct H2 as (? & ? & ? & Ha). rewrite Ha.
    destruct (active_table dm); cbn; auto. }
  destruct H3 as (Hh3 & Ht3 & Hi3 & Ha3).
  unfold TableHistory.save_snapshot, TableHistory.deepcopy in E.
  rewrite Hh3, Hi3, Hcache in E. cbn [from_option id app length] in E.
  change (10 <? Z.of_nat 1) with false in E. cbn iota in E. fold c in E.
  injection E as <- <-.
  match type of E0 with _ = (true, ?d) => set (dmf := d) in * end.
  exists dmf, {| TableHistory.data := c |}.
  split; [reflexivity|].
  assert (Hc1 : TableHistory._snapshot_cache (history dmf) !! n
                = Some [{| TableHistory.data := c |}]).
  { unfold dmf. cbn. apply lookup_insert_eq. }
  assert (Hhf : heap dmf = <[c := df]> hp1) by reflexivity.
  assert (Htf : tables dmf = <[n := l]> (tables dm)) by (unfold dmf; cbn; exact Ht3).
  split.
  { unfold get_table. rewrite Htf, Hhf, lookup_insert_eq. cbn.
    rewrite lookup_insert_ne by congruence. apply lookup_insert_eq. }
  split; [exact Hc1|].
  split; [rewrite Hhf; cbn; apply lookup_insert_eq|].
  split; [rewrite Htf, lookup_insert_eq; cbn; congruence|].
  assert (Hcu : can_undo dmf (Some n) = false).
  { unfold can_undo, TableHistory.can_undo. cbn [resolve]. now rewrite Hc1. }
  split; [exact Hcu|].
  split; [unfold undo; cbn [resolve]; now rewrite Hcu|].
  split; [intros t; now apply can_redo_empty|].
  unfold dmf. cbn. exact Ha3.
Qed.

Lemma first_load_has_nothing_to_undo_witness :
  exists dm' s,
    load_table Sample.env init "book.xlsx" (Some "t"%string) None = (true, dm') /\
    get_table dm' "t" = Some Sample.book /\
    TableHistory._snapshot_cache (history dm') !! "t"%string = Some [s] /\
    heap dm' !! TableHistory.data s = Some Sample.book /\
    tables dm' !! "t"%string <> Some (TableHistory.data s) /\
    can_undo dm' (Some "t"%string) = false /\
    undo dm' (Some "t"%string) = (false, dm') /\
    (forall t, can_redo dm' t = false) /\
    active_table dm' = Some "t"%string.
Proof.
  apply (first_load_has_nothing_to_undo Sample.env init "book.xlsx" "t" None Sample.book);
    vm_compute; reflexivity.
Defined.

End LoadRemove.

Section RemoveAndActive.
Import Frame Extern DataManager Store.

(** X17. [remove_table] forgets the frame and the metadata of the table and
    nothing else: other tables, the heap and the whole history are as
    before. The snapshots of the removed table therefore remain, [can_undo]
    answers as before the removal, and an [undo] that succeeds binds the
    removed name to a frame again. *)
Theorem remove_table_keeps_history (keys : gmap string loc -> list string)
    (dm : DataManager) (n : string) :
  is_Some (tables dm !! n) ->
  (remove_table keys dm n).1 = true /\
  get_table (remove_table keys dm n).2 n = None /\
  table_metadata (remove_table keys dm n).2 !! n = None /\
  (forall m, m <> n ->
     get_table (remove_table keys dm n).2 m = get_table dm m /\
     table_metadata (remove_table keys dm n).2 !! m = table_metadata dm !! m) /\
  history (remove_table keys dm n).2 = history dm /\
  can_undo (remove_table keys dm n).2 (Some n) = can_undo dm (Some n) /\
  (forall dm',
     undo (remove_table keys dm n).2 (Some n) = (true, dm') ->
     is_Some (tables dm' !! n) /\
     get_table dm' n
     = (TableHistory.undo (history dm) n).1 ≫= fun l => heap dm !! l).
Proof.
  intros [l Hl]. unfold remove_table. rewrite Hl. cbn [fst snd].
  set (dm2 := with_table_metadata _ _).
  set (dm3 := if bool_decide (active_table dm2 = Some n) then _ else dm2).
  assert (H3 : heap dm3 = heap dm /\ tables dm3 = delete n (tables dm) /\
               table_metadata dm3 = delete n (table_metadata dm) /\
               history dm3 = history dm).
  { unfold dm3. destruct (bool_decide _); now cbn. }
  destruct H3 as (Hh & Ht & Hm & Hi).
  split; [reflexivity|].
  split; [unfold get_table; now rewrite Ht, lookup_delete_eq|].
  split; [now rewrite Hm, lookup_delete_eq|].
  split.
  { intros m Hne. unfold get_table.
    now rewrite Ht, Hm, Hh, !lookup_delete_ne by congruence. }
  split; [exact Hi|].
  split; [unfold can_undo; cbn [resolve]; now rewrite Hi|].
  intros dm' Hu. apply undo_inv in Hu as (snaps & prev & top & E & ->).
  rewrite Hi in E.
  rewrite (history_undo_run (history dm) n snaps prev top E). cbn [fst].
  rewrite restored_get_table, Hh. split; [|reflexivity].
  unfold Session.restored. rewrite update_metadata_tables.
  cbn [tables with_tables with_history]. rewrite lookup_insert_eq. eauto.
Qed.

Lemma remove_table_keeps_history_witness :
  get_table (remove_table (fun t => elements (dom t)) Sample.edited "t").2 "t" = None /\
  can_undo (remove_table (fun t => elements (dom t)) Sample.edited "t").2 (Some "t"%string)
  = can_undo Sample.edited (Some "t"%string) /\
  is_Some
    (tables
       (undo (remove_table (fun t => elements (dom t)) Sample.edited "t").2
          (Some "t"%string)).2 !! "t"%string).
Proof.
  destruct (remove_table_keeps_history (fun t => elements (dom t)) Sample.edited "t")
    as (_ & H2 & _ & _ & _ & H6 & H7).
  { vm_compute. eauto. }
  split; [exact H2|]. split; [exact H6|].
  apply H7. vm_compute. reflexivity.
Defined.

Lemma active_loaded_step dm dm' :
  active_loaded dm ->
  (forall a, is_Some (tables dm !! a) -> is_Some (tables dm' !! a)) ->
  active_table dm' = active_table dm ->
  active_loaded dm'.
Proof.
  intros H Ht Ha a Hact. rewrite Ha in Hact. now apply Ht, H.
Qed.

Lemma insert_keeps_keys (t : gmap string loc) n l a :
  is_Some (t !! a) -> is_Some (<[n := l]> t !! a).
Proof.
  intros H. destruct (decide (n = a)) as [->|Hne].
  - rewrite lookup_insert_eq. eauto.
  - now rewrite lookup_insert_ne.
Qed.

(** X18. The active table, when there is one, is always a loaded table:
    this holds in a new store and is kept by loading, by choosing the active
    table, by removing a table (given that the key list of a dictionary lists
    its keys), by writing cells and ranges, by promoting a header row and by
    undo and redo. *)
Theorem active_table_is_loaded :
  active_loaded init /\
  (forall env dm file_path n sheet_name,
     active_loaded dm -> active_loaded (load_table env dm file_path n sheet_name).2) /\
  (forall dm n, active_loaded dm -> active_loaded (set_active_table dm n).2) /\
  (forall keys dm n,
     lists_keys keys -> active_loaded dm -> active_loaded (remove_table keys dm n).2) /\
  (forall env dm n cell_ref v,
     active_loaded dm -> active_loaded (set_cell_value env dm n cell_ref v).2) /\
  (forall env dm n range_ref values,
     active_loaded dm -> active_loaded (set_range_values env dm n range_ref values).2) /\
  (forall env dm n header_row,
     active_loaded dm -> active_loaded (set_header_row env dm n header_row).2) /\
  (forall dm t, active_loaded dm -> active_loaded (undo dm t).2) /\
  (forall dm t, active_loaded dm -> active_loaded (redo dm t).2).
Proof.
  split; [intros a; discriminate|].
  split.
  { intros env dm file_path n sheet_name H. unfold load_table.
    destruct (read_excel env file_path sheet_name) as [df|]; [|exact H].
    set (name := default (path_stem env file_path) n).
    set (dm1 := with_tables _ _).
    set (dm2 := _update_table_metadata dm1 name _ _).
    set (dm3 := match active_table dm2 with None => _ | Some _ => dm2 end).
    destruct (TableHistory.save_snapshot (heap dm3) (history dm3) name df) as [hp h].
    cbn [snd]. intros a Ha. cbn [active_table tables with_history with_heap] in *.
    assert (Ht3 : tables dm3 = <[name := fresh (dom (heap dm))]> (tables dm)).
    { unfold dm3. destruct (active_table dm2); cbn;
        unfold dm2; now rewrite update_metadata_tables. }
    rewrite Ht3. unfold dm3 in Ha.
    assert (Ha2 : active_table dm2 = active_table dm)
      by (unfold dm2; now rewrite update_metadata_active).
    rewrite Ha2 in Ha. destruct (active_table dm) as [a0|] eqn:Ea.
    - rewrite Ha2 in Ha. apply insert_keeps_keys, H. congruence.
    - cbn in Ha. injection Ha as <-. rewrite lookup_insert_eq. eauto. }
  split.
  { intros dm n H. unfold set_active_table.
    destruct (negb _) eqn:E1; [|exact H].
    destruct (bool_decide _) eqn:E2; [|exact H].
    cbn. intros a Ha. cbn in Ha. injection Ha as <-.
    now apply bool_decide_eq_true in E2. }
  split.
  { intros keys dm n Hk H. unfold remove_table.
    destruct (tables dm !! n) as [l|] eqn:El; [|exact H]. cbn [snd].
    destruct (bool_decide _) eqn:E.
    - intros a Ha. cbn in Ha. cbn [tables with_active_table with_table_metadata with_tables].
      destruct (keys (delete n (tables dm))) as [|k ks] eqn:Ek; [discriminate|].
      cbn in Ha. injection Ha as <-. apply Hk. rewrite Ek. apply list_elem_of_here.
    - apply bool_decide_eq_false in E. cbn in E.
      intros a Ha. cbn in *. rewrite lookup_delete_ne by congruence. now apply H. }
  split.
  { intros env dm n cell_ref v H. unfold set_cell_value.
    destruct (tables dm !! n) as [l|]; [|exact H].
    destruct (heap dm !! l) as [df|]; [|exact H].
    destruct (CellOperations.parse_cell_reference cell_ref) as [[row col]|]; [|exact H].
    destruct (negb _); [exact H|].
    destruct (iloc_setitem env df row col v) as [df'|]; [|exact H]. cbn [snd].
    apply active_loaded_step with dm; [exact H| |].
    - intros a Ha. now rewrite update_metadata_tables, save_snapshot_tables.
    - rewrite update_metadata_active. unfold save_snapshot.
      now destruct (get_table _ n). }
  split.
  { intros env dm n range_ref values H. unfold set_range_values.
    destruct (tables dm !! n) as [l|]; [|exact H].
    destruct (heap dm !! l) as [df|]; [|exact H].
    destruct (CellOperations.parse_range range_ref) as [[[[sr sc] er] ec]|]; [|exact H].
    destruct (negb _); [exact H|]. cbn zeta.
    destruct (broadcast _ _ _ _) as [block|]; [|exact H].
    destruct (iloc_setblock env df _ _ block) as [[|] df']; cbn [snd].
    - apply active_loaded_step with dm; [exact H| |].
      + intros a Ha. now rewrite update_metadata_tables.
      + now rewrite update_metadata_active.
    - exact H. }
  split.
  { intros env dm n header_row H. unfold set_header_row.
    destruct (tables dm !! n) as [l|]; [|exact H].
    destruct (heap dm !! l) as [df|]; [|exact H].
    destruct (len df <=? header_row); [exact H|].
    destruct (Py.index (rows df) header_row) as [row|]; [|exact H].
    cbn zeta. cbn [snd].
    set (dm2 := if 0 <? header_row then _ else _).
    set (dm3 := _update_table_metadata dm2 n None None).
    assert (H2 : active_table dm2 = active_table dm /\
                 (forall a, is_Some (tables dm !! a) -> is_Some (tables dm2 !! a))).
    { unfold dm2. destruct (0 <? header_row); cbn; split; try reflexivity;
        intros a Ha; now apply insert_keeps_keys. }
    destruct H2 as [Ha2 Ht2].
    assert (H3 : active_loaded dm3).
    { apply active_loaded_step with dm; [exact H| |].
      - intros a Ha. unfold dm3. rewrite update_metadata_tables. now apply Ht2.
      - unfold dm3. now rewrite update_metadata_active. }
    destruct (table_metadata dm3 !! n); exact H3. }
  split.
  { intros dm t H. unfold undo.
    destruct (resolve dm t) as [n|]; [|exact H].
    destruct (negb _); [exact H|].
    destruct (TableHistory.undo (history dm) n) as [[l|] h]; cbn [snd]; [|exact H].
    apply active_loaded_step with dm; [exact H| |].
    - intros a Ha. rewrite update_metadata_tables. now apply insert_keeps_keys.
    - now rewrite update_metadata_active. }
  { intros dm t H. unfold redo.
    destruct (resolve dm t) as [n|]; [|exact H].
    destruct (negb _); [exact H|].
    destruct (TableHistory.redo (history dm) n) as [[l|] h]; cbn [snd]; [|exact H].
    apply active_loaded_step with dm; [exact H| |].
    - intros a Ha. rewrite update_metadata_tables. now apply insert_keeps_keys.
    - now rewrite update_metadata_active. }
Qed.

Lemma elements_dom_lists_keys : lists_keys (fun t => elements (dom t)).
Proof. intros t k. now rewrite elem_of_elements, elem_of_dom. Qed.

Lemma active_table_is_loaded_witness :
  active_loaded Sample.two_tables /\
  active_loaded (remove_table (fun t => elements (dom t)) Sample.two_tables "t").2 /\
  active_table (remove_table (fun t => elements (dom t)) Sample.two_tables "t").2
  = Some "u"%string.
Proof.
  destruct active_table_is_loaded as (H0 & H1 & _ & H3 & H4 & _).
  assert (Ht : active_loaded Sample.two_tables).
  { apply (H1 Sample.env Sample.edited "ledger.xlsx"%string (Some "u"%string) None).
    apply (H4 Sample.env Sample.loaded "t"%string "A2"%string (VInt 7)).
    apply (H1 Sample.env init "book.xlsx"%string (Some "t"%string) None).
    exact H0. }
  split; [exact Ht|]. split.
  - apply H3; [exact elements_dom_lists_keys | exact Ht].
  - vm_compute. reflexivity.
Defined.

End RemoveAndActive.

(** ** Columns read and written through their label *)

Section LabelledColumns.
Import Frame Extern DataManager ExcelAgent Tools.

Lemma py_eq_str a c : py_eq (VStr a) c = true -> c = VStr a.
Proof.
  destruct c; cbn; try discriminate. intros H. apply String.eqb_eq in H. now subst.
Qed.

Lemma get_column_position df label col :
  get_column df label = Some col ->
  exists j c,
    filter (fun j => py_eq label (default VNone (columns df !! j)) = true)
           (seq 0 (length (columns df))) = [j] /\
    columns df !! j = Some c /\ py_eq label c = true /\
    col = map (fun r => default VNone (r !! j)) (rows df).
Proof.
  unfold get_column.
  destruct (filter _ _) as [|j [|? ?]] eqn:E; try discriminate. intros [= <-].
  assert (Hj : j ∈ filter (fun j => py_eq label (default VNone (columns df !! j)) = true)
                     (seq 0 (length (columns df)))).
  { rewrite E. apply list_elem_of_here. }
  apply list_elem_of_filter in Hj as [Hp Hj]. apply elem_of_seq in Hj.
  destruct (lookup_lt_is_Some_2 (columns df) j) as [c Hc]; [lia|].
  rewrite Hc in Hp. exists j, c. auto.
Qed.

Lemma get_column_length df label col :
  get_column df label = Some col -> length col = length (rows df).
Proof.
  intros H. apply get_column_position in H as (j & c & _ & _ & _ & ->).
  apply length_map.
Qed.

Lemma overwrite_lookup label v : forall cols r j c x,
  cols !! j = Some c -> r !! j = Some x ->
  overwrite label v cols r !! j = Some (if py_eq label c then v else x).
Proof.
  induction cols as [|c0 cols IH]; intros r j c x Hc Hx; [discriminate|].
  destruct r as [|x0 r]; [discriminate|].
  destruct j as [|j]; cbn in *.
  - injection Hc as <-. injection Hx as <-. reflexivity.
  - now apply IH.
Qed.

Lemma column_after_overwrite label cols j c : forall rs data,
  cols !! j = Some c ->
  Forall (fun r => length r = length cols) rs ->
  length data = length rs ->
  map (fun r => default VNone (r !! j))
      (zip_with (fun r v => overwrite label v cols r) rs data)
  = if py_eq label c then data else map (fun r => default VNone (r !! j)) rs.
Proof.
  intros rs data Hc Hrs. revert data.
  induction Hrs as [|r rs Hr _ IH]; intros data Hlen.
  - destruct data; [|discriminate]. now destruct (py_eq label c).
  - destruct data as [|v data]; [discriminate|].
    cbn [zip_with map]. cbn [length] in Hlen.
    destruct (lookup_lt_is_Some_2 r j) as [x Hx].
    { rewrite Hr. eapply lookup_lt_Some, Hc. }
    rewrite (overwrite_lookup label v cols r j c x Hc Hx), Hx, IH by lia.
    now destruct (py_eq label c).
Qed.

(** Reading the column [other] after [df[target] = data]. *)
Lemma get_column_after_set df target data other col :
  py_in (VStr target) (columns df) = true ->
  rectangular df ->
  length data = length (rows df) ->
  get_column df (VStr other) = Some col ->
  get_column (set_column df (VStr target) data) (VStr other)
  = Some (if String.eqb target other then data else col).
Proof.
  intros Hin Hrect Hlen Ho.
  apply get_column_position in Ho as (j & c & Hf & Hc & Hp & ->).
  apply py_eq_str in Hp. subst c.
  unfold get_column, set_column. rewrite Hin. cbn [columns rows]. rewrite Hf.
  f_equal. now rewrite (column_after_overwrite _ _ j (VStr other)).
Qed.

Lemma rebind_get_table dm n df_copy : get_table (rebind dm n df_copy) n = Some df_copy.
Proof.
  unfold rebind. rewrite update_metadata_get_table. unfold get_table.
  cbn [tables heap with_tables with_heap]. rewrite lookup_insert_eq. cbn.
  apply lookup_insert_eq.
Qed.

Lemma rebind_history dm n df_copy : history (rebind dm n df_copy) = history dm.
Proof. unfold rebind. now rewrite update_metadata_history. Qed.

Lemma rebind_heap dm n df_copy l :
  is_Some (heap dm !! l) -> heap (rebind dm n df_copy) !! l = heap dm !! l.
Proof.
  intros Hl. unfold rebind. rewrite update_metadata_heap. cbn [heap with_tables with_heap].
  apply lookup_insert_ne. intros E.
  pose proof (fresh_not_live (heap dm)) as Hf. rewrite E in Hf.
  rewrite Hf in Hl. now destruct Hl.
Qed.

Lemma count_cons p a l : count p (a :: l) = (if p a then 1 else 0) + count p l.
Proof. unfold count. cbn. destruct (p a); cbn [length]; lia. Qed.

Lemma count_nonneg p l : 0 <= count p l.
Proof. unfold count. lia. Qed.



Lemma fill_nothing_missing : forall t s,
  length s = length t -> count isna t = 0 -> fill isna t s = t.
Proof.
  induction t as [|a t IH]; intros [|b s] H H0; try discriminate; [reflexivity|].
  rewrite count_cons in H0. pose proof (count_nonneg isna t).
  unfold fill in *. cbn [zip_with]. cbn in H.
  destruct (isna a); [lia|]. f_equal. apply IH; lia.
Qed.



(** X19. [copy_column] on a table in which the two labels each name one
    column succeeds, reports the number of rows, and binds the table to a
    copy in which the target column holds the cells of the source column
    while the source column and every column under another name are as they
    were. *)
Theorem copy_column_copies (dm : DataManager) (table_name : option string)
    (n target_column source_column : string) (df : DataFrame)
    (data old : list value) :
  resolve dm table_name = Some n ->
  get_table dm n = Some df ->
  rectangular df ->
  get_column df (VStr source_column) = Some data ->
  get_column df (VStr target_column) = Some old ->
  exists dm' df',
    copy_column dm target_column source_column table_name
    = Some (CopyOk target_column source_column n (len df), dm') /\
    get_table dm' n = Some df' /\
    columns df' = columns df /\
    get_column df' (VStr target_column) = Some data /\
    get_column df' (VStr source_column) = Some data /\
    (forall other col,
       other <> target_column ->
       get_column df (VStr other) = Some col ->
       get_column df' (VStr other) = Some col).
Proof.
  intros Hr Hg Hrect Hs Ht.
  pose proof (get_column_in _ _ _ Hs) as Hins.
  pose proof (get_column_in _ _ _ Ht) as Hint.
  pose proof (get_column_length _ _ _ Hs) as Hlen.
  unfold copy_column. rewrite Hr, Hg, Hins, Hint, Hs, Ht. cbn [negb].
  eexists _, _. split; [reflexivity|].
  split; [apply rebind_get_table|].
  split; [unfold set_column; now rewrite Hint|].
  split; [rewrite (get_column_after_set _ _ _ _ _ Hint Hrect Hlen Ht);
          now rewrite String.eqb_refl|].
  split.
  - rewrite (get_column_after_set _ _ _ _ _ Hint Hrect Hlen Hs).
    now destruct (String.eqb target_column source_column).
  - intros other col Hne Ho.
    rewrite (get_column_after_set _ _ _ _ _ Hint Hrect Hlen Ho).
    destruct (String.eqb_spec target_column other); [congruence | reflexivity].
Qed.

Lemma copy_column_copies_witness :
  exists dm' df',
    copy_column Sample.ledger_loaded "b" "a" None
    = Some (CopyOk "b" "a" "u" (len Sample.ledger), dm') /\
    get_table dm' "u" = Some df' /\
    columns df' = columns Sample.ledger /\
    get_column df' (VStr "b") = Some [VInt 10; VStr "abc"; VInt 6] /\
    get_column df' (VStr "a") = Some [VInt 10; VStr "abc"; VInt 6] /\
    (forall other col,
       other <> "b"%string ->
       get_column Sample.ledger (VStr other) = Some col ->
       get_column df' (VStr other) = Some col).
Proof.
  apply (copy_column_copies Sample.ledger_loaded None "u" "b" "a" Sample.ledger
           [VInt 10; VStr "abc"; VInt 6] [VInt 2; VInt 2; VInt 0]);
    try (vm_compute; reflexivity).
  repeat constructor.
Defined.





End LabelledColumns.

(** ** Writing through [insert_data] *)

Section InsertData.
Import Frame Extern DataManager ExcelAgent Tools.

Lemma validate_input_spec (target_table : string) (target_column target_cell : option string) :
  validate_input target_table target_column target_cell = true
  <-> target_column = None /\ target_cell = None.
Proof.
  destruct target_column, target_cell; vm_compute; split;
    solve [ intros H; discriminate H
          | intros [H1 H2]; discriminate
          | intros _; split; reflexivity
          | intros _; reflexivity ].
Qed.

Lemma insert_data_func_no_target env dm target_table literal :
  insert_data_func env dm target_table None None literal = (InsertError, dm).
Proof.
  unfold insert_data_func.
  destruct (tables dm !! target_table) as [l|]; [|reflexivity].
  now destruct (heap dm !! l).
Qed.

Lemma insert_data_func_frames env dm target_table target_column target_cell literal :
  let dm' := (insert_data_func env dm target_table target_column target_cell literal).2 in
  history dm' = history dm /\
  forall l, tables dm !! target_table <> Some l -> heap dm' !! l = heap dm !! l.
Proof.
  assert (Hw : forall l0 df',
             tables dm !! target_table = Some l0 ->
             let dm' := _update_table_metadata
                          (with_heap dm (<[l0 := df']> (heap dm))) target_table None None in
             history dm' = history dm /\
             forall l, tables dm !! target_table <> Some l ->
                       heap dm' !! l = heap dm !! l).
  { intros l0 df' Hl0. cbn zeta. rewrite update_metadata_history, update_metadata_heap.
    split; [reflexivity|]. intros l Hl. cbn [heap with_heap].
    apply lookup_insert_ne. congruence. }
  cbn zeta. unfold insert_data_func.
  destruct (tables dm !! target_table) as [l0|] eqn:Ht; [|cbn; auto].
  specialize (fun df' => Hw l0 df' eq_refl). cbn zeta in Hw.
  repeat match goal with
         | |- context [match ?x with _ => _ end] => destruct x; cbn [snd]; auto
         end.
Qed.

(** X22. The [insert_data] tool never writes. Its arguments are validated by
    [InsertInput] first, and the validator of [target_column] and
    [target_cell] looks both names up among the fields validated before,
    where the field under validation is not: the arguments are accepted
    exactly when the call names neither a column nor a cell. A call that
    names one raises the validation error, and a call that names neither
    reaches the body, which answers with an error. The result is never a
    success and the store is as before. *)
Theorem insert_data_never_writes (env : Env) (dm : DataManager) (target_table : string)
    (target_column target_cell literal : option string) :
  (validate_input target_table target_column target_cell = true
   <-> target_column = None /\ target_cell = None) /\
  (target_column <> None \/ target_cell <> None ->
   insert_data env dm target_table target_column target_cell literal = (InsertInvalid, dm)) /\
  (target_column = None -> target_cell = None ->
   insert_data env dm target_table target_column target_cell literal = (InsertError, dm)) /\
  (insert_data env dm target_table target_column target_cell literal).2 = dm /\
  (forall message,
     (insert_data env dm target_table target_column target_cell literal).1
     <> InsertOk message).
Proof.
  pose proof (validate_input_spec target_table target_column target_cell) as Hv.
  assert (Hrun : insert_data env dm target_table target_column target_cell literal
                 = (if validate_input target_table target_column target_cell
                    then InsertError else InsertInvalid, dm)).
  { unfold insert_data.
    destruct (validate_input target_table target_column target_cell); [|reflexivity].
    destruct Hv as [Hv _]. destruct (Hv eq_refl) as [-> ->].
    apply insert_data_func_no_target. }
  split; [exact Hv|].
  split.
  { intros Hnamed. rewrite Hrun.
    destruct (validate_input target_table target_column target_cell); [|reflexivity].
    destruct Hv as [Hv _]. destruct (Hv eq_refl) as [H1 H2].
    destruct Hnamed; contradiction. }
  split.
  { intros H1 H2. rewrite Hrun.
    destruct Hv as [_ Hv]. now rewrite (Hv (conj H1 H2)). }
  rewrite Hrun. split; [reflexivity|].
  intros message. cbn [fst].
  destruct (validate_input target_table target_column target_cell); discriminate.
Qed.

(** In the ledger, a call that names cell A1 and a call that names column
    b. *)
Lemma insert_data_never_writes_witness :
  insert_data Sample.env Sample.ledger_loaded "u" None (Some "A1"%string) (Some "z"%string)
  = (InsertInvalid, Sample.ledger_loaded) /\
  insert_data Sample.env Sample.ledger_loaded "u" (Some "b"%string) None (Some "z"%string)
  = (InsertInvalid, Sample.ledger_loaded) /\
  insert_data Sample.env Sample.ledger_loaded "u" None None (Some "z"%string)
  = (InsertError, Sample.ledger_loaded).
Proof.
  split; [|split].
  - refine (proj1 (proj2 (insert_data_never_writes Sample.env Sample.ledger_loaded "u"
                            None (Some "A1"%string) (Some "z"%string))) _).
    right. discriminate.
  - refine (proj1 (proj2 (insert_data_never_writes Sample.env Sample.ledger_loaded "u"
                            (Some "b"%string) None (Some "z"%string))) _).
    left. discriminate.
  - refine (proj1 (proj2 (proj2 (insert_data_never_writes Sample.env Sample.ledger_loaded "u"
                                   None None (Some "z"%string)))) _ _); reflexivity.
Defined.

(** X25. The tools that change a table take no snapshot and record no
    operation: [column_calculation], [copy_column], [fill_na] and
    [insert_data] leave the history as it was, so their effect is no step
    that [undo] can take back. The first three also leave every frame that
    existed before as it was (they bind the table to a new copy), and
    [insert_data] changes no frame but the one the table is bound to, as
    the tool and as the function under it. *)
Theorem tools_take_no_snapshot (env : Env) (dm : DataManager) :
  (forall operation column1 column2 target_column table_name,
     let dm' := (column_calculation env dm operation column1 column2 target_column
                   table_name).2 in
     history dm' = history dm /\
     forall l, is_Some (heap dm !! l) -> heap dm' !! l = heap dm !! l) /\
  (forall target_column source_column table_name r dm',
     copy_column dm target_column source_column table_name = Some (r, dm') ->
     history dm' = history dm /\
     forall l, is_Some (heap dm !! l) -> heap dm' !! l = heap dm !! l) /\
  (forall target_column source_column literal table_name r dm',
     fill_na env dm target_column source_column literal table_name = Some (r, dm') ->
     history dm' = history dm /\
     forall l, is_Some (heap dm !! l) -> heap dm' !! l = heap dm !! l) /\
  (forall target_table target_column target_cell literal,
     let dm' := (insert_data env dm target_table target_column target_cell literal).2 in
     history dm' = history dm /\
     forall l, tables dm !! target_table <> Some l -> heap dm' !! l = heap dm !! l) /\
  (forall target_table target_column target_cell literal,
     let dm' := (insert_data_func env dm target_table target_column target_cell literal).2 in
     history dm' = history dm /\
     forall l, tables dm !! target_table <> Some l -> heap dm' !! l = heap dm !! l).
Proof.
  assert (Hrebind : forall n df_copy,
             history (rebind dm n df_copy) = history dm /\
             forall l, is_Some (heap dm !! l) ->
                       heap (rebind dm n df_copy) !! l = heap dm !! l).
  { intros n df_copy. split; [apply rebind_history|]. intros l. apply rebind_heap. }
  split; [|split; [|split; [|split]]].
  - intros operation column1 column2 target_column table_name.
    pose proof Hrebind as Hre. unfold rebind in Hre.
    unfold column_calculation.
    repeat match goal with
           | |- context [match ?x with _ => _ end] => destruct x; cbn [snd]; auto
           end.
  - intros target_column source_column table_name r dm'. unfold copy_column.
    repeat match goal with
           | |- context [match ?x with _ => _ end] => destruct x
           end;
      intros [= <- <-] || discriminate; auto.
  - intros target_column source_column literal table_name r dm'. unfold fill_na.
    repeat match goal with
           | |- context [match ?x with _ => _ end] => destruct x
           end;
      intros [= <- <-] || discriminate; auto.
  - intros target_table target_column target_cell literal. unfold insert_data.
    destruct (validate_input target_table target_column target_cell);
      [apply insert_data_func_frames | cbn; auto].
  - intros target_table target_column target_cell literal.
    apply insert_data_func_frames.
Qed.

Lemma tools_take_no_snapshot_witness :
  exists r dm',
    copy_column Sample.ledger_loaded "b" "a" None = Some (r, dm') /\
    history dm' = history Sample.ledger_loaded /\
    heap dm' !! 0%nat = heap Sample.ledger_loaded !! 0%nat.
Proof.
  destruct (tools_take_no_snapshot Sample.env Sample.ledger_loaded) as (_ & H & _).
  eexists _, _. split; [vm_compute; reflexivity|].
  match goal with
  | |- history ?d = _ /\ _ =>
      destruct (H "b"%string "a"%string None
                  (CopyOk "b" "a" "u" 3) d) as [H1 H2]; [vm_compute; reflexivity|]
  end.
  split; [exact H1|]. apply H2. eexists. vm_compute. reflexivity.
Defined.

End InsertData.

(** ** Saving *)

Section Saving.
Import Frame Extern DataManager.

Lemma capped_keeps_top (snaps : list TableHistory.Snapshot) prev top :
  exists snaps',
    (if 10 <? Z.of_nat (length ((snaps ++ [prev]) ++ [top]))
     then TableHistory.pop_front ((snaps ++ [prev]) ++ [top])
     else (snaps ++ [prev]) ++ [top])
    = snaps' ++ [prev; top].
Proof.
  destruct (10 <? _) eqn:E.
  - destruct snaps as [|s snaps]; [discriminate E|].
    exists snaps. cbn. now rewrite <- app_assoc.
  - exists snaps. now rewrite <- app_assoc.
Qed.

(** X26. [save_table] refuses a name that is not loaded and changes nothing
    when the file cannot be written. When it succeeds the table keeps its
    frame, the file name is remembered, nothing can be redone any more, and the
    save has become an undo step of its own: the next [undo] succeeds and
    binds the table to the snapshot that was on top before the save. *)
Theorem save_table_then_undo (env : Env) (dm : DataManager) (n output_path : string)
    (df before : DataFrame) (snaps : list TableHistory.Snapshot)
    (prev : TableHistory.Snapshot) :
  get_table dm n = Some df ->
  TableHistory._snapshot_cache (history dm) !! n = Some (snaps ++ [prev]) ->
  heap dm !! TableHistory.data prev = Some before ->
  (forall m, get_table dm m = None -> save_table env dm m output_path = (false, dm)) /\
  (to_excel env df output_path = false -> save_table env dm n output_path = (false, dm)) /\
  (to_excel env df output_path = true ->
     exists dm1 dm2,
       save_table env dm n output_path = (true, dm1) /\
       get_table dm1 n = Some df /\
       last_saved_filename dm1 = Some (path_name env output_path) /\
       (forall t, can_redo dm1 t = false) /\
       undo dm1 (Some n) = (true, dm2) /\
       get_table dm2 n = Some before).
Proof.
  intros Hg Hc Hb.
  split; [|split].
  - intros m Hm. unfold save_table. now rewrite Hm.
  - intros Hw. unfold save_table. now rewrite Hg, Hw.
  - intros Hw.
    destruct (capped_keeps_top snaps prev {| TableHistory.data := fresh (dom (heap dm)) |})
      as [snaps' Hcap].
    unfold save_table. rewrite Hg, Hw. cbn [negb].
    unfold save_snapshot.
    change (get_table (with_last_saved_filename dm (Some (path_name env output_path))) n)
      with (get_table dm n).
    rewrite Hg.
    unfold TableHistory.save_snapshot, TableHistory.deepcopy.
    cbn [heap history with_last_saved_filename with_heap with_history].
    rewrite Hc. cbn [from_option id]. rewrite Hcap.
    eexists _, _. split; [reflexivity|].
    assert (Hfresh : TableHistory.data prev <> fresh (dom (heap dm))).
    { intros E. pose proof (fresh_not_live (heap dm)) as Hf. rewrite <- E in Hf. congruence. }
    split.
    { unfold get_table in *. cbn [tables heap with_history with_heap with_last_saved_filename].
      destruct (tables dm !! n) as [l|]; [|discriminate]. cbn in *.
      rewrite lookup_insert_ne; [exact Hg|].
      intros E. pose proof (fresh_not_live (heap dm)) as Hf. rewrite E in Hf. congruence. }
    split; [reflexivity|].
    split; [intros t; now apply can_redo_empty|].
    split.
    { apply (undo_run _ n snaps' prev {| TableHistory.data := fresh (dom (heap dm)) |}).
      cbn. apply lookup_insert_eq. }
    rewrite restored_get_table.
    cbn [heap with_history with_heap with_last_saved_filename].
    rewrite lookup_insert_ne by congruence. exact Hb.
Qed.

Lemma save_table_then_undo_witness :
  exists dm1 dm2,
    save_table Sample.env Sample.loaded "t" "out.xlsx" = (true, dm1) /\
    get_table dm1 "t" = Some Sample.book /\
    last_saved_filename dm1 = Some (path_name Sample.env "out.xlsx") /\
    (forall t, can_redo dm1 t = false) /\
    undo dm1 (Some "t"%string) = (true, dm2) /\
    get_table dm2 "t" = Some Sample.book.
Proof.
  destruct (save_table_then_undo Sample.env Sample.loaded "t" "out.xlsx"
              Sample.book Sample.book [] {| TableHistory.data := 1%nat |})
    as (_ & _ & H); try (vm_compute; reflexivity).
  apply H. reflexivity.
Defined.

End Saving.

(** ** The labels [set_header_row] makes *)

Section HeaderLabels.
Import Frame Extern DataManager.

Lemma ordered_pairs_snoc {A} (R : A -> A -> Prop) (l : list A) (x : A) :
  ForallOrdPairs R l -> Forall (fun a => R a x) l -> ForallOrdPairs R (l ++ [x]).
Proof.
  induction 1 as [|a l Ha Hl IH]; intros Hx; cbn.
  - constructor; constructor.
  - apply Forall_cons in Hx as [Hax Hx]. constructor; [|now apply IH].
    apply Forall_app. split; [exact Ha|]. now constructor.
Qed.

Lemma column_name_inj i k :
  0 <= i -> 0 <= k ->
  ("column_" +:+ string_of_list_ascii (Py.str i))%string
  = ("column_" +:+ string_of_list_ascii (Py.str k))%string ->
  i = k.
Proof.
  intros Hi Hk H.
  assert (Happ : forall p a b : string, (p +:+ a = p +:+ b)%string -> a = b).
  { induction p as [|c p IH]; intros a b E; [exact E|].
    cbn in E. injection E as E. now apply IH. }
  apply Happ in H.
  apply (f_equal list_ascii_of_string) in H.
  rewrite !list_ascii_of_string_of_list_ascii in H.
  rewrite !str_of_nonneg in H by assumption.
  destruct (str_nonneg_sound i Hi) as (_ & Ei & _).
  destruct (str_nonneg_sound k Hk) as (_ & Ek & _).
  congruence.
Qed.

Lemma py_eq_str_other s a : a <> VStr s -> py_eq (VStr s) a = false.
Proof.
  intros H. destruct a; cbn; try reflexivity.
  apply String.eqb_neq. congruence.
Qed.

Lemma py_in_false x seen :
  py_in x seen = false -> forall a, a ∈ seen -> py_eq x a = false.
Proof.
  unfold py_in. intros H a Ha.
  destruct (py_eq x a) eqn:E; [|reflexivity].
  assert (existsb (py_eq x) seen = true); [|congruence].
  apply existsb_exists. exists a. split; [now apply list_elem_of_In | exact E].
Qed.

Lemma unique_header_loop_spec : forall h i0 seen acc,
  exists tail,
    unique_header_loop (Py.enumerate_from i0 h) seen acc = acc ++ tail /\
    length tail = length h /\
    Forall (fun col => isna col = false /\ py_eq col (VStr EmptyString) = false) tail /\
    forall k col,
      tail !! k = Some col ->
      h !! k = Some col \/
      col = VStr ("column_" +:+ string_of_list_ascii (Py.str (i0 + Z.of_nat k))).
Proof.
  induction h as [|c h IH]; intros i0 seen acc.
  - exists []. cbn. rewrite app_nil_r. repeat split; [constructor|]. intros k col Hk.
    discriminate.
  - cbn [Py.enumerate_from unique_header_loop].
    set (c' := if py_in c seen || isna c || py_eq c (VStr EmptyString)
               then VStr ("column_" +:+ string_of_list_ascii (Py.str i0)) else c).
    destruct (IH (i0 + 1) (c' :: seen) (acc ++ [c'])) as (tail & E & Hlen & Hgood & Hpos).
    exists (c' :: tail). rewrite E, <- app_assoc. split; [reflexivity|].
    split; [cbn; now rewrite Hlen|]. split.
    + constructor; [|exact Hgood]. unfold c'.
      destruct (py_in c seen || isna c || py_eq c (VStr EmptyString)) eqn:Ec.
      * split; reflexivity.
      * apply orb_false_elim in Ec as [Ec Ee]. apply orb_false_elim in Ec as [_ En].
        now split.
    + intros [|k] col Hk; cbn in Hk.
      * injection Hk as <-. unfold c'.
        destruct (py_in c seen || isna c || py_eq c (VStr EmptyString));
          [right; now rewrite Z.add_0_r | left; reflexivity].
      * destruct (Hpos k col Hk) as [H | H]; [left; exact H | right].
        replace (i0 + Z.of_nat (S k)) with (i0 + 1 + Z.of_nat k) by lia. exact H.
Qed.

Lemma unique_header_loop_distinct : forall h i0 seen acc,
  0 <= i0 ->
  (forall a, a ∈ acc -> a ∈ seen) ->
  (forall a, a ∈ acc ->
     (exists k, 0 <= k < i0 /\ a = VStr ("column_" +:+ string_of_list_ascii (Py.str k))) \/
     (forall i, a <> VStr ("column_" +:+ string_of_list_ascii (Py.str i)))) ->
  (forall col i, col ∈ h -> col <> VStr ("column_" +:+ string_of_list_ascii (Py.str i))) ->
  ForallOrdPairs (fun a b => py_eq b a = false) acc ->
  ForallOrdPairs (fun a b => py_eq b a = false)
    (unique_header_loop (Py.enumerate_from i0 h) seen acc).
Proof.
  induction h as [|c h IH]; intros i0 seen acc Hi Hsub Hform Hh Hacc; [exact Hacc|].
  cbn [Py.enumerate_from unique_header_loop].
  set (c' := if py_in c seen || isna c || py_eq c (VStr EmptyString)
             then VStr ("column_" +:+ string_of_list_ascii (Py.str i0)) else c).
  assert (Hc' : (c' = VStr ("column_" +:+ string_of_list_ascii (Py.str i0)) \/
                 (c' = c /\ py_in c seen = false))).
  { unfold c'. destruct (py_in c seen) eqn:E; cbn [orb]; [now left|].
    destruct (isna c || py_eq c (VStr EmptyString)); [now left | now right]. }
  apply IH.
  - lia.
  - intros a Ha. apply elem_of_app in Ha as [Ha | Ha].
    + apply list_elem_of_further. now apply Hsub.
    + apply list_elem_of_singleton in Ha as ->. apply list_elem_of_here.
  - intros a Ha. apply elem_of_app in Ha as [Ha | Ha].
    + destruct (Hform a Ha) as [(k & Hk & ->) | Hn]; [left | right; exact Hn].
      exists k. split; [lia | reflexivity].
    + apply list_elem_of_singleton in Ha as ->.
      destruct Hc' as [-> | [-> _]].
      * left. exists i0. split; [lia | reflexivity].
      * right. intros i. apply Hh. apply list_elem_of_here.
  - intros col i Hcol. apply Hh. now apply list_elem_of_further.
  - apply ordered_pairs_snoc; [exact Hacc|].
    apply Forall_forall. intros a Ha.
    destruct Hc' as [-> | [-> Hin]].
    + apply py_eq_str_other.
      destruct (Hform a Ha) as [(k & Hk & ->) | Hn]; [|apply Hn].
      intros E.
      assert (E' : ("column_" +:+ string_of_list_ascii (Py.str k))%string
                   = ("column_" +:+ string_of_list_ascii (Py.str i0))%string)
        by congruence.
      apply column_name_inj in E'; lia.
    + apply (py_in_false _ _ Hin). now apply Hsub.
Qed.

(** X27. The labels [set_header_row] makes from a header row: one per cell,
    none missing and none empty; each is the cell itself or [column_<i>] for
    its position [i]. When no cell of the row is itself a text of the form
    [column_<i>], no label equals an earlier one. Without that proviso labels
    can repeat, since a made-up name is not checked against the names seen
    so far. *)
Theorem make_unique_header_labels (new_header : list value) :
  let unique_header := make_unique_header new_header in
  length unique_header = length new_header /\
  Forall (fun col => isna col = false /\ py_eq col (VStr EmptyString) = false)
         unique_header /\
  (forall (i : nat) col,
     unique_header !! i = Some col ->
     new_header !! i = Some col \/
     col = VStr ("column_" +:+ string_of_list_ascii (Py.str (Z.of_nat i)))) /\
  ((forall col i, col ∈ new_header ->
      col <> VStr ("column_" +:+ string_of_list_ascii (Py.str i))) ->
   ForallOrdPairs (fun a b => py_eq b a = false) unique_header) /\
  make_unique_header [VStr "column_1"; VStr EmptyString]
  = [VStr "column_1"; VStr "column_1"].
Proof.
  intros unique_header. unfold unique_header, make_unique_header, Py.enumerate.
  destruct (unique_header_loop_spec new_header 0 [] []) as (tail & E & Hlen & Hgood & Hpos).
  cbn [app] in E. rewrite E.
  split; [exact Hlen|]. split; [exact Hgood|]. split; [exact Hpos|].
  split; [|reflexivity].
  intros Hh. rewrite <- E.
  apply unique_header_loop_distinct.
  - lia.
  - intros a Ha. exact Ha.
  - intros a Ha. apply elem_of_nil in Ha. contradiction.
  - exact Hh.
  - constructor.
Qed.

Lemma make_unique_header_labels_witness :
  ForallOrdPairs (fun a b => py_eq b a = false)
    (make_unique_header [VStr "x"; VStr "x"; VNone; VInt 2]).
Proof.
  destruct (make_unique_header_labels [VStr "x"; VStr "x"; VNone; VInt 2])
    as (_ & _ & _ & H & _).
  apply H. intros col i Hcol.
  repeat (apply elem_of_cons in Hcol as [-> | Hcol];
          [intros E; cbn in E; discriminate E|]).
  apply elem_of_nil in Hcol. contradiction.
Defined.

End HeaderLabels.

(** ** Promoting any row to the header *)

Section HeaderRowAnywhere.
Import Frame Extern DataManager.

Lemma index_some_below {A} (l : list A) (i : Z) (x : A) :
  Py.index l i = Some x -> i < Z.of_nat (length l).
Proof.
  unfold Py.index.
  destruct ((0 <=? i) && (i <? Z.of_nat (length l))) eqn:E1.
  - apply andb_true_iff in E1 as [_ E1]. apply Z.ltb_lt in E1. lia.
  - destruct ((- Z.of_nat (length l) <=? i) && (i <? 0)) eqn:E2; [|discriminate].
    apply andb_true_iff in E2 as [_ E2]. apply Z.ltb_lt in E2. lia.
Qed.

Lemma index_outside {A} (l : list A) (i : Z) :
  Z.of_nat (length l) <= i \/ i < - Z.of_nat (length l) -> Py.index l i = None.
Proof.
  intros H. unfold Py.index.
  replace ((0 <=? i) && (i <? Z.of_nat (length l))) with false.
  2:{ symmetry. apply andb_false_iff. rewrite Z.leb_gt, Z.ltb_ge. lia. }
  replace ((- Z.of_nat (length l) <=? i) && (i <? 0)) with false.
  2:{ symmetry. apply andb_false_iff. rewrite Z.leb_gt, Z.ltb_ge. lia. }
  reflexivity.
Qed.

Lemma header_row_recorded dm2 n dfX header_row rec :
  get_table dm2 n = Some dfX ->
  let dm3 := _update_table_metadata dm2 n None None in
  let dm4 :=
    match table_metadata dm3 !! n with
    | Some m =>
        with_table_metadata dm3
          (<[n := TableMetadata.set_header_row m header_row]> (table_metadata dm3))
    | None => dm3
    end in
  let dm5 := with_history dm4 (TableHistory.add_operation (history dm4) rec) in
  get_table dm5 n = Some dfX /\
  heap dm5 = heap dm2 /\
  TableHistory._snapshot_cache (history dm5) = TableHistory._snapshot_cache (history dm2) /\
  TableHistory._redo_stack (history dm5) = ∅ /\
  exists m,
    table_metadata dm5 !! n = Some m /\
    TableMetadata.header_row m = header_row /\
    TableMetadata.total_rows m = len dfX /\
    TableMetadata.columns m = columns dfX.
Proof.
  intros Hg dm3 dm4 dm5.
  assert (Hm : exists m0,
             table_metadata dm3 !! n = Some m0 /\
             TableMetadata.total_rows m0 = len dfX /\
             TableMetadata.columns m0 = columns dfX).
  { unfold dm3, _update_table_metadata. rewrite Hg.
    cbn [table_metadata with_table_metadata]. rewrite lookup_insert_eq.
    eexists. split; [reflexivity|]. split; reflexivity. }
  destruct Hm as (m0 & Hm0 & Hr0 & Hc0).
  unfold dm5, dm4. rewrite Hm0.
  split.
  { unfold get_table in *. cbn [tables heap with_history with_table_metadata].
    unfold dm3. rewrite update_metadata_tables, update_metadata_heap. exact Hg. }
  split.
  { cbn [heap with_history with_table_metadata]. unfold dm3. apply update_metadata_heap. }
  split.
  { cbn [history with_history with_table_metadata TableHistory.add_operation
         TableHistory._snapshot_cache].
    unfold dm3. now rewrite update_metadata_history. }
  split; [reflexivity|].
  cbn [table_metadata with_history with_table_metadata]. rewrite lookup_insert_eq.
  eexists. split; [reflexivity|]. cbn. auto.
Qed.

(** X28. [set_header_row] for any row index. An index at or beyond the
    number of rows, or further below zero than the number of rows, fails and
    changes nothing. Otherwise the row the index denotes (counted from the
    end when negative) gives the labels, as [tolist] returns its cells: as
    they are in a frame that holds text, and converted to the common dtype
    of the columns otherwise, so that an integer beside a float column
    becomes a float label. The result carries these labels, made unique. The
    frame the table was bound to is relabelled in place, with the labels as
    the new [Index] holds them (numbers with a float among them all as
    floats); for an index above zero the table is bound to a new frame
    holding only the rows below the header row, and for an index that is
    zero or negative every row stays. The metadata record the header row and
    the new shape, the redo stacks are emptied, and no snapshot is taken. *)
Theorem set_header_row_effect (env : Env) (dm : DataManager) (n : string) (l : loc)
    (df : DataFrame) (header_row : Z) :
  tables dm !! n = Some l ->
  heap dm !! l = Some df ->
  (len df <= header_row \/ header_row < - len df ->
     set_header_row env dm n header_row = (SetHeaderError, dm)) /\
  (forall row,
     Py.index (rows df) header_row = Some row ->
     let new_header := if has_text df then row else map (interleaved env df) row in
     let unique_header := make_unique_header new_header in
     let labels := index_labels unique_header in
     let kept :=
       if 0 <? header_row then drop (Z.to_nat (header_row + 1)) (rows df) else rows df in
     exists msg dm',
       set_header_row env dm n header_row
       = (SetHeaderOk n header_row unique_header msg, dm') /\
       get_table dm' n = Some {| columns := labels; rows := kept |} /\
       heap dm' !! l = Some {| columns := labels; rows := rows df |} /\
       TableHistory._snapshot_cache (history dm')
       = TableHistory._snapshot_cache (history dm) /\
       TableHistory._redo_stack (history dm') = ∅ /\
       exists m,
         table_metadata dm' !! n = Some m /\
         TableMetadata.header_row m = header_row /\
         TableMetadata.total_rows m = Z.of_nat (length kept) /\
         TableMetadata.columns m = labels).
Proof.
  intros Ht Hh. split.
  - intros Hout. unfold set_header_row. rewrite Ht, Hh.
    destruct (len df <=? header_row) eqn:E; [reflexivity|].
    rewrite index_outside; [reflexivity|]. unfold len in *. lia.
  - intros row Hidx new_header unique_header labels kept.
    pose proof (index_some_below _ _ _ Hidx) as Hlt.
    unfold set_header_row. rewrite Ht, Hh.
    replace (len df <=? header_row) with false
      by (symmetry; apply Z.leb_gt; unfold len; lia).
    rewrite Hidx. change (tolist env df row) with new_header. fold unique_header.
    fold labels.
    set (df1 := {| columns := labels; rows := rows df |}).
    set (dm1 := with_heap dm (<[l := df1]> (heap dm))).
    destruct (0 <? header_row) eqn:Epos.
    + set (df2 := {| columns := labels;
                     rows := drop (Z.to_nat (header_row + 1)) (rows df) |}).
      set (l2 := fresh (dom (heap dm1))).
      set (dm2 := with_tables (with_heap dm1 (<[l2 := df2]> (heap dm1)))
                    (<[n := l2]> (tables dm1))).
      assert (Hg : get_table dm2 n = Some df2).
      { unfold get_table, dm2. cbn [tables heap with_tables with_heap].
        rewrite lookup_insert_eq. cbn. apply lookup_insert_eq. }
      match goal with
      | |- context [TableHistory.add_operation _ ?r] =>
          destruct (header_row_recorded dm2 n df2 header_row r Hg)
            as (H1 & H2 & H3 & H4 & m & H5 & H6 & H7 & H8)
      end.
      eexists _, _. split; [reflexivity|].
      split; [exact H1|]. split.
      { rewrite H2. unfold dm2. cbn [heap with_tables with_heap].
        rewrite lookup_insert_ne.
        - unfold dm1. cbn [heap with_heap]. apply lookup_insert_eq.
        - intros E. pose proof (fresh_not_live (heap dm1)) as Hf. fold l2 in Hf.
          rewrite E in Hf. unfold dm1 in Hf. cbn [heap with_heap] in Hf.
          rewrite lookup_insert_eq in Hf. discriminate. }
      split; [exact H3|]. split; [exact H4|].
      exists m. split; [exact H5|]. split; [exact H6|]. split; [exact H7 | exact H8].
    + set (dm2 := with_tables dm1 (<[n := l]> (tables dm1))).
      assert (Hg : get_table dm2 n = Some df1).
      { unfold get_table, dm2, dm1. cbn [tables heap with_tables with_heap].
        rewrite lookup_insert_eq. cbn. apply lookup_insert_eq. }
      match goal with
      | |- context [TableHistory.add_operation _ ?r] =>
          destruct (header_row_recorded dm2 n df1 header_row r Hg)
            as (H1 & H2 & H3 & H4 & m & H5 & H6 & H7 & H8)
      end.
      eexists _, _. split; [reflexivity|].
      split; [exact H1|]. split.
      { rewrite H2. unfold dm2, dm1. cbn [heap with_tables with_heap].
        apply lookup_insert_eq. }
      split; [exact H3|]. split; [exact H4|].
      exists m. split; [exact H5|]. split; [exact H6|]. split; [exact H7 | exact H8].
Qed.

(** In the workbook, which holds text, row 1 gives the labels 1 and 2; in
    the rates, an integer beside a float column, row 0 gives the labels 3.0
    and 4.5. *)
Lemma set_header_row_effect_witness :
  (exists msg dm',
     set_header_row Sample.env Sample.loaded "t" 1
     = (SetHeaderOk "t" 1 [VInt 1; VInt 2] msg, dm') /\
     get_table dm' "t" = Some {| columns := [VInt 1; VInt 2]; rows := [[VInt 3; VInt 4]] |} /\
     heap dm' !! 0%nat = Some {| columns := [VInt 1; VInt 2]; rows := rows Sample.book |}) /\
  (exists msg dm',
     set_header_row Sample.env Sample.rates_loaded "r" 0
     = (SetHeaderOk "r" 0 [VFloat 3; VFloat 4.5] msg, dm') /\
     get_table dm' "r"
     = Some {| columns := [VFloat 3; VFloat 4.5]; rows := rows Sample.rates |}).
Proof.
  split.
  - pose proof (set_header_row_effect Sample.env Sample.loaded "t" 0%nat Sample.book 1
                  eq_refl eq_refl) as [_ H].
    destruct (H [VInt 1; VInt 2] eq_refl) as (msg & dm' & H1 & H2 & H3 & _).
    exists msg, dm'. split; [exact H1|]. split; [exact H2 | exact H3].
  - pose proof (set_header_row_effect Sample.env Sample.rates_loaded "r" 0%nat Sample.rates 0
                  eq_refl eq_refl) as [_ H].
    destruct (H [VInt 3; VFloat 4.5%float] eq_refl) as (msg & dm' & H1 & H2 & _).
    exists msg, dm'. split; [exact H1 | exact H2].
Defined.

End HeaderRowAnywhere.
